(** * The question-answering graph of [simple_langgraph_test.py]

    A shallow embedding of the LangGraph nodes, the router and the
    ingestion helpers of the repository, with the properties that its
    specification states about them.

    Python values are modelled as follows.
    - [os.environ] is a finite map from names to values; [os.getenv k] is
      the lookup [env !! k].
    - A node is a function from the environment, the outside world and the
      session state to a run: the trace of the effects it performed (console
      lines and calls to external services, in order) and either the
      exception it raised or the delta dictionary it returned.
    - The external services (object store, index, language model, file
      system) are oracles gathered in the record [World]; every statement
      quantifies over all of them. *)

From Stdlib Require Import ZArith Ascii String DecimalString.
From stdpp Require Import gmap strings list sorting.

Local Open Scope Z_scope.

(** ** Python strings *)

Module PyStr.

Definition nl : string := String (ascii_of_nat 10) EmptyString.

(** Truth value of an [Optional[str]]: [None] and [""] are falsy. *)
Definition truthy (o : option string) : bool :=
  match o with
  | Some (String _ _) => true
  | _ => false
  end.

(** [sep.join(ls)] *)
Definition join (sep : string) (ls : list string) : string :=
  String.concat sep ls.

(** [s.split(sep)] for a separator of one character. *)
Fixpoint split (sep : ascii) (s : string) : list string :=
  match s with
  | EmptyString => [EmptyString]
  | String c s' =>
      if Ascii.eqb c sep then EmptyString :: split sep s'
      else match split sep s' with
           | h :: t => String c h :: t
           | [] => [String c EmptyString]
           end
  end.

(** [l[-1]] on a list of strings known to be non-empty. *)
Definition last_of (l : list string) : string := List.last l EmptyString.

(** [int(s)] on a plain numeral.  A string of 1 to 640 ASCII digits is
    converted to its decimal value by every interpreter: leading zeros are
    allowed, and the limit on the length of converted numerals cannot be
    set below 640 digits.  [decimal] answers [None] on every other string,
    on which it does not speak. *)
Fixpoint digits_value (acc : Z) (s : string) : option Z :=
  match s with
  | EmptyString => Some acc
  | String c s' =>
      let n := nat_of_ascii c in
      if ((48 <=? n)%nat && (n <=? 57)%nat)%bool
      then digits_value (10 * acc + Z.of_nat (n - 48)) s'
      else None
  end.

Definition decimal (s : string) : option Z :=
  match s with
  | EmptyString => None
  | _ => if (String.length s <=? 640)%nat then digits_value 0 s else None
  end.

(** [c in s] for a character. *)
Fixpoint has_char (c : ascii) (s : string) : bool :=
  match s with
  | EmptyString => false
  | String c' s' => Ascii.eqb c' c || has_char c s'
  end.

(** [s.startswith(p)] *)
Fixpoint startswith (p s : string) : bool :=
  match p, s with
  | EmptyString, _ => true
  | String a p', String b s' => Ascii.eqb a b && startswith p' s'
  | String _ _, EmptyString => false
  end.

(** [s.endswith("/")] *)
Fixpoint ends_with_sep (s : string) : bool :=
  match s with
  | EmptyString => false
  | String c EmptyString => Ascii.eqb c "/"
  | String _ s' => ends_with_sep s'
  end.

(** [s.replace(old, new)] for a non-empty [old]: occurrences are replaced
    from the left and do not overlap.  [skip] counts the characters of a
    match that are still to be dropped. *)
Fixpoint replace_from (skip : nat) (old new s : string) : string :=
  match s with
  | EmptyString => EmptyString
  | String c s' =>
      match skip with
      | S k => replace_from k old new s'
      | O =>
          if startswith old s
          then new +:+ replace_from (Nat.pred (String.length old)) old new s'
          else String c (replace_from O old new s')
      end
  end.

Definition replace (old new s : string) : string := replace_from O old new s.

(** [str(n)] for an integer. *)
Definition of_Z (n : Z) : string := NilZero.string_of_int (Z.to_int n).

(** [str(o)] for an [Optional[str]]. *)
Definition of_option (o : option string) : string :=
  match o with
  | Some s => s
  | None => "None"
  end.

(** [os.path.join(a, b)] on POSIX. *)
Definition path_join (a b : string) : string :=
  if startswith "/" b then b
  else match a with
       | EmptyString => b
       | _ => if ends_with_sep a then a +:+ b else a +:+ "/" +:+ b
       end.

(** [sorted(ls)]: strings compare by code point, which on their UTF-8
    encoding is the byte-wise lexicographic order. *)
Definition le (a b : string) : Prop := String.leb a b = true.

#[global] Instance le_dec : RelDecision le.
Proof. intros a b. unfold le. apply _. Defined.

Definition sorted (ls : list string) : list string := merge_sort le ls.

End PyStr.

(** ** Exceptions, effects and runs *)

Inductive Exn :=
| ValueError (msg : string)          (* [raise ValueError(msg)] *)
| InvalidLiteral (fn lit : string)   (* the [ValueError] of [int(lit)] or [float(lit)] *)
| IndexError (msg : string)
| AttributeError (attr : string)     (* reading an attribute the object lacks *)
| ServiceError (descr : string).     (* raised inside an external client *)

(** What an external call gives back: it raises or it returns. *)
Inductive outcome (A : Type) :=
| Failed (descr : string)
| Returned (a : A).
Arguments Failed {A} descr.
Arguments Returned {A} a.

(** [str(e)], as the logging handler of [retrieve_node] prints it.  The
    handler only ever sees errors of the external clients; the text given
    for a conversion error leaves out the quoting of the literal, and the
    one for a missing attribute the name of the class. *)
Definition exn_str (e : Exn) : string :=
  match e with
  | ValueError msg => msg
  | InvalidLiteral fn lit => "invalid literal for " +:+ fn +:+ "(): " +:+ lit
  | IndexError msg => msg
  | AttributeError attr => "object has no attribute '" +:+ attr +:+ "'"
  | ServiceError descr => descr
  end.

(** *** Messages *)

Inductive MessageKind := human | ai | system.

Inductive Content :=
| Text (s : string)
| Parts (ps : list (list (string * string))).

Record BaseMessage := {
  kind : MessageKind;
  content : Content;
  metadata : list (string * string)
}.

Definition HumanMessage (c : string) : BaseMessage :=
  {| kind := human; content := Text c; metadata := [] |}.
Definition SystemMessage (c : string) : BaseMessage :=
  {| kind := system; content := Text c; metadata := [] |}.
Definition AIMessage (c : string) (md : list (string * string)) : BaseMessage :=
  {| kind := ai; content := Text c; metadata := md |}.

(** *** Objects of the retrieval service *)

Module Rag.

(** A timestamp, by its [str] rendering; as an object it is always truthy. *)
Record Timestamp := { ts_str : string }.

(** [file_status]; [state] is [None] when the attribute is missing, else
    the enum member by its [str] rendering, such as ["State.ACTIVE"]. *)
Record FileStatus := { state : option string }.

Record GcsSource := { uris : list string }.

(** A listed file.  [file_status] is [None] when the object has no such
    attribute; the other optional fields are [None] when they hold [None]
    (for [user_metadata], also when the attribute is missing). *)
Record RagFile := {
  display_name : string;
  description : option string;
  file_status : option FileStatus;
  gcs_source : option GcsSource;
  create_time : option Timestamp;
  update_time : option Timestamp;
  user_metadata : option string
}.

(** A retrieved passage; [text] is [None] when the attribute is missing. *)
Record Context := { text : option string }.

(** The object [resp.contexts].  [nested] is its attribute [contexts]
    ([None] when it has none); [elements] is what iterating over the object
    itself yields. *)
Record ContextsField := {
  nested : option (list Context);
  elements : list Context
}.

(** The response of a retrieval query; [contexts] is [None] when the
    response has no such attribute. *)
Record Response := { contexts : option ContextsField }.

Record ImportResponse := {
  imported_rag_files_count : Z;
  skipped_rag_files_count : Z
}.

End Rag.

(** *** The language model *)

Inductive Temperature :=
| DefaultTemperature                 (* 0.7 *)
| TemperatureOf (lit : string).      (* float(lit) *)

Record ChatModel := {
  model : string;
  project : option string;
  location : string;
  temperature : Temperature;
  max_output_tokens : Z
}.

Record QuestionTypeResponse := { response_question_type : option string }.

(** *** The outside world

    Besides the services, the record holds the two conversions of the
    interpreter that the sources apply to settings: [float_accepts lit]
    tells whether [float(lit)] returns, and [int_of_str lit] is the value
    of [int(lit)], or [None] when it raises [ValueError].  [int_of_str] is
    consulted only on strings that are neither empty nor plain numerals:
    signed or padded numerals, numerals with underscores or with the
    digits of another script, longer numerals, and everything that is no
    numeral at all. *)

Record World := {
  os_listdir : string -> outcome (list string);
  storage_client : outcome unit;
  upload_from_filename : string -> string -> string -> outcome unit;
  vertexai_init : string -> string -> outcome unit;
  rag_import_files : string -> list string -> Z -> Z -> outcome Rag.ImportResponse;
  rag_list_files : option string -> outcome (list Rag.RagFile);
  rag_retrieval_query : string -> Content -> Z -> outcome Rag.Response;
  float_accepts : string -> bool;
  int_of_str : string -> option Z;
  chat_model : ChatModel -> outcome unit;
  llm_invoke : ChatModel -> list BaseMessage -> outcome BaseMessage;
  llm_invoke_structured :
    ChatModel -> list BaseMessage -> outcome QuestionTypeResponse
}.

(** The dictionary returned by [upload_file_by_index]. *)
Record UploadResult := {
  filename : string;
  gcs_uri_of : string;
  imported_count : Z;
  skipped_count : Z
}.

Inductive Event :=
| Print (line : string)
| PrintUploadResult (r : UploadResult)
| CallListdir (dir : string)
| CallStorageClient
| CallUpload (bucket_name dest_blob local_file : string)
| CallVertexInit (project location : string)
| CallImportFiles (corpus : string) (paths : list string) (chunk_size chunk_overlap : Z)
| CallListFiles (corpus : option string)
| CallRetrievalQuery (corpus : string) (text : Content) (top_k : Z)
| CallChatModel (cfg : ChatModel)
| CallInvoke (cfg : ChatModel) (msgs : list BaseMessage)
| CallInvokeStructured (cfg : ChatModel) (msgs : list BaseMessage).

(** A run: the effects performed, in order, and how it ended. *)
Definition Run (A : Type) : Type := list Event * (Exn + A).

Definition ret {A} (a : A) : Run A := ([], inr a).
Definition raise {A} (e : Exn) : Run A := ([], inl e).
Definition print (line : string) : Run unit := ([Print line], inr tt).

Definition call {A} (ev : Event) (o : outcome A) : Run A :=
  ([ev], match o with
         | Failed d => inl (ServiceError d)
         | Returned a => inr a
         end).

Definition bind {A B} (m : Run A) (k : A -> Run B) : Run B :=
  match m with
  | (t, inl e) => (t, inl e)
  | (t, inr a) => let (t', r) := k a in (t ++ t', r)
  end.

(** [try: m except Exception as e: h(e); raise] *)
Definition try_reraise {A} (m : Run A) (h : Exn -> Run unit) : Run A :=
  match m with
  | (t, inl e) => (t ++ fst (h e), inl e)
  | r => r
  end.

Notation "'let*' x ':=' m 'in' k" := (bind m (fun x => k))
  (at level 10, x name, m at level 100, k at level 200,
   format "'[v' 'let*'  x  ':='  m  'in' '/' k ']'").

Definition trace {A} (r : Run A) : list Event := fst r.
Definition result {A} (r : Run A) : Exn + A := snd r.

(** ** The session state and the deltas of the nodes *)

Record CorpusData := {
  name : string;
  description : string;
  status : string;
  gcs_uri : string;
  created : string;
  updated : string;
  user_metadata : option string
}.

(** [question_type] is annotated [Optional[Literal["corpus_overview",
    "specific_query"]]]; it is kept as an optional string so that the
    router is defined on every value. *)
Record GraphState := {
  messages : list BaseMessage;
  question_type : option string;
  corpus_data : option (list CorpusData)
}.

(** The dictionary a node returns.  A field is [None] when the key is not
    in the dictionary; [d_question_type = Some None] is the key bound to
    [None]. *)
Record Delta := {
  d_messages : option (list BaseMessage);
  d_question_type : option (option string);
  d_corpus_data : option (list CorpusData)
}.

Definition only_messages (ms : list BaseMessage) : Delta :=
  {| d_messages := Some ms; d_question_type := None; d_corpus_data := None |}.

(** Modelled from the spec: the reducer [add_messages] and the state update
    of the graph engine are library code, not part of the sources.  As the
    specification has it, a [messages] delta is concatenated to the existing
    sequence, and a [question_type] or [corpus_data] delta overwrites the
    existing value when the key is present and is ignored otherwise. *)
Definition merge (s : GraphState) (d : Delta) : GraphState :=
  {| messages := messages s ++ default [] (d_messages d);
     question_type := default (question_type s) (d_question_type d);
     corpus_data :=
       match d_corpus_data d with
       | Some l => Some l
       | None => corpus_data s
       end |}.

(** ** shared/lc_llm.py *)

(** [int(lit)]: the empty string is rejected, a plain numeral has its
    decimal value, and the interpreter of the world decides the rest. *)
Definition int_value (w : World) (lit : string) : option Z :=
  match lit with
  | EmptyString => None
  | _ =>
      match PyStr.decimal lit with
      | Some n => Some n
      | None => int_of_str w lit
      end
  end.

Definition int_of (w : World) (lit : string) : Run Z :=
  match int_value w lit with
  | Some n => ret n
  | None => raise (InvalidLiteral "int" lit)
  end.

Definition float_of (w : World) (lit : string) : Run Temperature :=
  if float_accepts w lit then ret (TemperatureOf lit)
  else raise (InvalidLiteral "float" lit).

Definition get_lc_llm (env : gmap string string) (w : World) : Run ChatModel :=
  let temperature_str := env !! "VERTEX_TEMPERATURE" in
  let* temp :=
    if PyStr.truthy temperature_str
    then float_of w (default "" temperature_str)
    else ret DefaultTemperature in
  let* max_tokens := int_of w (default "8192" (env !! "VERTEX_MAX_TOKENS")) in
  let cfg := {| model := default "gemini-2.5-flash" (env !! "VERTEX_MODEL");
                project := env !! "GCP_PROJECT_ID";
                location := default "us-central1" (env !! "GCP_LOCATION");
                temperature := temp;
                max_output_tokens := max_tokens |} in
  let* _ := call (CallChatModel cfg) (chat_model w cfg) in
  ret cfg.

(** ** shared/gcp_rag_helpers.py *)

(** [if not v: raise ValueError(f"{var} environment variable is required")];
    the value is returned for the code that follows the check. *)
Definition required (var : string) (v : option string) : Run string :=
  match v with
  | Some (String c s) => ret (String c s)
  | _ => raise (ValueError (var +:+ " environment variable is required"))
  end.

Definition upload_to_gcs (w : World) (local_file bucket dest_blob : string)
  : Run string :=
  let* _ := call CallStorageClient (storage_client w) in
  let bucket_name := PyStr.replace "gs://" "" bucket in
  let* _ := call (CallUpload bucket_name dest_blob local_file)
                 (upload_from_filename w bucket_name dest_blob local_file) in
  let gcs_uri := "gs://" +:+ bucket_name +:+ "/" +:+ dest_blob in
  let* _ := print ("Uploaded: " +:+ gcs_uri) in
  ret gcs_uri.

Definition import_files_to_rag_corpus (env : gmap string string) (w : World)
    (corpus_name : string) (gcs_uris : list string)
    (chunk_size chunk_overlap : Z) : Run (Z * Z) :=
  let* project_id := required "GCP_PROJECT_ID" (env !! "GCP_PROJECT_ID") in
  let* location := required "GCP_LOCATION" (env !! "GCP_LOCATION") in
  let* _ := call (CallVertexInit project_id location)
                 (vertexai_init w project_id location) in
  let* resp := call (CallImportFiles corpus_name gcs_uris chunk_size chunk_overlap)
                    (rag_import_files w corpus_name gcs_uris chunk_size chunk_overlap) in
  let res := (Rag.imported_rag_files_count resp, Rag.skipped_rag_files_count resp) in
  let* _ := print ("Imported: " +:+ PyStr.of_Z (fst res) +:+ ", Skipped: "
                   +:+ PyStr.of_Z (snd res)) in
  ret res.

Definition list_corpus_files (env : gmap string string) (w : World)
    (corpus_name : option string) : Run (list Rag.RagFile) :=
  let* project_id := required "GCP_PROJECT_ID" (env !! "GCP_PROJECT_ID") in
  let* location := required "GCP_LOCATION" (env !! "GCP_LOCATION") in
  let* _ := call (CallVertexInit project_id location)
                 (vertexai_init w project_id location) in
  call (CallListFiles corpus_name) (rag_list_files w corpus_name).

(** [files[index]] once the guard has established [0 <= index < len(files)]. *)
Definition item (files : list string) (index : Z) : string :=
  default "" (files !! Z.to_nat index).

Definition upload_file_by_index (env : gmap string string) (w : World)
    (index : Z) (bucket corpus_name files_dir : string)
    (chunk_size chunk_overlap : Z) : Run UploadResult :=
  let* listing := call (CallListdir files_dir) (os_listdir w files_dir) in
  let files := PyStr.sorted listing in
  if (index <? 0) || (Z.of_nat (length files) <=? index)
  then raise (IndexError ("Index " +:+ PyStr.of_Z index +:+ " out of range. Found "
                          +:+ PyStr.of_Z (Z.of_nat (length files)) +:+ " files."))
  else
    let filename := item files index in
    let* _ := print ("Uploading file: " +:+ filename) in
    let local_path := PyStr.path_join files_dir filename in
    let* gcs_uri := upload_to_gcs w local_path bucket filename in
    let* import_result :=
      import_files_to_rag_corpus env w corpus_name [gcs_uri] chunk_size chunk_overlap in
    ret {| filename := filename;
           gcs_uri_of := gcs_uri;
           imported_count := fst import_result;
           skipped_count := snd import_result |}.

(** ** simple_langgraph_test.py: the nodes *)

Definition Node : Type := gmap string string -> World -> GraphState -> Run Delta.

(** [ms[-1]] *)
Definition last_message (ms : list BaseMessage) : Run BaseMessage :=
  match last ms with
  | Some m => ret m
  | None => raise (IndexError "list index out of range")
  end.

Definition upload_node : Node := fun env w state =>
  let bucket := env !! "GCS_BUCKET" in
  let corpus := env !! "RAG_CORPUS" in
  if negb (PyStr.truthy bucket) || negb (PyStr.truthy corpus)
  then
    let* _ := print (PyStr.nl +:+ "[ERROR] GCS_BUCKET and RAG_CORPUS env vars must be set for upload.") in
    ret (only_messages [])
  else
    let* _ := print (PyStr.nl +:+ "[INFO] Starting upload and RAG import for file at index 1...") in
    let* res := upload_file_by_index env w 1 (default "" bucket) (default "" corpus)
                                     "files_to_upload" 1024 256 in
    let* _ := ([PrintUploadResult res], inr tt) in
    ret (only_messages []).

(** The passage texts of a response. *)
Definition context_texts_of (resp : Rag.Response) : list string :=
  match Rag.contexts resp with
  | Some field =>
      let contexts :=
        match Rag.nested field with
        | None => Rag.elements field
        | Some inner => inner
        end in
      omap Rag.text contexts
  | None => []
  end.

(** The texts with a blank line between each two, as the specification
    words the context block: after a text that is not the last come the
    two line feeds of an empty line. *)
Fixpoint blank_line_joined (texts : list string) : string :=
  match texts with
  | [] => EmptyString
  | [t] => t
  | t :: rest =>
      t +:+ String "010"%char (String "010"%char EmptyString)
        +:+ blank_line_joined rest
  end.

Definition no_context : string :=
  "No relevant context was found in the knowledge base.".

Definition context_text_of (context_texts : list string) : string :=
  match context_texts with
  | [] => no_context
  | _ => PyStr.join (PyStr.nl +:+ PyStr.nl) context_texts
  end.

Definition retrieve_node : Node := fun env w state =>
  let corpus := env !! "RAG_CORPUS" in
  let project := env !! "GCP_PROJECT_ID" in
  let location := env !! "GCP_LOCATION" in
  let* top_k := int_of w (default "5" (env !! "RAG_TOP_K")) in
  let* last_msg := last_message (messages state) in
  let user_message := content last_msg in
  let* corpus := required "RAG_CORPUS" corpus in
  let* project := required "GCP_PROJECT_ID" project in
  let* location := required "GCP_LOCATION" location in
  let* resp :=
    try_reraise
      (let* _ := call (CallVertexInit project location)
                      (vertexai_init w project location) in
       call (CallRetrievalQuery corpus user_message top_k)
            (rag_retrieval_query w corpus user_message top_k))
      (fun e => print (PyStr.nl +:+ "[ERROR] RAG retrieval failed: " +:+ exn_str e)) in
  let context_texts := context_texts_of resp in
  let context_text := context_text_of context_texts in
  ret (only_messages [AIMessage context_text [("type", "rag_context")]]).

Definition status_of (f : Rag.RagFile) : string :=
  match Rag.file_status f with
  | Some fs =>
      match Rag.state fs with
      | Some st => PyStr.last_of (PyStr.split "." st)
      | None => "UNKNOWN"
      end
  | None => "UNKNOWN"
  end.

Definition gcs_uri_from (f : Rag.RagFile) : string :=
  match Rag.gcs_source f with
  | Some src =>
      match Rag.uris src with
      | u :: _ => u
      | [] => "N/A"
      end
  | None => "N/A"
  end.

Definition time_str (t : option Rag.Timestamp) : string :=
  match t with
  | Some ts => Rag.ts_str ts
  | None => "N/A"
  end.

Definition corpus_entry (f : Rag.RagFile) : CorpusData :=
  {| name := Rag.display_name f;
     description := if PyStr.truthy (Rag.description f)
                    then default "" (Rag.description f) else "";
     status := status_of f;
     gcs_uri := gcs_uri_from f;
     created := time_str (Rag.create_time f);
     updated := time_str (Rag.update_time f);
     user_metadata := if PyStr.truthy (Rag.user_metadata f)
                      then Rag.user_metadata f else None |}.

Definition corpus_data_node : Node := fun env w state =>
  let corpus := env !! "RAG_CORPUS" in
  let* files := list_corpus_files env w corpus in
  let corpus_data_list := map corpus_entry files in
  ret {| d_messages := None; d_question_type := None;
         d_corpus_data := Some corpus_data_list |}.

Definition classifier_prompt : string :=
  "Analyze the user's question and determine its type:" +:+ PyStr.nl +:+
  "1. 'corpus_overview' - if asking about all files, listing files, or general overview of the knowledge base" +:+ PyStr.nl +:+
  "2. 'specific_query' - if asking a specific question that needs to be answered from particular file(s)" +:+ PyStr.nl +:+ PyStr.nl +:+
  "Respond with ONLY 'corpus_overview' or 'specific_query'.".

Definition determine_question_type : Node := fun env w state =>
  let* llm := get_lc_llm env w in
  let* last_msg := last_message (messages state) in
  let prompt := [SystemMessage classifier_prompt; last_msg] in
  let* response := call (CallInvokeStructured llm prompt)
                        (llm_invoke_structured w llm prompt) in
  let* _ := print (PyStr.nl +:+ "[INFO] Question type determined: "
                   +:+ PyStr.of_option (response_question_type response)) in
  ret {| d_messages := None;
         d_question_type := Some (response_question_type response);
         d_corpus_data := None |}.

Definition summary_prompt : string :=
  "You are a helpful assistant. Answer the user's question using the provided context.".

Definition summary_node : Node := fun env w state =>
  let* llm := get_lc_llm env w in
  let system_message := SystemMessage summary_prompt in
  let prompt_messages := system_message :: messages state in
  let* response := call (CallInvoke llm prompt_messages)
                        (llm_invoke w llm prompt_messages) in
  ret (only_messages [response]).

(** ** Conditional routing *)

Definition route_by_question_type (state : GraphState) : string :=
  if bool_decide (question_type state = Some "corpus_overview")
  then "corpus_data_node"
  else "retrieve_node".

(** ** The graph built in [main] *)

Definition START : string := "__start__".
Definition END : string := "__end__".

Definition nodes : list (string * Node) :=
  [ ("upload_node", upload_node);
    ("determine_question_type", determine_question_type);
    ("corpus_data_node", corpus_data_node);
    ("retrieve_node", retrieve_node);
    ("summary_node", summary_node) ].

Definition edges : list (string * string) :=
  [ (START, "determine_question_type");
    ("upload_node", "determine_question_type");
    ("corpus_data_node", "summary_node");
    ("retrieve_node", "summary_node");
    ("summary_node", END) ].

Definition conditional_edges
  : list (string * ((GraphState -> string) * list (string * string))) :=
  [ ("determine_question_type",
     (route_by_question_type,
      [ ("corpus_data_node", "corpus_data_node");
        ("retrieve_node", "retrieve_node") ])) ].

Fixpoint assoc {A} (k : string) (l : list (string * A)) : option A :=
  match l with
  | [] => None
  | (k', v) :: l' => if String.eqb k k' then Some v else assoc k l'
  end.

(** Modelled from the spec: the engine that drives the graph is library
    code, not part of the sources.  It runs one step at a time: the step is
    invoked on the current state, its delta is merged, and the outgoing edge
    is followed, through the routing function when the edge is conditional,
    until the terminal is reached; an exception raised by a step ends the
    invocation. *)
Definition successor (n : string) (s : GraphState) : option string :=
  match assoc n conditional_edges with
  | Some (router, branches) => assoc (router s) branches
  | None => assoc n edges
  end.

Definition step (env : gmap string string) (w : World) (n : string)
    (s : GraphState) : Run (GraphState * option string) :=
  match assoc n nodes with
  | Some f =>
      let* d := f env w s in
      let s' := merge s d in
      ret (s', successor n s')
  | None => raise (ValueError ("unknown node " +:+ n))
  end.

Fixpoint run (fuel : nat) (env : gmap string string) (w : World) (n : string)
    (s : GraphState) : Run (option GraphState) :=
  if String.eqb n END then ret (Some s)
  else match fuel with
       | O => ret None
       | S fuel' =>
           let* r := step env w n s in
           match snd r with
           | Some n' => run fuel' env w n' (fst r)
           | None => ret (Some (fst r))
           end
       end.

(** Every path of the graph has at most four steps. *)
Definition invoke_from (entry : string) (env : gmap string string) (w : World)
    (s : GraphState) : Run (option GraphState) :=
  run 4 env w entry s.

(** ** Observations on traces *)

Definition is_upload_or_import (ev : Event) : bool :=
  match ev with
  | CallStorageClient | CallUpload _ _ _ | CallImportFiles _ _ _ _ => true
  | _ => false
  end.

Definition is_model_call (ev : Event) : bool :=
  match ev with
  | CallInvoke _ _ | CallInvokeStructured _ _ => true
  | _ => false
  end.

(** The required-configuration errors of [retrieve_node]. *)
Definition config_error (var : string) : Exn :=
  ValueError (var +:+ " environment variable is required").

(** The number of steps from a node to the terminal, at most. *)
Definition depth (n : string) : nat :=
  if String.eqb n "upload_node" then 4
  else if String.eqb n "determine_question_type" then 3
  else if String.eqb n "corpus_data_node" then 2
  else if String.eqb n "retrieve_node" then 2
  else if String.eqb n "summary_node" then 1
  else 0.

(** The entry of the graph is the successor of [START]. *)
Definition invoke (env : gmap string string) (w : World) (s : GraphState)
  : Run (option GraphState) :=
  match assoc START edges with
  | Some entry => invoke_from entry env w s
  | None => raise (ValueError "graph has no entry point")
  end.

(** The nested status of a listed file: [None] when [file_status] or its
    [state] is missing. *)
Definition nested_state (f : Rag.RagFile) : option string :=
  Rag.file_status f ≫= Rag.state.

(** The state enumeration of the index has the members STATE_UNSPECIFIED,
    ACTIVE and ERROR, numbered 0, 1 and 2.  A member renders as its number
    or, on interpreters that render such members by name, as its
    qualified name.  A status that was never set upstream is the default
    member, STATE_UNSPECIFIED. *)
Definition unset_renderings : list string := ["0"; "State.STATE_UNSPECIFIED"].

Definition state_renderings : list string :=
  unset_renderings ++ ["1"; "State.ACTIVE"; "2"; "State.ERROR"].

(** The upstream status of a listed file is absent: the object has no
    [file_status.state], or that state is the default member. *)
Definition status_absent_upstream (f : Rag.RagFile) : Prop :=
  match nested_state f with
  | None => True
  | Some st => st ∈ unset_renderings
  end.

(** The first recorded source location of a listed file. *)
Definition first_uri (f : Rag.RagFile) : option string :=
  Rag.gcs_source f ≫= fun src => head (Rag.uris src).

(** The text of the bounds error of [upload_file_by_index]. *)
Definition out_of_range_message (index : Z) (found : nat) : string :=
  "Index " +:+ PyStr.of_Z index +:+ " out of range. Found "
  +:+ PyStr.of_Z (Z.of_nat found) +:+ " files.".

(** ** A concrete world, used to run the nodes *)

Module Sample.

Definition passage (s : string) : Rag.Context := {| Rag.text := Some s |}.

Definition file_a : Rag.RagFile :=
  {| Rag.display_name := "a.pdf";
     Rag.description := Some "first report";
     Rag.file_status := Some {| Rag.state := Some "State.ACTIVE" |};
     Rag.gcs_source := Some {| Rag.uris := ["gs://bucket/a.pdf"; "gs://bucket/old.pdf"] |};
     Rag.create_time := Some {| Rag.ts_str := "2024-01-02 03:04:05+00:00" |};
     Rag.update_time := None;
     Rag.user_metadata := Some "{}" |}.

Definition file_bare : Rag.RagFile :=
  {| Rag.display_name := "b.pdf";
     Rag.description := None;
     Rag.file_status := None;
     Rag.gcs_source := None;
     Rag.create_time := None;
     Rag.update_time := None;
     Rag.user_metadata := None |}.

(** A listed file whose status was never set: the object has all its
    attributes, and its state is the default member of the enumeration,
    rendered as its number. *)
Definition file_unset : Rag.RagFile :=
  {| Rag.display_name := "c.pdf";
     Rag.description := Some "";
     Rag.file_status := Some {| Rag.state := Some "0" |};
     Rag.gcs_source := Some {| Rag.uris := ["gs://bucket/c.pdf"] |};
     Rag.create_time := Some {| Rag.ts_str := "2024-01-02 03:04:05+00:00" |};
     Rag.update_time := Some {| Rag.ts_str := "2024-01-02 03:04:06+00:00" |};
     Rag.user_metadata := Some "" |}.

Definition response : Rag.Response :=
  {| Rag.contexts :=
       Some {| Rag.nested := Some [passage "Runway 27 is 5000 ft."; passage "Page 3."];
               Rag.elements := [] |} |}.

(** A world in which every service answers.  Its interpreter converts the
    temperature ["0.2"] and, besides the plain numerals, no string to an
    integer. *)
Definition world : World :=
  {| os_listdir := fun _ => Returned ["b.pdf"; "a.pdf"];
     storage_client := Returned tt;
     upload_from_filename := fun _ _ _ => Returned tt;
     vertexai_init := fun _ _ => Returned tt;
     rag_import_files :=
       fun _ _ _ _ => Returned {| Rag.imported_rag_files_count := 1;
                                  Rag.skipped_rag_files_count := 0 |};
     rag_list_files := fun _ => Returned [file_a; file_bare];
     rag_retrieval_query := fun _ _ _ => Returned response;
     float_accepts := fun lit => String.eqb lit "0.2";
     int_of_str := fun _ => None;
     chat_model := fun _ => Returned tt;
     llm_invoke := fun _ _ => Returned (AIMessage "The runway is 5000 ft long." []);
     llm_invoke_structured :=
       fun _ _ => Returned {| response_question_type := Some "specific_query" |} |}.

(** The same world with a staging directory that holds one file only. *)
Definition world_one_file : World :=
  {| os_listdir := fun _ => Returned ["a.pdf"];
     storage_client := storage_client world;
     upload_from_filename := upload_from_filename world;
     vertexai_init := vertexai_init world;
     rag_import_files := rag_import_files world;
     rag_list_files := rag_list_files world;
     rag_retrieval_query := rag_retrieval_query world;
     float_accepts := float_accepts world;
     int_of_str := int_of_str world;
     chat_model := chat_model world;
     llm_invoke := llm_invoke world;
     llm_invoke_structured := llm_invoke_structured world |}.

(** The same world with an index that lists [file_unset] only. *)
Definition world_unset : World :=
  {| os_listdir := os_listdir world;
     storage_client := storage_client world;
     upload_from_filename := upload_from_filename world;
     vertexai_init := vertexai_init world;
     rag_import_files := rag_import_files world;
     rag_list_files := fun _ => Returned [file_unset];
     rag_retrieval_query := rag_retrieval_query world;
     float_accepts := float_accepts world;
     int_of_str := int_of_str world;
     chat_model := chat_model world;
     llm_invoke := llm_invoke world;
     llm_invoke_structured := llm_invoke_structured world |}.

(** The same world with a model whose answer the structured call cannot
    parse: the call raises. *)
Definition world_unparseable : World :=
  {| os_listdir := os_listdir world;
     storage_client := storage_client world;
     upload_from_filename := upload_from_filename world;
     vertexai_init := vertexai_init world;
     rag_import_files := rag_import_files world;
     rag_list_files := rag_list_files world;
     rag_retrieval_query := rag_retrieval_query world;
     float_accepts := float_accepts world;
     int_of_str := int_of_str world;
     chat_model := chat_model world;
     llm_invoke := llm_invoke world;
     llm_invoke_structured :=
       fun _ _ => Failed "OutputParserException: Failed to parse QuestionTypeResponse" |}.

(** An environment with the project and nothing else. *)
Definition env_project_only : gmap string string :=
  list_to_map [ ("GCP_PROJECT_ID", "p") ].

Definition env : gmap string string :=
  list_to_map [ ("RAG_CORPUS", "projects/p/locations/us-central1/ragCorpora/1");
                ("GCP_PROJECT_ID", "p");
                ("GCP_LOCATION", "us-central1");
                ("GCS_BUCKET", "gs://bucket") ].

(** No corpus configured. *)
Definition env_no_corpus : gmap string string :=
  list_to_map [ ("GCP_PROJECT_ID", "p"); ("GCP_LOCATION", "us-central1") ].

(** A top-k setting that [int] does not convert. *)
Definition env_bad_top_k : gmap string string :=
  <["RAG_TOP_K" := "abc"]> env.

Definition env_no_corpus_bad_top_k : gmap string string :=
  <["RAG_TOP_K" := "abc"]> env_no_corpus.

Definition question : BaseMessage :=
  HumanMessage "What was the runway length at the airport?".

Definition state : GraphState :=
  {| messages := [question]; question_type := None; corpus_data := None |}.

Definition empty_state : GraphState :=
  {| messages := []; question_type := None; corpus_data := None |}.

End Sample.

(** ** Further observations and worlds *)

(** The world [w] with a staging directory that lists [ls]. *)
Definition with_listing (w : World) (ls : list string) : World :=
  {| os_listdir := fun _ => Returned ls;
     storage_client := storage_client w;
     upload_from_filename := upload_from_filename w;
     vertexai_init := vertexai_init w;
     rag_import_files := rag_import_files w;
     rag_list_files := rag_list_files w;
     rag_retrieval_query := rag_retrieval_query w;
     float_accepts := float_accepts w;
     int_of_str := int_of_str w;
     chat_model := chat_model w;
     llm_invoke := llm_invoke w;
     llm_invoke_structured := llm_invoke_structured w |}.

(** The effects of the ingestion path. *)
Definition is_ingestion (ev : Event) : bool :=
  match ev with
  | CallListdir _ | CallStorageClient | CallUpload _ _ _
  | CallImportFiles _ _ _ _ | PrintUploadResult _ => true
  | _ => false
  end.

(** Calls that leave the process. *)
Definition is_remote_call (ev : Event) : bool :=
  match ev with
  | Print _ | PrintUploadResult _ | CallListdir _ => false
  | _ => true
  end.

(** Every effect of the run satisfies [P]. *)
Definition all_events {A} (P : Event -> bool) (m : Run A) : Prop :=
  forallb P (trace m) = true.

Definition not_ingestion (ev : Event) : bool := negb (is_ingestion ev).

(** ** Runs over further events

    The two functions below perform effects that the nodes of the graph do
    not have.  Their runs are traces over an event type of their own, into
    which the events above are injected. *)

Definition GRun (E A : Type) : Type := list E * (Exn + A).

Definition gret {E A} (a : A) : GRun E A := ([], inr a).
Definition graise {E A} (e : Exn) : GRun E A := ([], inl e).
Definition gemit {E} (ev : E) : GRun E unit := ([ev], inr tt).

Definition gcall {E A} (ev : E) (o : outcome A) : GRun E A :=
  ([ev], match o with
         | Failed d => inl (ServiceError d)
         | Returned a => inr a
         end).

Definition gbind {E A B} (m : GRun E A) (k : A -> GRun E B) : GRun E B :=
  match m with
  | (t, inl e) => (t, inl e)
  | (t, inr a) => let (t', r) := k a in (t ++ t', r)
  end.

(** A run of the code above, inside the larger event type. *)
Definition lift {E A} (inj : Event -> E) (m : Run A) : GRun E A :=
  (map inj (fst m), snd m).

Notation "'let+' x ':=' m 'in' k" := (gbind m (fun x => k))
  (at level 10, x name, m at level 100, k at level 200,
   format "'[v' 'let+'  x  ':='  m  'in' '/' k ']'").

(** ** shared/gcp_rag_helpers.py: upload with metadata *)

(** [os.path.basename(p)] on POSIX: what follows the last slash. *)
Definition basename (p : string) : string := PyStr.last_of (PyStr.split "/" p).

Module Metadata.

(** The dictionary returned by [upload_file_with_metadata]. *)
Record UploadedFile := {
  name : string;
  description : string;
  user_metadata : string;
  file_resource : string
}.

Inductive MEvent :=
| Core (ev : Event)
| CallJsonDumps
| CallUploadFile (corpus_name path display_name description : string)
                 (user_metadata : option string)
| PrintUploaded (r : UploadedFile).

(** The file object that [rag.upload_file] returns, as far as the function
    reads it.  Each of the four attributes is read without a guard: an
    attribute that the object does not have is [None] here, and reading it
    raises.  The value of [description] and of [user_metadata] may itself
    be [None]; [obj_name] is the rendering [str(rag_file.name)]. *)
Record RagFileObject := {
  obj_display_name : option string;
  obj_description : option (option string);
  obj_user_metadata : option (option string);
  obj_name : option string
}.

(** The services of this function beyond [World], for metadata values of
    type [V]: [json.dumps] on the dictionary, and [rag.upload_file]. *)
Record Services (V : Type) := {
  json_dumps : list (string * V) -> outcome string;
  rag_upload_file :
    string -> string -> string -> string -> option string ->
    outcome RagFileObject
}.
Arguments json_dumps {V} _ _.
Arguments rag_upload_file {V} _ _ _ _ _ _.

(** [obj.attr] on an object that may not have the attribute. *)
Definition getattr {A : Type} (attr : string) (o : option A) : GRun MEvent A :=
  match o with
  | Some v => gret v
  | None => graise (AttributeError attr)
  end.

(** [v if v else ""] *)
Definition or_empty (v : option string) : string :=
  if PyStr.truthy v then default "" v else "".

Definition upload_file_with_metadata {V : Type}
    (env : gmap string string) (w : World) (u : Services V)
    (corpus_name file_path display_name description : string)
    (user_metadata : option (list (string * V))) : GRun MEvent UploadedFile :=
  let+ project_id := lift Core (required "GCP_PROJECT_ID" (env !! "GCP_PROJECT_ID")) in
  let+ location := lift Core (required "GCP_LOCATION" (env !! "GCP_LOCATION")) in
  let display_name :=
    match display_name with
    | EmptyString => basename file_path
    | _ => display_name
    end in
  let+ _ := gcall (Core (CallVertexInit project_id location))
                  (vertexai_init w project_id location) in
  let+ _ := gemit (Core (Print ("Uploading file with metadata: " +:+ display_name))) in
  let+ metadata_json :=
    match user_metadata with
    | Some (kv :: rest) =>
        let+ js := gcall CallJsonDumps (json_dumps u (kv :: rest)) in
        let+ _ := gemit (Core (Print ("  Custom metadata: " +:+ js))) in
        gret (Some js)
    | _ => gret None
    end in
  let+ rag_file :=
    gcall (CallUploadFile corpus_name file_path display_name description metadata_json)
          (rag_upload_file u corpus_name file_path display_name description
                           metadata_json) in
  let+ res_name := getattr "display_name" (obj_display_name rag_file) in
  let+ res_description := getattr "description" (obj_description rag_file) in
  let+ res_user_metadata := getattr "user_metadata" (obj_user_metadata rag_file) in
  let+ res_file_resource := getattr "name" (obj_name rag_file) in
  let res := {| name := res_name;
                description := or_empty res_description;
                user_metadata := or_empty res_user_metadata;
                file_resource := res_file_resource |} in
  let+ _ := gemit (PrintUploaded res) in
  gret res.

Definition is_service_call (ev : MEvent) : bool :=
  match ev with
  | CallJsonDumps | CallUploadFile _ _ _ _ _ => true
  | _ => false
  end.

(** The name under which the file is uploaded. *)
Definition shown_name (file_path display_name : string) : string :=
  match display_name with
  | EmptyString => basename file_path
  | _ => display_name
  end.

(** The metadata argument of the upload call: none for metadata that is
    absent or has no entry, their encoding otherwise. *)
Definition metadata_json {V : Type} (u : Services V)
    (user_metadata : option (list (string * V))) : outcome (option string) :=
  match user_metadata with
  | Some (kv :: rest) =>
      match json_dumps u (kv :: rest) with
      | Failed d => Failed d
      | Returned js => Returned (Some js)
      end
  | _ => Returned None
  end.

(** A service that stores the file under the name it is given. *)
Definition sample_services : Services string :=
  {| json_dumps := fun _ => Returned "{}";
     rag_upload_file := fun _ _ display_name description md =>
       Returned {| obj_display_name := Some display_name;
                   obj_description := Some (Some description);
                   obj_user_metadata := Some md;
                   obj_name :=
                     Some "projects/p/locations/us-central1/ragCorpora/1/ragFiles/7" |} |}.

(** A service whose file objects have no attribute [user_metadata]. *)
Definition bare_services : Services string :=
  {| json_dumps := fun _ => Returned "{}";
     rag_upload_file := fun _ _ display_name description _ =>
       Returned {| obj_display_name := Some display_name;
                   obj_description := Some (Some description);
                   obj_user_metadata := None;
                   obj_name :=
                     Some "projects/p/locations/us-central1/ragCorpora/1/ragFiles/7" |} |}.

End Metadata.

(** ** upload_direct_into_context.py *)

Module Direct.

(** *** [base64.b64encode] *)

Definition alphabet : string :=
  "ABCDEFGHIJKLMNOPQRSTUVWXYZabcdefghijklmnopqrstuvwxyz0123456789+/".

Definition sextet (n : N) : ascii :=
  match String.get (N.to_nat (n mod 64)) alphabet with
  | Some c => c
  | None => "="%char
  end.

Fixpoint encode (bs : list N) : list ascii :=
  match bs with
  | a :: b :: c :: rest =>
      let n := (a * 65536 + b * 256 + c)%N in
      sextet (n / 262144) :: sextet (n / 4096) :: sextet (n / 64) :: sextet n
      :: encode rest
  | [a; b] =>
      let n := (a * 65536 + b * 256)%N in
      [sextet (n / 262144); sextet (n / 4096); sextet (n / 64); "="%char]
  | [a] =>
      let n := (a * 65536)%N in
      [sextet (n / 262144); sextet (n / 4096); "="%char; "="%char]
  | [] => []
  end.

(** [base64.b64encode(data).decode("utf-8")] on the bytes of [data]. *)
Definition b64encode (data : string) : string :=
  string_of_list_ascii (encode (map N_of_ascii (list_ascii_of_string data))).

(** *** Messages and state *)

(** The content of a message: a string, or a list of blocks whose fields
    are strings or, as in the block built by [load_pdf_node], the content
    of another message. *)
Inductive Content :=
| Str (s : string)
| Blocks (bs : list (list (string * Field)))
with Field :=
| FStr (s : string)
| FContent (c : Content).

Record Message := { kind : MessageKind; content : Content }.

Record GraphState := { messages : list Message; pdf_path : string }.

Inductive DEvent :=
| Core (ev : Event)
| CallExists (path : string)
| CallRead (path : string)
| CallInvoke (cfg : ChatModel) (msgs : list Message).

(** The file system and the model over these messages. *)
Record Services := {
  path_exists : string -> bool;
  read_bytes : string -> outcome string;
  llm_invoke : ChatModel -> list Message -> outcome Message
}.

(** [ms[-1]] *)
Definition last_message (ms : list Message) : GRun DEvent Message :=
  match last ms with
  | Some m => gret m
  | None => graise (IndexError "list index out of range")
  end.

Definition gprint (line : string) : GRun DEvent unit := gemit (Core (Print line)).

(** The nodes of this file return a dictionary with the one key
    [messages]; their runs return its value. *)
Definition load_pdf_node (fs : Services) (state : GraphState)
  : GRun DEvent (list Message) :=
  let pdf_path := pdf_path state in
  let missing :=
    match pdf_path with
    | EmptyString => gret true
    | _ => let+ _ := gemit (CallExists pdf_path) in
           gret (negb (path_exists fs pdf_path))
    end in
  let+ not_found := missing in
  if (not_found : bool)
  then
    let+ _ := gprint ("[ERROR] PDF file not found: " +:+ pdf_path) in
    gret []
  else
    let+ _ := gprint ("[INFO] Loading and encoding PDF: " +:+ pdf_path) in
    let+ pdf_bytes := gcall (CallRead pdf_path) (read_bytes fs pdf_path) in
    let pdf_base64 := b64encode pdf_bytes in
    let+ _ := gprint ("[INFO] PDF encoded, size: "
                      +:+ PyStr.of_Z (Z.of_nat (String.length pdf_base64))
                      +:+ " characters") in
    let+ last_msg := last_message (messages state) in
    let message :=
      {| kind := human;
         content := Blocks [ [ ("type", FStr "text");
                               ("text", FContent (content last_msg)) ];
                             [ ("type", FStr "media");
                               ("mime_type", FStr "application/pdf");
                               ("data", FStr pdf_base64) ] ] |} in
    gret [message].

(** The message that [load_pdf_node] builds from the content of the last
    message and the bytes of the file. *)
Definition pdf_message (question : Content) (pdf_bytes : string) : Message :=
  {| kind := human;
     content := Blocks [ [ ("type", FStr "text");
                           ("text", FContent question) ];
                         [ ("type", FStr "media");
                           ("mime_type", FStr "application/pdf");
                           ("data", FStr (b64encode pdf_bytes)) ] ] |}.

Definition llm_node (env : gmap string string) (w : World) (fs : Services)
    (state : GraphState) : GRun DEvent (list Message) :=
  let+ llm := lift Core (get_lc_llm env w) in
  let+ response := gcall (CallInvoke llm (messages state))
                         (llm_invoke fs llm (messages state)) in
  gret [response].

(** Modelled from the spec: the reducer of [messages] is library code; a
    delta of messages is concatenated to the sequence, and [pdf_path], for
    which no node returns a key, stays as it is. *)
Definition merge (s : GraphState) (d : list Message) : GraphState :=
  {| messages := messages s ++ d; pdf_path := pdf_path s |}.

(** The graph of [main]: [load_pdf], then [llm], then the end. *)
Definition invoke (env : gmap string string) (w : World) (fs : Services)
    (s : GraphState) : GRun DEvent GraphState :=
  let+ d1 := load_pdf_node fs s in
  let s1 := merge s d1 in
  let+ d2 := llm_node env w fs s1 in
  gret (merge s1 d2).

Definition is_file_access (ev : DEvent) : bool :=
  match ev with
  | CallExists _ | CallRead _ => true
  | _ => false
  end.

Definition is_model_call (ev : DEvent) : bool :=
  match ev with
  | CallInvoke _ _ => true
  | _ => false
  end.

Definition question : Message :=
  {| kind := human;
     content := Str "What was the Runway Length of the airport? What page is this on?" |}.

Definition sample_services : Services :=
  {| path_exists := fun p => String.eqb p "files_to_upload/20071229X02007.pdf";
     read_bytes := fun _ => Returned "%PDF-1.4";
     llm_invoke := fun _ _ =>
       Returned {| kind := ai; content := Str "5000 ft, on page 3." |} |}.

End Direct.

(** * Properties *)

(** ** Sanity checks of the string functions *)

Example decimal_examples :
  PyStr.decimal "5" = Some 5
  /\ PyStr.decimal "8192" = Some 8192
  /\ PyStr.decimal "007" = Some 7
  /\ PyStr.decimal "" = None
  /\ PyStr.decimal " 5" = None
  /\ PyStr.decimal "-5" = None
  /\ PyStr.decimal "abc" = None.
Proof. repeat split; reflexivity. Qed.

(** The defaults of the two integer settings are plain numerals: no
    interpreter is consulted on them. *)
Lemma int_value_defaults (w : World) :
  int_value w "5" = Some 5 /\ int_value w "8192" = Some 8192.
Proof. split; reflexivity. Qed.

Example split_examples :
  map (PyStr.split ".") ["State.ACTIVE"; "ACTIVE"; ""; "a..b"; "a."]
  = [["State"; "ACTIVE"]; ["ACTIVE"]; [""]; ["a"; ""; "b"]; ["a"; ""]].
Proof. reflexivity. Qed.

Example replace_examples :
  map (PyStr.replace "gs://" "") ["gs://my-bucket"; "my-bucket"; "gs://gs://b"; "gs:/b"]
  = ["my-bucket"; "my-bucket"; "b"; "gs:/b"].
Proof. reflexivity. Qed.

Example path_join_examples :
  [ PyStr.path_join "files_to_upload" "a.pdf"; PyStr.path_join "dir/" "a.pdf";
    PyStr.path_join "" "a.pdf"; PyStr.path_join "dir" "/abs.pdf" ]
  = ["files_to_upload/a.pdf"; "dir/a.pdf"; "a.pdf"; "/abs.pdf"].
Proof. reflexivity. Qed.

Example sorted_example :
  PyStr.sorted ["b.pdf"; "a.pdf"; "B.pdf"; "c.pdf"; "a.pdf"]
  = ["B.pdf"; "a.pdf"; "a.pdf"; "b.pdf"; "c.pdf"].
Proof. reflexivity. Qed.

Example of_Z_examples : map PyStr.of_Z [5; -12; 0; 1024] = ["5"; "-12"; "0"; "1024"].
Proof. reflexivity. Qed.

(** ** Laws of runs *)

Section RunLaws.
Context {A B : Type}.
Implicit Types (m : Run A) (k : A -> Run B).

Lemma bind_ret (a : A) k : bind (ret a) k = k a.
Proof. unfold bind, ret. destruct (k a) as [t r]. reflexivity. Qed.

Lemma bind_raise (e : Exn) k : bind (raise e) k = raise e.
Proof. reflexivity. Qed.

Lemma bind_returned t (a : A) k :
  bind (t, inr a) k = (t ++ trace (k a), result (k a)).
Proof. unfold bind, trace, result. destruct (k a); reflexivity. Qed.


Lemma bind_inr_inv m k t (b : B) :
  bind m k = (t, inr b) ->
  exists t1 a t2, m = (t1, inr a) /\ k a = (t2, inr b) /\ t = t1 ++ t2.
Proof.
  destruct m as [t1 [e | a]]; simpl; [discriminate |].
  destruct (k a) as [t2 r] eqn:Hk. intros [= <- ->]. eauto 6.
Qed.

Lemma trace_bind m k :
  trace (bind m k) =
  trace m ++ match result m with inl _ => [] | inr a => trace (k a) end.
Proof.
  destruct m as [t [e | a]]; simpl.
  - unfold trace; simpl. by rewrite app_nil_r.
  - unfold trace. destruct (k a); reflexivity.
Qed.

Lemma result_bind m k :
  result (bind m k) =
  match result m with inl e => inl e | inr a => result (k a) end.
Proof.
  destruct m as [t [e | a]]; simpl; [reflexivity |].
  unfold result. destruct (k a); reflexivity.
Qed.

End RunLaws.

Lemma call_returned {A} (ev : Event) (o : outcome A) (a : A) :
  o = Returned a -> call ev o = ([ev], inr a).
Proof. intros ->. reflexivity. Qed.

Lemma call_inr_inv {A} (ev : Event) (o : outcome A) t (a : A) :
  call ev o = (t, inr a) -> o = Returned a /\ t = [ev].
Proof. unfold call. destruct o; intros [= <- ?]; subst; auto. Qed.

Lemma required_set (var s : string) :
  s <> "" -> required var (Some s) = ret s.
Proof. destruct s; [congruence | reflexivity]. Qed.

Lemma required_unset (var : string) (v : option string) :
  PyStr.truthy v = false -> required var v = raise (config_error var).
Proof. destruct v as [[|c s] |]; simpl; [reflexivity | discriminate | reflexivity]. Qed.

Lemma required_inr_inv (var : string) (v : option string) t (s : string) :
  required var v = (t, inr s) -> v = Some s /\ s <> "" /\ t = [].
Proof.
  destruct v as [[|c r] |]; simpl; try discriminate.
  intros [= <- <-]. auto.
Qed.

Lemma truthy_Some (s : string) : PyStr.truthy (Some s) = true <-> s <> "".
Proof. destruct s; simpl; split; congruence. Qed.

Lemma last_message_Some (ms : list BaseMessage) (m : BaseMessage) :
  last ms = Some m -> last_message ms = ret m.
Proof. unfold last_message. intros ->. reflexivity. Qed.

Lemma last_message_nil :
  last_message [] = raise (IndexError "list index out of range").
Proof. reflexivity. Qed.

Lemma int_of_Some (w : World) (lit : string) (n : Z) :
  int_value w lit = Some n -> int_of w lit = ret n.
Proof. unfold int_of. intros ->. reflexivity. Qed.

(** ** The router *)

(** C1. The router's label is determined by [question_type] alone (the
    other fields of the state do not matter); it is the corpus-metadata
    label when [question_type] is exactly ["corpus_overview"], and the
    retrieval label for every other value, [None] included. *)
Theorem route_by_question_type_exact
    (qt : option string) (ms : list BaseMessage) (cd : option (list CorpusData)) :
  let s := {| messages := ms; question_type := qt; corpus_data := cd |} in
  route_by_question_type s
    = route_by_question_type {| messages := []; question_type := qt; corpus_data := None |}
  /\ ((qt = Some "corpus_overview" /\ route_by_question_type s = "corpus_data_node")
      \/ (qt <> Some "corpus_overview" /\ route_by_question_type s = "retrieve_node")).
Proof.
  unfold route_by_question_type; simpl. split; [reflexivity |].
  case_bool_decide; [left | right]; done.
Qed.

Example route_unset : route_by_question_type Sample.state = "retrieve_node".
Proof. reflexivity. Qed.

Example route_other_strings :
  map (fun qt => route_by_question_type
                   {| messages := []; question_type := Some qt; corpus_data := None |})
      ["corpus_overview"; "specific_query"; "Corpus_Overview"; "corpus_overview "; ""]
  = ["corpus_data_node"; "retrieve_node"; "retrieve_node"; "retrieve_node"; "retrieve_node"].
Proof. reflexivity. Qed.

(** Both labels of the router are branches of the conditional edge. *)
Lemma successor_classifier (s : GraphState) :
  successor "determine_question_type" s = Some (route_by_question_type s).
Proof.
  unfold successor; simpl. unfold route_by_question_type.
  case_bool_decide; reflexivity.
Qed.

(** ** Passage extraction *)

(** C8. A flat passage container and a container that nests the same
    passages one level deeper give the same list of texts, and so the same
    context block; what iterating over the nested container itself would
    yield plays no part. *)
Theorem context_texts_flat_nested (ps other : list Rag.Context) :
  let flat := {| Rag.contexts := Some {| Rag.nested := None; Rag.elements := ps |} |} in
  let deep := {| Rag.contexts := Some {| Rag.nested := Some ps; Rag.elements := other |} |} in
  context_texts_of flat = context_texts_of deep
  /\ context_texts_of flat = omap Rag.text ps
  /\ context_text_of (context_texts_of flat) = context_text_of (context_texts_of deep).
Proof. repeat split. Qed.

Lemma context_text_of_cases (texts : list string) :
  (texts = [] /\ context_text_of texts = no_context)
  \/ (texts <> [] /\ context_text_of texts = PyStr.join (PyStr.nl +:+ PyStr.nl) texts).
Proof. destruct texts; [left | right]; done. Qed.

(** ** The retrieval step *)

Lemma result_try_reraise {A} (m : Run A) (h : Exn -> Run unit) :
  result (try_reraise m h) = result m.
Proof. destruct m as [t [e | a]]; reflexivity. Qed.

Lemma result_bind_inr {A B} (m : Run A) (k : A -> Run B) (b : B) :
  result (bind m k) = inr b ->
  exists a, result m = inr a /\ result (k a) = inr b.
Proof.
  rewrite result_bind. destruct (result m) as [e | a]; [discriminate | eauto].
Qed.

(** The step once its configuration and the last message are in place: the
    two remote calls, the logging handler, and the context message. *)
Lemma retrieve_node_configured env w s (k : Z) (m : BaseMessage) (c p l : string) :
  int_value w (default "5" (env !! "RAG_TOP_K")) = Some k ->
  last (messages s) = Some m ->
  env !! "RAG_CORPUS" = Some c -> c <> "" ->
  env !! "GCP_PROJECT_ID" = Some p -> p <> "" ->
  env !! "GCP_LOCATION" = Some l -> l <> "" ->
  retrieve_node env w s =
    match vertexai_init w p l with
    | Failed d =>
        ([CallVertexInit p l;
          Print (PyStr.nl +:+ "[ERROR] RAG retrieval failed: " +:+ d)],
         inl (ServiceError d))
    | Returned _ =>
        match rag_retrieval_query w c (content m) k with
        | Failed d =>
            ([CallVertexInit p l; CallRetrievalQuery c (content m) k;
              Print (PyStr.nl +:+ "[ERROR] RAG retrieval failed: " +:+ d)],
             inl (ServiceError d))
        | Returned resp =>
            ([CallVertexInit p l; CallRetrievalQuery c (content m) k],
             inr (only_messages
                    [AIMessage (context_text_of (context_texts_of resp))
                               [("type", "rag_context")]]))
        end
    end.
Proof.
  intros Hk Hm Hc Hc' Hp Hp' Hl Hl'. unfold retrieve_node.
  rewrite (int_of_Some _ _ _ Hk), bind_ret, (last_message_Some _ _ Hm), bind_ret.
  rewrite Hc, Hp, Hl, !required_set, !bind_ret by assumption.
  destruct (vertexai_init w p l) as [d | []]; [reflexivity |].
  destruct (rag_retrieval_query w c (content m) k) as [d | resp]; reflexivity.
Qed.

(** Joining with two line feeds puts a blank line between the texts. *)
Lemma join_blank_line (texts : list string) :
  PyStr.join (PyStr.nl +:+ PyStr.nl) texts = blank_line_joined texts.
Proof.
  unfold PyStr.join.
  induction texts as [| t [| t' rest] IH]; [reflexivity | reflexivity |].
  change (String.concat (PyStr.nl +:+ PyStr.nl) (t :: t' :: rest))
    with (t +:+ (PyStr.nl +:+ PyStr.nl)
            +:+ String.concat (PyStr.nl +:+ PyStr.nl) (t' :: rest)).
  rewrite IH. reflexivity.
Qed.

(** C6. When the service answers, the step returns exactly one assistant
    message tagged as retrieved context; its content is the fixed sentence
    when no passage text was extracted, and otherwise the texts in their
    order with a blank line, that is two line feeds, between each two:
    one text alone is the content as it is, and a first text is followed
    by the two line feeds and the block of the others. *)
Theorem retrieve_node_context_message
    env w s (k : Z) (m : BaseMessage) (c p l : string) (resp : Rag.Response) :
  int_value w (default "5" (env !! "RAG_TOP_K")) = Some k ->
  last (messages s) = Some m ->
  env !! "RAG_CORPUS" = Some c -> c <> "" ->
  env !! "GCP_PROJECT_ID" = Some p -> p <> "" ->
  env !! "GCP_LOCATION" = Some l -> l <> "" ->
  vertexai_init w p l = Returned tt ->
  rag_retrieval_query w c (content m) k = Returned resp ->
  exists txt : string,
    result (retrieve_node env w s)
      = inr {| d_messages := Some [ {| kind := ai; content := Text txt;
                                       metadata := [("type", "rag_context")] |} ];
               d_question_type := None; d_corpus_data := None |}
    /\ (context_texts_of resp = [] ->
        txt = "No relevant context was found in the knowledge base.")
    /\ (context_texts_of resp <> [] ->
        txt = blank_line_joined (context_texts_of resp))
    /\ (forall t, context_texts_of resp = [t] -> txt = t)
    /\ (forall t t' rest,
          context_texts_of resp = t :: t' :: rest ->
          txt = t +:+ String "010" (String "010" (blank_line_joined (t' :: rest)))).
Proof.
  intros Hk Hm Hc Hc' Hp Hp' Hl Hl' Hinit Hq.
  exists (context_text_of (context_texts_of resp)).
  rewrite (retrieve_node_configured env w s k m c p l) by assumption.
  rewrite Hinit, Hq. split; [reflexivity |].
  destruct (context_text_of_cases (context_texts_of resp)) as [[E ->] | [E ->]];
    rewrite ?join_blank_line;
    (split; [| split; [| split]]); intros; try congruence;
    try reflexivity;
    match goal with
    | H : context_texts_of resp = _ |- _ => rewrite H; reflexivity
    end.
Qed.

Lemma retrieve_node_context_message_witness :
  result (retrieve_node Sample.env Sample.world Sample.state)
  = inr {| d_messages :=
             Some [ {| kind := ai;
                       content := Text "Runway 27 is 5000 ft.

Page 3.";
                       metadata := [("type", "rag_context")] |} ];
           d_question_type := None; d_corpus_data := None |}.
Proof.
  destruct (retrieve_node_context_message Sample.env Sample.world Sample.state 5
              Sample.question "projects/p/locations/us-central1/ragCorpora/1"
              "p" "us-central1" Sample.response
              eq_refl eq_refl eq_refl ltac:(discriminate) eq_refl ltac:(discriminate)
              eq_refl ltac:(discriminate) eq_refl eq_refl)
    as (txt & Hres & _ & _ & _ & Htwo).
  rewrite Hres, (Htwo "Runway 27 is 5000 ft." "Page 3." [] eq_refl). reflexivity.
Defined.

Example blank_line_joined_examples :
  blank_line_joined [] = ""
  /\ blank_line_joined ["a"] = "a"
  /\ blank_line_joined ["a"; "b"; "c"] = "a

b

c"
  /\ String.length (blank_line_joined ["a"; "b"; "c"]) = 7%nat.
Proof. repeat split. Qed.

(** A response without passages, in each of its shapes. *)
Example no_passages_sentinel :
  map (fun r => context_text_of (context_texts_of r))
      [ {| Rag.contexts := None |};
        {| Rag.contexts := Some {| Rag.nested := None; Rag.elements := [] |} |};
        {| Rag.contexts := Some {| Rag.nested := Some []; Rag.elements := [] |} |};
        {| Rag.contexts := Some {| Rag.nested := None;
                                   Rag.elements := [ {| Rag.text := None |} ] |} |} ]
  = replicate 4 "No relevant context was found in the knowledge base.".
Proof. reflexivity. Qed.

(** Whatever the state, a missing required setting makes the step raise
    before it performs any effect; in particular no retrieval call is made. *)
Lemma retrieve_node_missing_config_raises env w s :
  PyStr.truthy (env !! "RAG_CORPUS") = false
  \/ PyStr.truthy (env !! "GCP_PROJECT_ID") = false
  \/ PyStr.truthy (env !! "GCP_LOCATION") = false ->
  exists e, retrieve_node env w s = ([], inl e).
Proof.
  intros Hmiss. unfold retrieve_node, int_of, last_message.
  destruct (int_value w _); [rewrite bind_ret | eexists; reflexivity].
  destruct (last _); [rewrite bind_ret | eexists; reflexivity].
  destruct (env !! "RAG_CORPUS") as [[|? ?] |]; try (eexists; reflexivity).
  destruct (env !! "GCP_PROJECT_ID") as [[|? ?] |]; try (eexists; reflexivity).
  destruct (env !! "GCP_LOCATION") as [[|? ?] |]; try (eexists; reflexivity).
  simpl in Hmiss. intuition discriminate.
Qed.

(** C3, as stated, fails in two places.  On an empty message sequence with
    no corpus configured, the step raises the out-of-bounds error of the
    read of the last message, not a configuration error.  And with no
    corpus configured and a top-k setting that [int] does not convert, it
    raises the conversion error of that setting instead of the error that
    names the missing corpus. *)
Lemma retrieve_node_missing_config_other_errors :
  PyStr.truthy (Sample.env_no_corpus !! "RAG_CORPUS") = false
  /\ result (retrieve_node Sample.env_no_corpus Sample.world Sample.empty_state)
     = inl (IndexError "list index out of range")
  /\ ~ (exists var : string,
          result (retrieve_node Sample.env_no_corpus Sample.world Sample.empty_state)
          = inl (config_error var))
  /\ PyStr.truthy (Sample.env_no_corpus_bad_top_k !! "RAG_CORPUS") = false
  /\ result (retrieve_node Sample.env_no_corpus_bad_top_k Sample.world Sample.state)
     = inl (InvalidLiteral "int" "abc")
  /\ ~ (exists var : string,
          result (retrieve_node Sample.env_no_corpus_bad_top_k Sample.world Sample.state)
          = inl (config_error var)).
Proof.
  split; [reflexivity |]. split; [reflexivity |].
  split; [intros [var H]; vm_compute in H; discriminate H |].
  split; [reflexivity |]. split; [reflexivity |].
  intros [var H]. vm_compute in H. discriminate H.
Qed.

(** C3 (amended). On a non-empty message sequence, and with a top-k setting
    that is unset or that [int] converts, the step raises the configuration
    error of the first of the corpus, project and location settings that is
    unset or empty, before any effect (so before any retrieval call); when
    the three are set and top-k is unset, the query is issued with top-k 5. *)
Theorem retrieve_node_hard_fail env w s (k : Z) (m : BaseMessage) :
  int_value w (default "5" (env !! "RAG_TOP_K")) = Some k ->
  last (messages s) = Some m ->
  (PyStr.truthy (env !! "RAG_CORPUS") = false ->
   retrieve_node env w s
   = ([], inl (ValueError "RAG_CORPUS environment variable is required")))
  /\ (PyStr.truthy (env !! "RAG_CORPUS") = true ->
      PyStr.truthy (env !! "GCP_PROJECT_ID") = false ->
      retrieve_node env w s
      = ([], inl (ValueError "GCP_PROJECT_ID environment variable is required")))
  /\ (PyStr.truthy (env !! "RAG_CORPUS") = true ->
      PyStr.truthy (env !! "GCP_PROJECT_ID") = true ->
      PyStr.truthy (env !! "GCP_LOCATION") = false ->
      retrieve_node env w s
      = ([], inl (ValueError "GCP_LOCATION environment variable is required")))
  /\ (forall c p l : string,
      env !! "RAG_CORPUS" = Some c -> c <> "" ->
      env !! "GCP_PROJECT_ID" = Some p -> p <> "" ->
      env !! "GCP_LOCATION" = Some l -> l <> "" ->
      env !! "RAG_TOP_K" = None ->
      vertexai_init w p l = Returned tt ->
      k = 5
      /\ exists rest,
           trace (retrieve_node env w s)
           = CallVertexInit p l :: CallRetrievalQuery c (content m) 5 :: rest).
Proof.
  intros Hk Hm. split; [| split; [| split]].
  - intros Hc. unfold retrieve_node.
    rewrite (int_of_Some _ _ _ Hk), bind_ret, (last_message_Some _ _ Hm), bind_ret.
    rewrite (required_unset _ _ Hc). reflexivity.
  - intros Hc Hp. unfold retrieve_node.
    rewrite (int_of_Some _ _ _ Hk), bind_ret, (last_message_Some _ _ Hm), bind_ret.
    destruct (env !! "RAG_CORPUS") as [[|? ?] |]; try discriminate Hc.
    simpl required. rewrite bind_ret, (required_unset _ _ Hp). reflexivity.
  - intros Hc Hp Hl. unfold retrieve_node.
    rewrite (int_of_Some _ _ _ Hk), bind_ret, (last_message_Some _ _ Hm), bind_ret.
    destruct (env !! "RAG_CORPUS") as [[|? ?] |]; try discriminate Hc.
    destruct (env !! "GCP_PROJECT_ID") as [[|? ?] |]; try discriminate Hp.
    simpl required. rewrite !bind_ret, (required_unset _ _ Hl). reflexivity.
  - intros c p l Hc Hc' Hp Hp' Hl Hl' Htop Hinit.
    assert (k = 5) as ->
        by (rewrite Htop in Hk; destruct (int_value_defaults w) as [H5 _];
            cbn [default from_option] in Hk; unfold id in Hk; congruence).
    split; [reflexivity |].
    rewrite (retrieve_node_configured env w s 5 m c p l) by assumption.
    rewrite Hinit.
    destruct (rag_retrieval_query w c (content m) 5); eexists; reflexivity.
Qed.

Lemma retrieve_node_hard_fail_witness :
  retrieve_node Sample.env_no_corpus Sample.world Sample.state
  = ([], inl (ValueError "RAG_CORPUS environment variable is required")).
Proof.
  apply (retrieve_node_hard_fail Sample.env_no_corpus Sample.world Sample.state
           5 Sample.question); reflexivity.
Defined.

Example retrieve_node_default_top_k :
  trace (retrieve_node Sample.env Sample.world Sample.state)
  = [ CallVertexInit "p" "us-central1";
      CallRetrievalQuery "projects/p/locations/us-central1/ragCorpora/1"
                         (Text "What was the runway length at the airport?") 5 ].
Proof. reflexivity. Qed.

(** ** The language-model client *)

Lemma get_lc_llm_cases env w :
  (exists e, get_lc_llm env w = ([], inl e))
  \/ (exists cfg d, get_lc_llm env w = ([CallChatModel cfg], inl (ServiceError d)))
  \/ (exists cfg, get_lc_llm env w = ([CallChatModel cfg], inr cfg)).
Proof.
  unfold get_lc_llm, float_of, int_of.
  destruct (PyStr.truthy _); [destruct (float_accepts _ _) |];
    rewrite ?bind_ret, ?bind_raise; try (left; eexists; reflexivity);
    (destruct (int_value w _); rewrite ?bind_ret, ?bind_raise;
     [| left; eexists; reflexivity]);
    right;
    match goal with
    | |- context [chat_model w ?c] => destruct (chat_model w c) as [d | []] eqn:E
    end;
    [left | right | left | right]; repeat eexists; unfold call; rewrite E; reflexivity.
Qed.

Lemma get_lc_llm_no_model_call env w :
  forallb (fun ev => negb (is_model_call ev)) (trace (get_lc_llm env w)) = true.
Proof.
  destruct (get_lc_llm_cases env w) as [[e ->] | [(cfg & d & ->) | [cfg ->]]];
    reflexivity.
Qed.

(** ** Steps that read the last message *)

(** C10, as stated, fails when the top-k setting is one that [int] does
    not convert: it is converted before the last message is read, so on an
    empty message sequence the step raises the conversion error, not an
    out-of-bounds error. *)
Lemma retrieve_node_bad_top_k_raises_first :
  messages Sample.empty_state = []
  /\ Sample.env_bad_top_k !! "RAG_TOP_K" = Some "abc"
  /\ result (retrieve_node Sample.env_bad_top_k Sample.world Sample.empty_state)
     = inl (InvalidLiteral "int" "abc")
  /\ ~ (exists msg : string,
          result (retrieve_node Sample.env_bad_top_k Sample.world Sample.empty_state)
          = inl (IndexError msg)).
Proof.
  split; [reflexivity |]. split; [reflexivity |]. split; [reflexivity |].
  intros [msg H]. vm_compute in H. discriminate H.
Qed.

(** C10 (amended). On an empty message sequence both steps raise.  The
    retrieval step raises before any effect; when its top-k setting is
    unset or one that [int] converts, the error is the out-of-bounds read
    of the last message, whatever the corpus, project and location
    settings are, set or not; when [int] does not convert the setting, the
    error is that of the conversion.  The classifier raises without having
    called the model, and once its client has been built the error is that
    out-of-bounds read. *)
Theorem empty_messages_raise env w s :
  messages s = [] ->
  (forall k : Z,
     int_value w (default "5" (env !! "RAG_TOP_K")) = Some k ->
     retrieve_node env w s = ([], inl (IndexError "list index out of range")))
  /\ (env !! "RAG_TOP_K" = None ->
      retrieve_node env w s = ([], inl (IndexError "list index out of range")))
  /\ (forall lit,
        env !! "RAG_TOP_K" = Some lit ->
        int_value w lit = None ->
        retrieve_node env w s = ([], inl (InvalidLiteral "int" lit)))
  /\ (exists e, retrieve_node env w s = ([], inl e))
  /\ (forall t llm,
        get_lc_llm env w = (t, inr llm) ->
        determine_question_type env w s
        = (t, inl (IndexError "list index out of range")))
  /\ (exists e,
        result (determine_question_type env w s) = inl e
        /\ forallb (fun ev => negb (is_model_call ev))
                   (trace (determine_question_type env w s)) = true).
Proof.
  intros Hnil. split; [| split; [| split; [| split; [| split]]]].
  - intros k Hk. unfold retrieve_node.
    rewrite (int_of_Some _ _ _ Hk), bind_ret, Hnil. reflexivity.
  - intros Htop. unfold retrieve_node. rewrite Htop.
    cbn [default from_option]. unfold id.
    rewrite (int_of_Some w "5" 5 eq_refl), bind_ret, Hnil. reflexivity.
  - intros lit Htop Hlit. unfold retrieve_node, int_of. rewrite Htop.
    cbn [default from_option]. unfold id. rewrite Hlit. reflexivity.
  - unfold retrieve_node, int_of. rewrite Hnil.
    destruct (int_value w _); eexists; [rewrite bind_ret |]; reflexivity.
  - intros t llm Hllm. unfold determine_question_type.
    rewrite Hllm, Hnil, bind_returned. simpl. by rewrite app_nil_r.
  - unfold determine_question_type. rewrite Hnil.
    destruct (get_lc_llm_cases env w) as [[e ->] | [(cfg & d & ->) | [cfg ->]]];
      eexists; split; reflexivity.
Qed.

Lemma empty_messages_raise_witness :
  PyStr.truthy (Sample.env_no_corpus !! "RAG_CORPUS") = false
  /\ retrieve_node Sample.env_no_corpus Sample.world Sample.empty_state
     = ([], inl (IndexError "list index out of range")).
Proof.
  split; [reflexivity |].
  apply (proj1 (empty_messages_raise Sample.env_no_corpus Sample.world
                  Sample.empty_state eq_refl) 5).
  reflexivity.
Defined.

(** ** The shape of the delta of each step *)

Ltac unbind H :=
  repeat lazymatch type of H with
    | result (bind _ _) = inr _ =>
        let a := fresh "a" in
        let Ha := fresh "Ha" in
        apply result_bind_inr in H as (a & Ha & H)
    | result (if ?b then _ else _) = inr _ => destruct b
    end.

Lemma upload_node_delta env w s d :
  result (upload_node env w s) = inr d -> d = only_messages [].
Proof.
  unfold upload_node. intros H. unbind H; simpl in H; congruence.
Qed.

Lemma retrieve_node_delta env w s d :
  result (retrieve_node env w s) = inr d ->
  exists txt, d = only_messages [AIMessage txt [("type", "rag_context")]].
Proof.
  unfold retrieve_node. intros H. unbind H. simpl in H.
  injection H as <-. eauto.
Qed.

Lemma corpus_data_node_delta env w s d :
  result (corpus_data_node env w s) = inr d ->
  exists files,
    result (list_corpus_files env w (env !! "RAG_CORPUS")) = inr files
    /\ d = {| d_messages := None; d_question_type := None;
              d_corpus_data := Some (map corpus_entry files) |}.
Proof.
  unfold corpus_data_node. intros H. unbind H. simpl in H.
  injection H as <-. eauto.
Qed.

Lemma determine_question_type_delta env w s d :
  result (determine_question_type env w s) = inr d ->
  exists qt, d = {| d_messages := None; d_question_type := Some qt;
                    d_corpus_data := None |}.
Proof.
  unfold determine_question_type. intros H. unbind H. simpl in H.
  injection H as <-. eauto.
Qed.

Lemma summary_node_delta env w s d :
  result (summary_node env w s) = inr d ->
  exists response, d = only_messages [response].
Proof.
  unfold summary_node. intros H. unbind H. simpl in H.
  injection H as <-. eauto.
Qed.

(** The steps registered in the graph, by name. *)
Lemma nodes_cases (n : string) (f : Node) :
  assoc n nodes = Some f ->
  (n = "upload_node" /\ f = upload_node)
  \/ (n = "determine_question_type" /\ f = determine_question_type)
  \/ (n = "corpus_data_node" /\ f = corpus_data_node)
  \/ (n = "retrieve_node" /\ f = retrieve_node)
  \/ (n = "summary_node" /\ f = summary_node).
Proof.
  unfold nodes, assoc.
  repeat match goal with
         | |- context [String.eqb n ?k] =>
             destruct (String.eqb_spec n k) as [-> | _]; [intros [= <-]; tauto |]
         end.
  discriminate.
Qed.

(** How many messages a successful step hands to the reducer. *)
Lemma node_messages_delta (n : string) (f : Node) env w s d :
  assoc n nodes = Some f ->
  result (f env w s) = inr d ->
  (length (default [] (d_messages d)) <= 1)%nat.
Proof.
  intros Hn Hd.
  destruct (nodes_cases n f Hn) as [[_ ->] | [[_ ->] | [[_ ->] | [[_ ->] | [_ ->]]]]].
  - apply upload_node_delta in Hd as ->. simpl. lia.
  - apply determine_question_type_delta in Hd as [qt ->]. simpl. lia.
  - apply corpus_data_node_delta in Hd as (files & _ & ->). simpl. lia.
  - apply retrieve_node_delta in Hd as [txt ->]. simpl. lia.
  - apply summary_node_delta in Hd as [r ->]. simpl. lia.
Qed.

(** ** The append-only law of [messages] *)

(** C2. For every step registered in the graph and every state on which it
    returns, the messages after the merge are the messages before it
    followed by what the step added (at most one message): the length does
    not decrease and the earlier messages keep their places. *)
Theorem messages_append_only (n : string) (f : Node) env w s d :
  assoc n nodes = Some f ->
  result (f env w s) = inr d ->
  exists added : list BaseMessage,
    messages (merge s d) = messages s ++ added
    /\ (length added <= 1)%nat
    /\ (length (messages s) <= length (messages (merge s d)))%nat
    /\ take (length (messages s)) (messages (merge s d)) = messages s
    /\ forall i m, messages s !! i = Some m -> messages (merge s d) !! i = Some m.
Proof.
  intros Hn Hd. exists (default [] (d_messages d)).
  split; [reflexivity |].
  split; [exact (node_messages_delta n f env w s d Hn Hd) |].
  simpl. split; [rewrite length_app; lia |].
  split; [by rewrite take_app_length |].
  intros i m Hi. by apply lookup_app_l_Some.
Qed.

Lemma messages_append_only_witness :
  exists added : list BaseMessage,
    messages (merge Sample.state
                (only_messages [AIMessage (context_text_of (context_texts_of Sample.response))
                                          [("type", "rag_context")]]))
    = messages Sample.state ++ added
    /\ (length added <= 1)%nat.
Proof.
  destruct (messages_append_only "retrieve_node" retrieve_node
              Sample.env Sample.world Sample.state
              (only_messages [AIMessage (context_text_of (context_texts_of Sample.response))
                                        [("type", "rag_context")]])
              eq_refl eq_refl) as (added & H1 & H2 & _).
  exists added. split; assumption.
Defined.

(** ** The classifier and the writes to [question_type] *)

Lemma get_lc_llm_returned env w t llm :
  get_lc_llm env w = (t, inr llm) -> t = [CallChatModel llm].
Proof.
  destruct (get_lc_llm_cases env w) as [[e ->] | [(cfg & d & ->) | [cfg ->]]];
    congruence.
Qed.

(** The classifier once its client is built and the model has answered:
    one structured call, one log line, and the delta. *)
Lemma determine_question_type_returns env w s t llm (m : BaseMessage)
    (r : QuestionTypeResponse) :
  get_lc_llm env w = (t, inr llm) ->
  last (messages s) = Some m ->
  llm_invoke_structured w llm [SystemMessage classifier_prompt; m] = Returned r ->
  determine_question_type env w s
  = ([ CallChatModel llm;
       CallInvokeStructured llm [SystemMessage classifier_prompt; m];
       Print (PyStr.nl +:+ "[INFO] Question type determined: "
              +:+ PyStr.of_option (response_question_type r)) ],
     inr {| d_messages := None;
            d_question_type := Some (response_question_type r);
            d_corpus_data := None |}).
Proof.
  intros Hllm Hm Hr. unfold determine_question_type.
  rewrite (get_lc_llm_returned _ _ _ _ Hllm) in Hllm.
  rewrite Hllm, bind_returned, (last_message_Some _ _ Hm), bind_ret.
  rewrite (call_returned _ _ _ Hr), bind_returned. reflexivity.
Qed.

(** An exception raised by the entry step ends the invocation with it. *)
Lemma invoke_from_raised (n : string) (f : Node) env w s t (e : Exn) :
  assoc n nodes = Some f ->
  f env w s = (t, inl e) ->
  invoke_from n env w s = (t, inl e).
Proof.
  intros Hn Hf. unfold invoke_from, run.
  destruct (String.eqb_spec n END) as [-> | _]; [discriminate Hn |].
  unfold step. rewrite Hn, Hf. reflexivity.
Qed.

(** The classifier once its client is built and the structured call has
    raised: the error leaves the step as it is, after the call and before
    the log line. *)
Lemma determine_question_type_raises env w s t llm (m : BaseMessage)
    (descr : string) :
  get_lc_llm env w = (t, inr llm) ->
  last (messages s) = Some m ->
  llm_invoke_structured w llm [SystemMessage classifier_prompt; m] = Failed descr ->
  determine_question_type env w s
  = ([ CallChatModel llm;
       CallInvokeStructured llm [SystemMessage classifier_prompt; m] ],
     inl (ServiceError descr)).
Proof.
  intros Hllm Hm Hr. unfold determine_question_type.
  rewrite (get_lc_llm_returned _ _ _ _ Hllm) in Hllm.
  rewrite Hllm, bind_returned, (last_message_Some _ _ Hm), bind_ret.
  unfold call. rewrite Hr. reflexivity.
Qed.

(** C9, as stated, fails for a model answer that the structured call
    cannot parse: the call raises, the classifier has no handler, and the
    step raises that error instead of leaving [question_type] unset.  The
    invocation that starts at the classifier ends with the same error. *)
Lemma classifier_unparseable_raises :
  llm_invoke_structured Sample.world_unparseable
    {| model := "gemini-2.5-flash"; project := Some "p"; location := "us-central1";
       temperature := DefaultTemperature; max_output_tokens := 8192 |}
    [SystemMessage classifier_prompt; Sample.question]
  = Failed "OutputParserException: Failed to parse QuestionTypeResponse"
  /\ determine_question_type Sample.env Sample.world_unparseable Sample.state
     = ([ CallChatModel
            {| model := "gemini-2.5-flash"; project := Some "p";
               location := "us-central1"; temperature := DefaultTemperature;
               max_output_tokens := 8192 |};
          CallInvokeStructured
            {| model := "gemini-2.5-flash"; project := Some "p";
               location := "us-central1"; temperature := DefaultTemperature;
               max_output_tokens := 8192 |}
            [SystemMessage classifier_prompt; Sample.question] ],
        inl (ServiceError "OutputParserException: Failed to parse QuestionTypeResponse"))
  /\ ~ (exists d,
          result (determine_question_type Sample.env Sample.world_unparseable
                    Sample.state) = inr d)
  /\ result (invoke_from "determine_question_type" Sample.env
               Sample.world_unparseable Sample.state)
     = inl (ServiceError "OutputParserException: Failed to parse QuestionTypeResponse").
Proof.
  split; [reflexivity |]. split; [reflexivity |]. split; [| reflexivity].
  intros [d H]. vm_compute in H. discriminate H.
Qed.

(** C9 (amended). The classifier makes a single structured call.  When the
    call returns a response, the delta binds [question_type] to its label,
    [None] for a response without a label.  When the call raises, as it
    does on an answer it cannot parse, the step raises the same error
    right after the call: it returns no delta, and the invocation ends
    with that error.  The delta of every other step has no
    [question_type] key, so merging it leaves the field as it was. *)
Theorem question_type_written_by_classifier_only env w s :
  (forall t llm (m : BaseMessage) (r : QuestionTypeResponse),
     get_lc_llm env w = (t, inr llm) ->
     last (messages s) = Some m ->
     llm_invoke_structured w llm [SystemMessage classifier_prompt; m] = Returned r ->
     exists tr d,
       determine_question_type env w s = (tr, inr d)
       /\ d_question_type d = Some (response_question_type r)
       /\ question_type (merge s d) = response_question_type r
       /\ length (List.filter is_model_call tr) = 1%nat)
  /\ (forall t llm (m : BaseMessage) (descr : string),
        get_lc_llm env w = (t, inr llm) ->
        last (messages s) = Some m ->
        llm_invoke_structured w llm [SystemMessage classifier_prompt; m]
        = Failed descr ->
        determine_question_type env w s
        = ([ CallChatModel llm;
             CallInvokeStructured llm [SystemMessage classifier_prompt; m] ],
           inl (ServiceError descr))
        /\ result (invoke_from "determine_question_type" env w s)
           = inl (ServiceError descr))
  /\ (forall (n : string) (f : Node) d,
        assoc n nodes = Some f ->
        n <> "determine_question_type" ->
        result (f env w s) = inr d ->
        d_question_type d = None
        /\ question_type (merge s d) = question_type s).
Proof.
  split; [| split].
  - intros t llm m r Hllm Hm Hr.
    rewrite (determine_question_type_returns env w s t llm m r Hllm Hm Hr).
    do 2 eexists. split; [reflexivity |]. repeat split.
  - intros t llm m descr Hllm Hm Hr.
    pose proof (determine_question_type_raises env w s t llm m descr Hllm Hm Hr)
      as Hnode.
    split; [exact Hnode |].
    by rewrite (invoke_from_raised "determine_question_type" determine_question_type
                  env w s _ _ eq_refl Hnode).
  - intros n f d Hn Hne Hd.
    destruct (nodes_cases n f Hn) as [[_ ->] | [[-> _] | [[_ ->] | [[_ ->] | [_ ->]]]]].
    + apply upload_node_delta in Hd as ->. split; reflexivity.
    + congruence.
    + apply corpus_data_node_delta in Hd as (files & _ & ->). split; reflexivity.
    + apply retrieve_node_delta in Hd as [txt ->]. split; reflexivity.
    + apply summary_node_delta in Hd as [r ->]. split; reflexivity.
Qed.

Lemma question_type_written_by_classifier_only_witness :
  (exists tr d,
     determine_question_type Sample.env Sample.world Sample.state = (tr, inr d)
     /\ d_question_type d = Some (Some "specific_query")
     /\ question_type (merge Sample.state d) = Some "specific_query"
     /\ length (List.filter is_model_call tr) = 1%nat)
  /\ result (determine_question_type Sample.env Sample.world_unparseable Sample.state)
     = inl (ServiceError "OutputParserException: Failed to parse QuestionTypeResponse")
  /\ forall d,
       result (summary_node Sample.env Sample.world Sample.state) = inr d ->
       d_question_type d = None
       /\ question_type (merge Sample.state d) = question_type Sample.state.
Proof.
  split; [| split].
  - exact (proj1 (question_type_written_by_classifier_only
                    Sample.env Sample.world Sample.state)
             _ _ Sample.question
             {| response_question_type := Some "specific_query" |}
             eq_refl eq_refl eq_refl).
  - destruct (proj1 (proj2 (question_type_written_by_classifier_only
                              Sample.env Sample.world_unparseable Sample.state))
                _ _ Sample.question
                "OutputParserException: Failed to parse QuestionTypeResponse"
                eq_refl eq_refl eq_refl) as [-> _].
    reflexivity.
  - intros d Hd.
    refine (proj2 (proj2 (question_type_written_by_classifier_only
                            Sample.env Sample.world Sample.state))
              "summary_node" summary_node d eq_refl _ Hd).
    discriminate.
Defined.

(** An empty structured response leaves the field unset and the run goes
    on to retrieval. *)
Example classifier_unset_routes_to_retrieval :
  let w := {| os_listdir := os_listdir Sample.world;
              storage_client := storage_client Sample.world;
              upload_from_filename := upload_from_filename Sample.world;
              vertexai_init := vertexai_init Sample.world;
              rag_import_files := rag_import_files Sample.world;
              rag_list_files := rag_list_files Sample.world;
              rag_retrieval_query := rag_retrieval_query Sample.world;
              float_accepts := float_accepts Sample.world;
              int_of_str := int_of_str Sample.world;
              chat_model := chat_model Sample.world;
              llm_invoke := llm_invoke Sample.world;
              llm_invoke_structured :=
                fun _ _ => Returned {| response_question_type := None |} |} in
  exists t s', step Sample.env w "determine_question_type" Sample.state
               = (t, inr (s', Some "retrieve_node"))
               /\ question_type s' = None.
Proof. do 2 eexists. split; reflexivity. Qed.

(** ** The ingestion step *)

Lemma merge_empty_messages (s : GraphState) : merge s (only_messages []) = s.
Proof. destruct s. unfold merge; simpl. by rewrite app_nil_r. Qed.

(** C4. When the bucket or the corpus setting is unset or empty, the step
    logs one line, raises nothing and returns the delta with an empty
    message list; merging it leaves the state as it was, and the graph goes
    on to the classifier. *)
Theorem upload_node_soft_fail env w s :
  PyStr.truthy (env !! "GCS_BUCKET") = false
  \/ PyStr.truthy (env !! "RAG_CORPUS") = false ->
  upload_node env w s
  = ([Print (PyStr.nl +:+ "[ERROR] GCS_BUCKET and RAG_CORPUS env vars must be set for upload.")],
     inr {| d_messages := Some []; d_question_type := None; d_corpus_data := None |})
  /\ merge s {| d_messages := Some []; d_question_type := None; d_corpus_data := None |} = s
  /\ result (step env w "upload_node" s) = inr (s, Some "determine_question_type").
Proof.
  intros Hmiss.
  assert (upload_node env w s
          = ([Print (PyStr.nl +:+ "[ERROR] GCS_BUCKET and RAG_CORPUS env vars must be set for upload.")],
             inr (only_messages []))) as Hrun.
  { unfold upload_node.
    destruct Hmiss as [-> | ->]; rewrite ?orb_true_r; reflexivity. }
  split; [exact Hrun |]. split; [apply merge_empty_messages |].
  change (step env w "upload_node" s)
    with (let* d := upload_node env w s in
          ret (merge s d, successor "upload_node" (merge s d))).
  rewrite Hrun, bind_returned.
  cbn [result snd ret]. by rewrite merge_empty_messages.
Qed.

Lemma upload_node_soft_fail_witness :
  result (upload_node Sample.env_no_corpus Sample.world Sample.state)
  = inr {| d_messages := Some []; d_question_type := None; d_corpus_data := None |}
  /\ result (step Sample.env_no_corpus Sample.world "upload_node" Sample.state)
     = inr (Sample.state, Some "determine_question_type").
Proof.
  destruct (upload_node_soft_fail Sample.env_no_corpus Sample.world Sample.state)
    as (H1 & _ & H3).
  - right. reflexivity.
  - split; [rewrite H1; reflexivity | exact H3].
Defined.

(** *** The sorted listing *)

#[global] Instance PyStr_le_total : Total PyStr.le.
Proof.
  intros a b. unfold PyStr.le, String.leb.
  rewrite (String.compare_antisym b a).
  destruct (String.compare a b); simpl; auto.
Qed.

Lemma sorted_length (ls : list string) : length (PyStr.sorted ls) = length ls.
Proof. unfold PyStr.sorted. by rewrite merge_sort_Permutation. Qed.

Lemma sorted_Sorted (ls : list string) : Sorted PyStr.le (PyStr.sorted ls).
Proof. apply Sorted_merge_sort; apply _. Qed.

Lemma sorted_Permutation (ls : list string) : PyStr.sorted ls ≡ₚ ls.
Proof. apply merge_sort_Permutation. Qed.

Lemma upload_file_by_index_out_of_range
    env w (index : Z) (bucket corpus_name files_dir : string)
    (chunk_size chunk_overlap : Z) (listing : list string) :
  os_listdir w files_dir = Returned listing ->
  index < 0 \/ Z.of_nat (length listing) <= index ->
  upload_file_by_index env w index bucket corpus_name files_dir chunk_size chunk_overlap
  = ([CallListdir files_dir],
     inl (IndexError (out_of_range_message index (length listing)))).
Proof.
  intros Hls Hidx. unfold upload_file_by_index.
  rewrite (call_returned _ _ _ Hls), bind_returned, sorted_length.
  replace ((index <? 0) || (Z.of_nat (length listing) <=? index)) with true
    by (symmetry; apply orb_true_iff; rewrite Z.ltb_lt, Z.leb_le; exact Hidx).
  reflexivity.
Qed.

Lemma upload_file_by_index_in_range
    env w (index : Z) (bucket corpus_name files_dir : string)
    (chunk_size chunk_overlap : Z) (listing : list string) :
  os_listdir w files_dir = Returned listing ->
  0 <= index < Z.of_nat (length listing) ->
  exists f rest,
    PyStr.sorted listing !! Z.to_nat index = Some f
    /\ trace (upload_file_by_index env w index bucket corpus_name files_dir
                                   chunk_size chunk_overlap)
       = CallListdir files_dir :: Print ("Uploading file: " +:+ f)
         :: CallStorageClient :: rest.
Proof.
  intros Hls Hidx. unfold upload_file_by_index.
  destruct (lookup_lt_is_Some_2 (PyStr.sorted listing) (Z.to_nat index)) as [f Hf];
    [rewrite sorted_length; lia |].
  exists f. rewrite (call_returned _ _ _ Hls), bind_returned, sorted_length.
  replace ((index <? 0) || (Z.of_nat (length listing) <=? index)) with false
    by (symmetry; apply orb_false_iff; rewrite Z.ltb_ge, Z.leb_gt; lia).
  unfold item. rewrite Hf. cbn [default from_option].
  unfold upload_to_gcs. rewrite !trace_bind. cbn. eauto.
Qed.

(** The ingestion step asks for the file at index 1; with fewer than two
    files in the staging directory the bounds error leaves the step. *)
Lemma upload_node_out_of_range env w s (b c : string) (listing : list string) :
  env !! "GCS_BUCKET" = Some b -> b <> "" ->
  env !! "RAG_CORPUS" = Some c -> c <> "" ->
  os_listdir w "files_to_upload" = Returned listing ->
  (length listing < 2)%nat ->
  upload_node env w s
  = ([Print (PyStr.nl +:+ "[INFO] Starting upload and RAG import for file at index 1...");
      CallListdir "files_to_upload"],
     inl (IndexError (out_of_range_message 1 (length listing)))).
Proof.
  intros Hb Hb' Hc Hc' Hls Hlen. unfold upload_node.
  rewrite Hb, Hc.
  rewrite (proj2 (truthy_Some b) Hb'), (proj2 (truthy_Some c) Hc').
  cbn [negb orb default from_option]. unfold id.
  rewrite (upload_file_by_index_out_of_range env w 1 b c "files_to_upload"
             1024 256 listing Hls) by lia.
  reflexivity.
Qed.

(** C5. The file is the one at the given position of the sorted listing of
    the staging directory.  An index that is negative, or not smaller than
    the number of listed files, raises the bounds error right after the
    listing, before any upload or import; raised inside the ingestion step
    it leaves the step and ends the invocation, and no model is called. *)
Theorem upload_file_by_index_bounds
    env w (index : Z) (bucket corpus_name files_dir : string)
    (chunk_size chunk_overlap : Z) (listing : list string) :
  os_listdir w files_dir = Returned listing ->
  let r := upload_file_by_index env w index bucket corpus_name files_dir
                                chunk_size chunk_overlap in
  (Sorted PyStr.le (PyStr.sorted listing) /\ PyStr.sorted listing ≡ₚ listing)
  /\ (0 <= index < Z.of_nat (length listing) ->
      exists f rest,
        PyStr.sorted listing !! Z.to_nat index = Some f
        /\ trace r = CallListdir files_dir :: Print ("Uploading file: " +:+ f)
                     :: CallStorageClient :: rest)
  /\ (index < 0 \/ Z.of_nat (length listing) <= index ->
      result r = inl (IndexError (out_of_range_message index (length listing)))
      /\ forallb (fun ev => negb (is_upload_or_import ev)) (trace r) = true)
  /\ (forall s,
        files_dir = "files_to_upload" ->
        env !! "GCS_BUCKET" = Some bucket -> bucket <> "" ->
        env !! "RAG_CORPUS" = Some corpus_name -> corpus_name <> "" ->
        (length listing < 2)%nat ->
        let e := IndexError (out_of_range_message 1 (length listing)) in
        result (upload_node env w s) = inl e
        /\ result (invoke_from "upload_node" env w s) = inl e
        /\ forallb (fun ev => negb (is_upload_or_import ev || is_model_call ev))
                   (trace (invoke_from "upload_node" env w s)) = true).
Proof.
  intros Hls r. subst r.
  split; [split; [apply sorted_Sorted | apply sorted_Permutation] |].
  split; [apply upload_file_by_index_in_range; assumption |].
  split.
  - intros Hidx.
    rewrite (upload_file_by_index_out_of_range env w index bucket corpus_name
               files_dir chunk_size chunk_overlap listing Hls Hidx).
    split; reflexivity.
  - intros s -> Hb Hb' Hc Hc' Hlen e. subst e.
    pose proof (upload_node_out_of_range env w s bucket corpus_name listing
                  Hb Hb' Hc Hc' Hls Hlen) as Hnode.
    rewrite (invoke_from_raised "upload_node" upload_node env w s _ _ eq_refl Hnode).
    rewrite Hnode. repeat split.
Qed.

(** A staging directory with two files and index 5. *)
Lemma upload_file_by_index_bounds_witness :
  result (upload_file_by_index Sample.env Sample.world 5 "gs://bucket"
            "projects/p/locations/us-central1/ragCorpora/1" "files_to_upload" 1024 256)
  = inl (IndexError "Index 5 out of range. Found 2 files.")
  /\ forallb (fun ev => negb (is_upload_or_import ev))
       (trace (upload_file_by_index Sample.env Sample.world 5 "gs://bucket"
                 "projects/p/locations/us-central1/ragCorpora/1" "files_to_upload"
                 1024 256)) = true.
Proof.
  apply (upload_file_by_index_bounds Sample.env Sample.world 5 "gs://bucket"
           "projects/p/locations/us-central1/ragCorpora/1" "files_to_upload"
           1024 256 ["b.pdf"; "a.pdf"] eq_refl).
  right. simpl. lia.
Defined.

Example upload_file_by_index_negative :
  result (upload_file_by_index Sample.env Sample.world (-1) "gs://bucket"
            "corpus" "files_to_upload" 1024 256)
  = inl (IndexError "Index -1 out of range. Found 2 files.").
Proof. reflexivity. Qed.

Example upload_node_one_file :
  invoke_from "upload_node" Sample.env Sample.world_one_file Sample.state
  = ([Print (PyStr.nl +:+ "[INFO] Starting upload and RAG import for file at index 1...");
      CallListdir "files_to_upload"],
     inl (IndexError "Index 1 out of range. Found 1 files.")).
Proof. reflexivity. Qed.

(** ** The corpus metadata step *)

(** *** The last component of a dotted name *)

Lemma split_nonempty (sep : ascii) (s : string) : PyStr.split sep s <> [].
Proof.
  destruct s as [| c s]; simpl; [discriminate |].
  destruct (Ascii.eqb c sep); [discriminate |].
  destruct (PyStr.split sep s); discriminate.
Qed.

Lemma split_app_sep (sep : ascii) (a b : string) :
  PyStr.split sep (a +:+ String sep b) = PyStr.split sep a ++ PyStr.split sep b.
Proof.
  induction a as [| c a IH]; simpl.
  - by rewrite Ascii.eqb_refl.
  - rewrite IH. destruct (Ascii.eqb c sep); [reflexivity |].
    pose proof (split_nonempty sep a) as Hne.
    destruct (PyStr.split sep a); [contradiction | reflexivity].
Qed.

Lemma split_no_sep (sep : ascii) (s : string) :
  PyStr.has_char sep s = false -> PyStr.split sep s = [s].
Proof.
  induction s as [| c s IH]; simpl; [reflexivity |].
  intros [Hc Hs]%orb_false_iff. rewrite Hc, (IH Hs). reflexivity.
Qed.

Lemma last_of_app (l1 l2 : list string) :
  l2 <> [] -> PyStr.last_of (l1 ++ l2) = PyStr.last_of l2.
Proof.
  intros H. unfold PyStr.last_of.
  induction l1 as [| x l1 IH]; [reflexivity |].
  simpl. destruct (l1 ++ l2) eqn:E; [| exact IH].
  apply app_eq_nil in E as [_ ?]. contradiction.
Qed.

(** The last component of [pre.nm] is [nm], and a name without a dot is
    its own last component. *)
Lemma last_component_qualified (pre nm : string) :
  PyStr.has_char "." nm = false ->
  PyStr.last_of (PyStr.split "." (pre +:+ String "." nm)) = nm.
Proof.
  intros H. rewrite split_app_sep, last_of_app by apply split_nonempty.
  by rewrite (split_no_sep _ _ H).
Qed.

Lemma last_component_plain (nm : string) :
  PyStr.has_char "." nm = false -> PyStr.last_of (PyStr.split "." nm) = nm.
Proof. intros H. by rewrite (split_no_sep _ _ H). Qed.

Lemma status_of_nested (f : Rag.RagFile) :
  status_of f = match nested_state f with
                | Some st => PyStr.last_of (PyStr.split "." st)
                | None => "UNKNOWN"
                end.
Proof.
  unfold status_of, nested_state. destruct (Rag.file_status f) as [fs |]; reflexivity.
Qed.

Lemma gcs_uri_from_first (f : Rag.RagFile) :
  gcs_uri_from f = default "N/A" (first_uri f).
Proof.
  unfold gcs_uri_from, first_uri.
  destruct (Rag.gcs_source f) as [[[| u us]] |]; reflexivity.
Qed.

(** The statuses that the members of the state enumeration give. *)
Lemma status_of_member (st : string) :
  st ∈ state_renderings ->
  PyStr.last_of (PyStr.split "." st)
  ∈ ["0"; "STATE_UNSPECIFIED"; "1"; "ACTIVE"; "2"; "ERROR"]
  /\ PyStr.last_of (PyStr.split "." st) <> "UNKNOWN"
  /\ (st ∈ unset_renderings ->
      PyStr.last_of (PyStr.split "." st) ∈ ["0"; "STATE_UNSPECIFIED"]).
Proof.
  intros H. apply list_elem_of_In in H. simpl in H.
  destruct H as [<- | [<- | [<- | [<- | [<- | [<- | []]]]]]];
    (split; [apply list_elem_of_In; vm_compute; tauto |]);
    (split; [vm_compute; discriminate |]);
    intros H; apply list_elem_of_In in H; apply list_elem_of_In;
    vm_compute in H |- *; intuition discriminate.
Qed.

(** C7, as stated, fails on a file whose status was never set.  The index
    lists it with the default member of the state enumeration, the object
    has the attribute, and the entry's status is the rendering of that
    member, not ["UNKNOWN"]. *)
Lemma status_unset_is_not_unknown :
  status_absent_upstream Sample.file_unset
  /\ result (corpus_data_node Sample.env Sample.world_unset Sample.state)
     = inr {| d_messages := None; d_question_type := None;
              d_corpus_data := Some [corpus_entry Sample.file_unset] |}
  /\ status (corpus_entry Sample.file_unset) = "0"
  /\ ~ (status (corpus_entry Sample.file_unset) = "UNKNOWN"
        <-> status_absent_upstream Sample.file_unset).
Proof.
  assert (status_absent_upstream Sample.file_unset) as Habsent
      by (apply list_elem_of_In; vm_compute; tauto).
  split; [exact Habsent |]. split; [reflexivity |]. split; [reflexivity |].
  intros [_ H]. specialize (H Habsent). discriminate H.
Qed.

Lemma list_corpus_files_returns env w (corpus : option string)
    (files : list Rag.RagFile) (p l : string) :
  env !! "GCP_PROJECT_ID" = Some p -> p <> "" ->
  env !! "GCP_LOCATION" = Some l -> l <> "" ->
  vertexai_init w p l = Returned tt ->
  rag_list_files w corpus = Returned files ->
  list_corpus_files env w corpus
  = ([CallVertexInit p l; CallListFiles corpus], inr files).
Proof.
  intros Hp Hp' Hl Hl' Hinit Hfiles. unfold list_corpus_files.
  rewrite Hp, Hl, !required_set, !bind_ret by assumption.
  rewrite (call_returned _ _ _ Hinit), bind_returned.
  rewrite (call_returned _ _ _ Hfiles). reflexivity.
Qed.

Lemma corpus_entry_fields (f : Rag.RagFile) :
  let e := corpus_entry f in
  name e = Rag.display_name f
  /\ (nested_state f = None -> status e = "UNKNOWN")
  /\ (forall st, nested_state f = Some st ->
                 status e = PyStr.last_of (PyStr.split "." st))
  /\ (forall pre nm, nested_state f = Some (pre +:+ "." +:+ nm) ->
                     PyStr.has_char "." nm = false -> status e = nm)
  /\ (status e = "UNKNOWN" <->
      nested_state f = None
      \/ exists st, nested_state f = Some st
                    /\ PyStr.last_of (PyStr.split "." st) = "UNKNOWN")
  /\ (forall st, nested_state f = Some st -> st ∈ state_renderings ->
                 status e ∈ ["0"; "STATE_UNSPECIFIED"; "1"; "ACTIVE"; "2"; "ERROR"]
                 /\ status e <> "UNKNOWN"
                 /\ (st ∈ unset_renderings ->
                     status e ∈ ["0"; "STATE_UNSPECIFIED"]))
  /\ gcs_uri e = default "N/A" (first_uri f)
  /\ created e = default "N/A" (Rag.ts_str <$> Rag.create_time f)
  /\ updated e = default "N/A" (Rag.ts_str <$> Rag.update_time f)
  /\ (forall md, Rag.user_metadata f = Some md -> md <> "" ->
                 user_metadata e = Some md)
  /\ (PyStr.truthy (Rag.user_metadata f) = false -> user_metadata e = None)
  /\ (forall txt, Rag.description f = Some txt -> description e = txt)
  /\ (Rag.description f = None -> description e = "").
Proof.
  cbn zeta. unfold corpus_entry; cbn [name status gcs_uri created updated
                                      user_metadata description].
  rewrite status_of_nested, gcs_uri_from_first.
  split; [reflexivity |].
  split; [intros ->; reflexivity |].
  split; [intros st ->; reflexivity |].
  split; [intros pre nm -> Hnm; by apply last_component_qualified |].
  split.
  { destruct (nested_state f) as [st |]; split; eauto.
    - intros [[=] | (st' & [= <-] & H)]. exact H. }
  split; [intros st -> Hst; by apply status_of_member |].
  split; [reflexivity |].
  split; [by destruct (Rag.create_time f) |].
  split; [by destruct (Rag.update_time f) |].
  split; [intros md -> Hmd; by rewrite (proj2 (truthy_Some md) Hmd) |].
  split; [intros ->; reflexivity |].
  split; [intros txt ->; by destruct txt | intros ->; reflexivity].
Qed.

(** C7 (amended). When the index returns a listing, the step raises nothing
    and returns one entry per listed file, in listing order.  The status of
    an entry is ["UNKNOWN"] when the listed object has no nested status
    attribute, and otherwise the last dot-separated component of the
    rendering of its state.  For the members of the state enumeration that
    component is the number or the name of the member and never
    ["UNKNOWN"]; in particular a status that was never set upstream gives
    ["0"] or ["STATE_UNSPECIFIED"].  The source location is the first
    recorded one or ["N/A"]; the timestamps are their renderings or
    ["N/A"]; the user metadata passes through when present or is omitted
    ([None]), the latter also for an empty one. *)
Theorem corpus_data_node_entries env w s (files : list Rag.RagFile) (p l : string) :
  env !! "GCP_PROJECT_ID" = Some p -> p <> "" ->
  env !! "GCP_LOCATION" = Some l -> l <> "" ->
  vertexai_init w p l = Returned tt ->
  rag_list_files w (env !! "RAG_CORPUS") = Returned files ->
  exists entries : list CorpusData,
    result (corpus_data_node env w s)
    = inr {| d_messages := None; d_question_type := None;
             d_corpus_data := Some entries |}
    /\ length entries = length files
    /\ forall (i : nat) (f : Rag.RagFile),
         files !! i = Some f ->
         exists e,
           entries !! i = Some e
           /\ name e = Rag.display_name f
           /\ (nested_state f = None -> status e = "UNKNOWN")
           /\ (forall st, nested_state f = Some st ->
                          status e = PyStr.last_of (PyStr.split "." st))
           /\ (forall pre nm, nested_state f = Some (pre +:+ "." +:+ nm) ->
                              PyStr.has_char "." nm = false -> status e = nm)
           /\ (status e = "UNKNOWN" <->
               nested_state f = None
               \/ exists st, nested_state f = Some st
                             /\ PyStr.last_of (PyStr.split "." st) = "UNKNOWN")
           /\ (forall st, nested_state f = Some st -> st ∈ state_renderings ->
                 status e ∈ ["0"; "STATE_UNSPECIFIED"; "1"; "ACTIVE"; "2"; "ERROR"]
                 /\ status e <> "UNKNOWN"
                 /\ (st ∈ unset_renderings ->
                     status e ∈ ["0"; "STATE_UNSPECIFIED"]))
           /\ gcs_uri e = default "N/A" (first_uri f)
           /\ created e = default "N/A" (Rag.ts_str <$> Rag.create_time f)
           /\ updated e = default "N/A" (Rag.ts_str <$> Rag.update_time f)
           /\ (forall md, Rag.user_metadata f = Some md -> md <> "" ->
                          user_metadata e = Some md)
           /\ (PyStr.truthy (Rag.user_metadata f) = false -> user_metadata e = None)
           /\ (forall txt, Rag.description f = Some txt -> description e = txt)
           /\ (Rag.description f = None -> description e = "").
Proof.
  intros Hp Hp' Hl Hl' Hinit Hfiles.
  exists (map corpus_entry files). unfold corpus_data_node.
  rewrite (list_corpus_files_returns env w _ files p l) by assumption.
  rewrite bind_returned. split; [reflexivity |].
  split; [apply length_map |].
  intros i f Hi. exists (corpus_entry f). split.
  - change (map corpus_entry files) with (corpus_entry <$> files).
    by rewrite list_lookup_fmap, Hi.
  - apply corpus_entry_fields.
Qed.

Lemma corpus_data_node_entries_witness :
  exists entries : list CorpusData,
    result (corpus_data_node Sample.env Sample.world Sample.state)
    = inr {| d_messages := None; d_question_type := None;
             d_corpus_data := Some entries |}
    /\ length entries = 2%nat.
Proof.
  destruct (corpus_data_node_entries Sample.env Sample.world Sample.state
              [Sample.file_a; Sample.file_bare] "p" "us-central1")
    as (entries & H1 & H2 & _); try first [ reflexivity | discriminate ].
  exists entries. split; assumption.
Defined.

Example corpus_entries_sample :
  map (fun e => (name e, status e, gcs_uri e, created e, updated e, user_metadata e))
      (map corpus_entry [Sample.file_a; Sample.file_bare; Sample.file_unset])
  = [ ("a.pdf", "ACTIVE", "gs://bucket/a.pdf", "2024-01-02 03:04:05+00:00", "N/A", Some "{}");
      ("b.pdf", "UNKNOWN", "N/A", "N/A", "N/A", None);
      ("c.pdf", "0", "gs://bucket/c.pdf", "2024-01-02 03:04:05+00:00",
       "2024-01-02 03:04:06+00:00", None) ].
Proof. reflexivity. Qed.

(** ** The engine reaches the terminal *)

Lemma successor_depth (n : string) (f : Node) (s : GraphState) :
  assoc n nodes = Some f ->
  exists n', successor n s = Some n'
             /\ (n' = END \/ (is_Some (assoc n' nodes) /\ (depth n' < depth n)%nat)).
Proof.
  intros Hn.
  destruct (nodes_cases n f Hn) as [[-> _] | [[-> _] | [[-> _] | [[-> _] | [-> _]]]]].
  - exists "determine_question_type". split; [reflexivity |].
    right. split; [by eexists | unfold depth; simpl; lia].
  - exists (route_by_question_type s). split; [apply successor_classifier |].
    right. unfold route_by_question_type.
    case_bool_decide; (split; [by eexists | unfold depth; simpl; lia]).
  - exists "summary_node". split; [reflexivity |].
    right. split; [by eexists | unfold depth; simpl; lia].
  - exists "summary_node". split; [reflexivity |].
    right. split; [by eexists | unfold depth; simpl; lia].
  - exists END. split; [reflexivity | by left].
Qed.

Lemma run_END (fuel : nat) env w s : run fuel env w END s = ret (Some s).
Proof. destruct fuel; reflexivity. Qed.

(** With as much fuel as the depth of the node, the run ends by an
    exception of a step or at the terminal, never for lack of fuel. *)
Lemma run_adequate (fuel : nat) :
  forall (n : string) (f : Node) env w s,
    assoc n nodes = Some f ->
    (depth n <= fuel)%nat ->
    result (run fuel env w n s) <> inr None.
Proof.
  induction fuel as [| fuel IH]; intros n f env w s Hn Hfuel.
  - destruct (nodes_cases n f Hn) as [[-> _] | [[-> _] | [[-> _] | [[-> _] | [-> _]]]]];
      unfold depth in Hfuel; simpl in Hfuel; lia.
  - assert (n <> END) as Hne by (intros ->; discriminate Hn).
    apply String.eqb_neq in Hne. simpl. rewrite Hne.
    unfold step. rewrite Hn, !result_bind.
    destruct (result (f env w s)) as [e | d]; [discriminate |].
    cbn [result ret snd fst].
    destruct (successor_depth n f (merge s d) Hn) as (n' & -> & [-> | [[f' Hf'] Hlt]]).
    + rewrite run_END. discriminate.
    + apply (IH n' f'); [exact Hf' | lia].
Qed.

Lemma invoke_from_adequate (n : string) (f : Node) env w s :
  assoc n nodes = Some f ->
  result (invoke_from n env w s) <> inr None.
Proof.
  intros Hn. apply (run_adequate 4 n f); [exact Hn |].
  destruct (nodes_cases n f Hn) as [[-> _] | [[-> _] | [[-> _] | [[-> _] | [-> _]]]]];
    unfold depth; simpl; lia.
Qed.

Lemma invoke_adequate env w s : result (invoke env w s) <> inr None.
Proof. exact (invoke_from_adequate "determine_question_type" _ env w s eq_refl). Qed.

(** The run of the sample question: classification, retrieval, synthesis. *)
Example invoke_sample :
  exists t s',
    invoke Sample.env Sample.world Sample.state = (t, inr (Some s'))
    /\ map is_model_call t = [false; true; false; false; false; false; true]
    /\ question_type s' = Some "specific_query"
    /\ map kind (messages s') = [human; ai; ai].
Proof. do 2 eexists. repeat split. Qed.

(** * Further properties of the sources *)

(** ** The order of file names *)

Lemma ascii_compare_trans (x y z : ascii) (c : comparison) :
  Ascii.compare x y = c -> Ascii.compare y z = c -> Ascii.compare x z = c.
Proof.
  unfold Ascii.compare. destruct c.
  - intros ->%N.compare_eq_iff ?. assumption.
  - rewrite !N.compare_lt_iff. lia.
  - rewrite !N.compare_gt_iff. lia.
Qed.

Lemma ascii_compare_Eq (x y : ascii) : Ascii.compare x y = Eq <-> x = y.
Proof.
  split; [apply Ascii.compare_eq_iff |].
  intros ->. unfold Ascii.compare. apply N.compare_refl.
Qed.

Lemma string_compare_Lt_trans (a : string) :
  forall b c, String.compare a b = Lt -> String.compare b c = Lt ->
              String.compare a c = Lt.
Proof.
  induction a as [| x a IH]; intros [| y b] [| z c]; simpl; try done.
  destruct (Ascii.compare x y) eqn:Exy; try done;
    destruct (Ascii.compare y z) eqn:Eyz; try done; intros Hab Hbc.
  - apply ascii_compare_Eq in Exy as ->. apply ascii_compare_Eq in Eyz as ->.
    rewrite (proj2 (ascii_compare_Eq z z) eq_refl). eauto.
  - apply ascii_compare_Eq in Exy as ->. by rewrite Eyz.
  - apply ascii_compare_Eq in Eyz as ->. by rewrite Exy.
  - by rewrite (ascii_compare_trans x y z Lt Exy Eyz).
Qed.

Lemma string_compare_refl (a : string) : String.compare a a = Eq.
Proof.
  induction a as [| x a IH]; simpl; [done |].
  by rewrite (proj2 (ascii_compare_Eq x x) eq_refl).
Qed.

Lemma PyStr_le_cases (a b : string) :
  PyStr.le a b <-> a = b \/ String.compare a b = Lt.
Proof.
  unfold PyStr.le, String.leb. split.
  - destruct (String.compare a b) eqn:E; try done.
    + left. by apply String.compare_eq_iff.
    + by right.
  - intros [-> | ->]; [by rewrite string_compare_refl | done].
Qed.

#[global] Instance PyStr_le_trans : Transitive PyStr.le.
Proof.
  intros a b c [-> | Hab]%PyStr_le_cases [-> | Hbc]%PyStr_le_cases;
    apply PyStr_le_cases; eauto using string_compare_Lt_trans.
Qed.

#[global] Instance PyStr_le_antisym : AntiSymm (=) PyStr.le.
Proof. intros a b Hab Hba. by apply String.leb_antisym. Qed.

Lemma sorted_permutation_eq (l1 l2 : list string) :
  l1 ≡ₚ l2 -> PyStr.sorted l1 = PyStr.sorted l2.
Proof.
  intros Hp. apply (Sorted_unique PyStr.le); try apply sorted_Sorted.
  by rewrite !sorted_Permutation.
Qed.

Lemma StronglySorted_lookup {A} (R : relation A) (l : list A) :
  StronglySorted R l ->
  forall i j a b, l !! i = Some a -> l !! j = Some b -> (i < j)%nat -> R a b.
Proof.
  induction 1 as [| x l Hl IH Hx]; intros i j a b Hi Hj Hij; [done |].
  destruct j as [| j]; [lia |]. destruct i as [| i]; simpl in *.
  - injection Hi as <-. rewrite Forall_forall in Hx. apply Hx.
    by eapply list_elem_of_lookup_2.
  - eapply IH; eauto. lia.
Qed.

Lemma sorted_ordered (ls : list string) (i j : nat) (a b : string) :
  PyStr.sorted ls !! i = Some a -> PyStr.sorted ls !! j = Some b ->
  (i <= j)%nat -> PyStr.le a b.
Proof.
  intros Hi Hj Hij.
  destruct (decide (i = j)) as [-> | Hne].
  - rewrite Hi in Hj. injection Hj as ->. apply PyStr_le_cases. by left.
  - pose proof (Sorted_StronglySorted _ _ (sorted_Sorted ls)) as Hs.
    apply (StronglySorted_lookup _ _ Hs i j a b Hi Hj). lia.
Qed.

(** ** Effects of a run, event by event *)

Section AllEvents.
Context (P : Event -> bool).

Lemma all_events_ret {A} (a : A) : all_events P (ret a).
Proof. reflexivity. Qed.

Lemma all_events_raise {A} (e : Exn) : all_events P (@raise A e).
Proof. reflexivity. Qed.

Lemma all_events_call {A} (ev : Event) (o : outcome A) :
  P ev = true -> all_events P (call ev o).
Proof. intros H. unfold all_events, call; simpl. by rewrite H. Qed.

Lemma all_events_print (line : string) :
  P (Print line) = true -> all_events P (print line).
Proof. intros H. unfold all_events, print; simpl. by rewrite H. Qed.

Lemma all_events_bind {A B} (m : Run A) (k : A -> Run B) :
  all_events P m -> (forall a, all_events P (k a)) -> all_events P (bind m k).
Proof.
  unfold all_events. intros Hm Hk. rewrite trace_bind, forallb_app, Hm.
  destruct (result m) as [e | a]; [reflexivity | apply Hk].
Qed.

Lemma all_events_try_reraise {A} (m : Run A) (h : Exn -> Run unit) :
  all_events P m -> (forall e, all_events P (h e)) ->
  all_events P (try_reraise m h).
Proof.
  unfold all_events. intros Hm Hh. destruct m as [t [e | a]]; simpl in *.
  - unfold trace in *; simpl in *. rewrite forallb_app, Hm. apply Hh.
  - exact Hm.
Qed.

Lemma all_events_required (var : string) (v : option string) :
  all_events P (required var v).
Proof. destruct v as [[| c s] |]; reflexivity. Qed.

Lemma all_events_int_of (w : World) (lit : string) : all_events P (int_of w lit).
Proof. unfold int_of. destruct (int_value w lit); reflexivity. Qed.

Lemma all_events_last_message (ms : list BaseMessage) :
  all_events P (last_message ms).
Proof. unfold last_message. destruct (last ms); reflexivity. Qed.

End AllEvents.

(** ** The object store helper *)

Lemma startswith_scheme_no_colon (s : string) :
  PyStr.has_char ":" s = false -> PyStr.startswith "gs://" s = false.
Proof.
  destruct s as [| c1 [| c2 [| c3 s]]];
    cbn [PyStr.startswith PyStr.has_char]; intros H;
    rewrite ?andb_false_r; try reflexivity.
  apply orb_false_iff in H as [_ H]. apply orb_false_iff in H as [_ H].
  apply orb_false_iff in H as [H _]. rewrite Ascii.eqb_sym in H.
  rewrite H. cbn [andb]. by rewrite !andb_false_r.
Qed.

Lemma replace_scheme_absent (b : string) :
  PyStr.has_char ":" b = false -> PyStr.replace "gs://" "" b = b.
Proof.
  unfold PyStr.replace. induction b as [| c b IH]; [reflexivity |].
  intros H. cbn [PyStr.replace_from].
  rewrite (startswith_scheme_no_colon _ H).
  cbn [PyStr.has_char] in H. apply orb_false_iff in H as [_ H]. by rewrite (IH H).
Qed.

Lemma replace_scheme_prefix (b : string) :
  PyStr.has_char ":" b = false -> PyStr.replace "gs://" "" ("gs://" +:+ b) = b.
Proof. intros H. exact (replace_scheme_absent b H). Qed.

Lemma upload_to_gcs_cases (w : World) (local_file bucket dest_blob : string) :
  let bucket_name := PyStr.replace "gs://" "" bucket in
  let gcs_uri := "gs://" +:+ bucket_name +:+ "/" +:+ dest_blob in
  upload_to_gcs w local_file bucket dest_blob =
    match storage_client w with
    | Failed d => ([CallStorageClient], inl (ServiceError d))
    | Returned _ =>
        match upload_from_filename w bucket_name dest_blob local_file with
        | Failed d =>
            ([CallStorageClient; CallUpload bucket_name dest_blob local_file],
             inl (ServiceError d))
        | Returned _ =>
            ([CallStorageClient; CallUpload bucket_name dest_blob local_file;
              Print ("Uploaded: " +:+ gcs_uri)],
             inr gcs_uri)
        end
    end.
Proof.
  cbn zeta. unfold upload_to_gcs, call.
  destruct (storage_client w) as [d | []]; [reflexivity |].
  rewrite bind_returned.
  destruct (upload_from_filename w _ dest_blob local_file) as [d | []];
    reflexivity.
Qed.

(** X1. The bucket may be given with or without the [gs://] scheme: for a
    bucket name without a colon both spellings give the same run, with one
    upload to the bare bucket name and the address [gs://bucket/blob] as
    the result. *)
Theorem upload_to_gcs_scheme_optional (w : World) (local_file b dest_blob : string) :
  PyStr.has_char ":" b = false ->
  upload_to_gcs w local_file ("gs://" +:+ b) dest_blob
  = upload_to_gcs w local_file b dest_blob
  /\ forall t uri,
       upload_to_gcs w local_file b dest_blob = (t, inr uri) ->
       uri = "gs://" +:+ b +:+ "/" +:+ dest_blob
       /\ t = [CallStorageClient; CallUpload b dest_blob local_file;
               Print ("Uploaded: " +:+ uri)].
Proof.
  intros Hb. rewrite !upload_to_gcs_cases.
  rewrite (replace_scheme_prefix b Hb), (replace_scheme_absent b Hb).
  split; [reflexivity |]. intros t uri.
  destruct (storage_client w) as [d | []]; [discriminate |].
  destruct (upload_from_filename w b dest_blob local_file) as [d | []];
    [discriminate |].
  intros [= <- <-]. split; reflexivity.
Qed.

Lemma upload_to_gcs_scheme_optional_witness :
  upload_to_gcs Sample.world "files_to_upload/a.pdf" "gs://bucket" "a.pdf"
  = upload_to_gcs Sample.world "files_to_upload/a.pdf" "bucket" "a.pdf".
Proof.
  apply (upload_to_gcs_scheme_optional Sample.world "files_to_upload/a.pdf"
           "bucket" "a.pdf").
  reflexivity.
Defined.

(** The scheme is removed wherever it occurs, and removing it can bring a
    new occurrence together. *)
Example replace_scheme_inner :
  map (PyStr.replace "gs://" "") ["a-gs://b"; "gs:gs:////x"] = ["a-b"; "gs://x"].
Proof. reflexivity. Qed.

(** ** The import and listing helpers *)

Lemma import_files_configured env w (corpus_name : string) (gcs_uris : list string)
    (chunk_size chunk_overlap : Z) (p l : string) :
  env !! "GCP_PROJECT_ID" = Some p -> p <> "" ->
  env !! "GCP_LOCATION" = Some l -> l <> "" ->
  import_files_to_rag_corpus env w corpus_name gcs_uris chunk_size chunk_overlap =
    match vertexai_init w p l with
    | Failed d => ([CallVertexInit p l], inl (ServiceError d))
    | Returned _ =>
        match rag_import_files w corpus_name gcs_uris chunk_size chunk_overlap with
        | Failed d =>
            ([CallVertexInit p l;
              CallImportFiles corpus_name gcs_uris chunk_size chunk_overlap],
             inl (ServiceError d))
        | Returned resp =>
            ([CallVertexInit p l;
              CallImportFiles corpus_name gcs_uris chunk_size chunk_overlap;
              Print ("Imported: " +:+ PyStr.of_Z (Rag.imported_rag_files_count resp)
                     +:+ ", Skipped: "
                     +:+ PyStr.of_Z (Rag.skipped_rag_files_count resp))],
             inr (Rag.imported_rag_files_count resp,
                  Rag.skipped_rag_files_count resp))
        end
    end.
Proof.
  intros Hp Hp' Hl Hl'. unfold import_files_to_rag_corpus, call.
  rewrite Hp, Hl, !required_set, !bind_ret by assumption.
  destruct (vertexai_init w p l) as [d | []]; [reflexivity |].
  rewrite bind_returned.
  destruct (rag_import_files w corpus_name gcs_uris chunk_size chunk_overlap)
    as [d | resp]; reflexivity.
Qed.

(** X2. The import helper checks the project and then the location before
    it does anything: when one of them is unset or empty it raises the
    error that names it and no remote call is made.  When both are set it
    initialises the client with them, and an initialisation that fails is
    not followed by an import. *)
Theorem import_files_checks_configuration_first
    env w (corpus_name : string) (gcs_uris : list string)
    (chunk_size chunk_overlap : Z) :
  let r := import_files_to_rag_corpus env w corpus_name gcs_uris
                                      chunk_size chunk_overlap in
  (PyStr.truthy (env !! "GCP_PROJECT_ID") = false ->
   r = ([], inl (ValueError "GCP_PROJECT_ID environment variable is required")))
  /\ (PyStr.truthy (env !! "GCP_PROJECT_ID") = true ->
      PyStr.truthy (env !! "GCP_LOCATION") = false ->
      r = ([], inl (ValueError "GCP_LOCATION environment variable is required")))
  /\ (forall p l d,
        env !! "GCP_PROJECT_ID" = Some p -> p <> "" ->
        env !! "GCP_LOCATION" = Some l -> l <> "" ->
        vertexai_init w p l = Failed d ->
        r = ([CallVertexInit p l], inl (ServiceError d)))
  /\ (forall p l resp,
        env !! "GCP_PROJECT_ID" = Some p -> p <> "" ->
        env !! "GCP_LOCATION" = Some l -> l <> "" ->
        vertexai_init w p l = Returned tt ->
        rag_import_files w corpus_name gcs_uris chunk_size chunk_overlap
        = Returned resp ->
        result r = inr (Rag.imported_rag_files_count resp,
                        Rag.skipped_rag_files_count resp)
        /\ List.filter is_remote_call (trace r)
           = [CallVertexInit p l;
              CallImportFiles corpus_name gcs_uris chunk_size chunk_overlap]).
Proof.
  cbn zeta. split; [| split; [| split]].
  - intros Hp. unfold import_files_to_rag_corpus.
    by rewrite (required_unset _ _ Hp).
  - intros Hp Hl. unfold import_files_to_rag_corpus.
    destruct (env !! "GCP_PROJECT_ID") as [[| ? ?] |]; try discriminate Hp.
    simpl required. by rewrite bind_ret, (required_unset _ _ Hl).
  - intros p l d Hp Hp' Hl Hl' Hinit.
    rewrite (import_files_configured env w _ _ _ _ p l) by assumption.
    by rewrite Hinit.
  - intros p l resp Hp Hp' Hl Hl' Hinit Himp.
    rewrite (import_files_configured env w _ _ _ _ p l) by assumption.
    rewrite Hinit, Himp. split; reflexivity.
Qed.

Lemma import_files_checks_configuration_first_witness :
  import_files_to_rag_corpus ∅ Sample.world "corpus" ["gs://bucket/a.pdf"] 1024 256
  = ([], inl (ValueError "GCP_PROJECT_ID environment variable is required")).
Proof.
  apply (import_files_checks_configuration_first ∅ Sample.world "corpus"
           ["gs://bucket/a.pdf"] 1024 256).
  reflexivity.
Defined.

(** X3. The corpus metadata step raises the project or location error
    before any call.  It does not check the corpus setting: whatever
    [RAG_CORPUS] holds, [None] when it is unset, goes to the listing call,
    and a failure of that call leaves the step as it is, without a log
    line. *)
Theorem corpus_data_node_checks_project_and_location_only env w s :
  let r := corpus_data_node env w s in
  (PyStr.truthy (env !! "GCP_PROJECT_ID") = false ->
   r = ([], inl (ValueError "GCP_PROJECT_ID environment variable is required")))
  /\ (PyStr.truthy (env !! "GCP_PROJECT_ID") = true ->
      PyStr.truthy (env !! "GCP_LOCATION") = false ->
      r = ([], inl (ValueError "GCP_LOCATION environment variable is required")))
  /\ (forall p l,
        env !! "GCP_PROJECT_ID" = Some p -> p <> "" ->
        env !! "GCP_LOCATION" = Some l -> l <> "" ->
        vertexai_init w p l = Returned tt ->
        r = ([CallVertexInit p l; CallListFiles (env !! "RAG_CORPUS")],
             match rag_list_files w (env !! "RAG_CORPUS") with
             | Failed d => inl (ServiceError d)
             | Returned files =>
                 inr {| d_messages := None; d_question_type := None;
                        d_corpus_data := Some (map corpus_entry files) |}
             end)).
Proof.
  cbn zeta. unfold corpus_data_node, list_corpus_files.
  split; [| split].
  - intros Hp. by rewrite (required_unset _ _ Hp).
  - intros Hp Hl.
    destruct (env !! "GCP_PROJECT_ID") as [[| ? ?] |]; try discriminate Hp.
    simpl required. by rewrite bind_ret, (required_unset _ _ Hl).
  - intros p l Hp Hp' Hl Hl' Hinit.
    rewrite Hp, Hl, !required_set, !bind_ret by assumption.
    rewrite (call_returned _ _ _ Hinit), bind_returned. unfold call.
    destruct (rag_list_files w (env !! "RAG_CORPUS")) as [d | files]; reflexivity.
Qed.

Lemma corpus_data_node_checks_project_and_location_only_witness :
  corpus_data_node Sample.env_no_corpus Sample.world Sample.state
  = ([CallVertexInit "p" "us-central1"; CallListFiles None],
     inr {| d_messages := None; d_question_type := None;
            d_corpus_data := Some (map corpus_entry [Sample.file_a; Sample.file_bare]) |}).
Proof.
  apply (corpus_data_node_checks_project_and_location_only
           Sample.env_no_corpus Sample.world Sample.state);
    first [ reflexivity | discriminate ].
Defined.

(** ** Ingestion by index *)

(** Once the index is in range, the run is the listing, the log line, the
    upload and the import, in this order. *)
Lemma upload_file_by_index_selected
    env w (index : Z) (bucket corpus_name files_dir : string)
    (chunk_size chunk_overlap : Z) (listing : list string) (f : string) :
  os_listdir w files_dir = Returned listing ->
  0 <= index ->
  PyStr.sorted listing !! Z.to_nat index = Some f ->
  upload_file_by_index env w index bucket corpus_name files_dir chunk_size chunk_overlap
  = (let* _ := ([CallListdir files_dir; Print ("Uploading file: " +:+ f)], inr tt) in
     let* gcs_uri := upload_to_gcs w (PyStr.path_join files_dir f) bucket f in
     let* import_result :=
       import_files_to_rag_corpus env w corpus_name [gcs_uri] chunk_size chunk_overlap in
     ret {| filename := f; gcs_uri_of := gcs_uri;
            imported_count := fst import_result;
            skipped_count := snd import_result |}).
Proof.
  intros Hls Hidx Hf. unfold upload_file_by_index.
  rewrite (call_returned _ _ _ Hls), !bind_returned.
  assert (Z.to_nat index < length (PyStr.sorted listing))%nat as Hlt
    by (by eapply lookup_lt_Some).
  replace ((index <? 0) || (Z.of_nat (length (PyStr.sorted listing)) <=? index))
    with false by (symmetry; apply orb_false_iff; rewrite Z.ltb_ge, Z.leb_gt; lia).
  unfold item. rewrite Hf. cbn [default from_option]. unfold id, print.
  rewrite !bind_returned. reflexivity.
Qed.

(** X4. The file is uploaded before the import helper looks at its
    configuration: with the object store working and no project
    configured, the run uploads the selected file and then raises the
    project error, without any import. *)
Theorem upload_file_by_index_uploads_before_config_check
    env w (index : Z) (bucket corpus_name files_dir : string)
    (chunk_size chunk_overlap : Z) (listing : list string) (f : string) :
  os_listdir w files_dir = Returned listing ->
  0 <= index ->
  PyStr.sorted listing !! Z.to_nat index = Some f ->
  storage_client w = Returned tt ->
  upload_from_filename w (PyStr.replace "gs://" "" bucket) f
                       (PyStr.path_join files_dir f) = Returned tt ->
  PyStr.truthy (env !! "GCP_PROJECT_ID") = false ->
  upload_file_by_index env w index bucket corpus_name files_dir chunk_size chunk_overlap
  = ([CallListdir files_dir;
      Print ("Uploading file: " +:+ f);
      CallStorageClient;
      CallUpload (PyStr.replace "gs://" "" bucket) f (PyStr.path_join files_dir f);
      Print ("Uploaded: gs://" +:+ PyStr.replace "gs://" "" bucket +:+ "/" +:+ f)],
     inl (ValueError "GCP_PROJECT_ID environment variable is required")).
Proof.
  intros Hls Hidx Hf Hclient Hup Hp.
  rewrite (upload_file_by_index_selected env w index bucket corpus_name files_dir
             chunk_size chunk_overlap listing f Hls Hidx Hf).
  rewrite upload_to_gcs_cases, Hclient, Hup, !bind_returned.
  unfold import_files_to_rag_corpus. rewrite (required_unset _ _ Hp).
  reflexivity.
Qed.

Lemma upload_file_by_index_uploads_before_config_check_witness :
  upload_file_by_index ∅ Sample.world 0 "gs://bucket" "corpus" "files_to_upload" 1024 256
  = ([CallListdir "files_to_upload";
      Print "Uploading file: a.pdf";
      CallStorageClient;
      CallUpload "bucket" "a.pdf" "files_to_upload/a.pdf";
      Print "Uploaded: gs://bucket/a.pdf"],
     inl (ValueError "GCP_PROJECT_ID environment variable is required")).
Proof.
  apply (upload_file_by_index_uploads_before_config_check ∅ Sample.world 0
           "gs://bucket" "corpus" "files_to_upload" 1024 256 ["b.pdf"; "a.pdf"] "a.pdf");
    first [ reflexivity | lia ].
Defined.

(** X5. When every call succeeds, the file at the index of the sorted
    listing is uploaded from the staging directory under its own name, the
    import receives exactly the address of that upload with the chunk
    settings it was given, and the result holds the name, the address and
    the two counts of the import response. *)
Theorem upload_file_by_index_success
    env w (index : Z) (bucket corpus_name files_dir : string)
    (chunk_size chunk_overlap : Z) (listing : list string)
    (f p l : string) (resp : Rag.ImportResponse) :
  let bucket_name := PyStr.replace "gs://" "" bucket in
  let uri := "gs://" +:+ bucket_name +:+ "/" +:+ f in
  os_listdir w files_dir = Returned listing ->
  0 <= index ->
  PyStr.sorted listing !! Z.to_nat index = Some f ->
  storage_client w = Returned tt ->
  upload_from_filename w bucket_name f (PyStr.path_join files_dir f) = Returned tt ->
  env !! "GCP_PROJECT_ID" = Some p -> p <> "" ->
  env !! "GCP_LOCATION" = Some l -> l <> "" ->
  vertexai_init w p l = Returned tt ->
  rag_import_files w corpus_name [uri] chunk_size chunk_overlap = Returned resp ->
  let r := upload_file_by_index env w index bucket corpus_name files_dir
                                chunk_size chunk_overlap in
  result r = inr {| filename := f; gcs_uri_of := uri;
                    imported_count := Rag.imported_rag_files_count resp;
                    skipped_count := Rag.skipped_rag_files_count resp |}
  /\ List.filter is_remote_call (trace r)
     = [CallStorageClient;
        CallUpload bucket_name f (PyStr.path_join files_dir f);
        CallVertexInit p l;
        CallImportFiles corpus_name [uri] chunk_size chunk_overlap].
Proof.
  cbn zeta. intros Hls Hidx Hf Hclient Hup Hp Hp' Hl Hl' Hinit Himp.
  rewrite (upload_file_by_index_selected env w index bucket corpus_name files_dir
             chunk_size chunk_overlap listing f Hls Hidx Hf).
  rewrite upload_to_gcs_cases, Hclient, Hup, !bind_returned.
  rewrite (import_files_configured env w _ _ _ _ p l) by assumption.
  rewrite Hinit, Himp, !bind_returned. split; reflexivity.
Qed.

Lemma upload_file_by_index_success_witness :
  result (upload_file_by_index Sample.env Sample.world 1 "gs://bucket"
            "projects/p/locations/us-central1/ragCorpora/1" "files_to_upload" 1024 256)
  = inr {| filename := "b.pdf"; gcs_uri_of := "gs://bucket/b.pdf";
           imported_count := 1; skipped_count := 0 |}.
Proof.
  apply (upload_file_by_index_success Sample.env Sample.world 1 "gs://bucket"
           "projects/p/locations/us-central1/ragCorpora/1" "files_to_upload" 1024 256
           ["b.pdf"; "a.pdf"] "b.pdf" "p" "us-central1"
           {| Rag.imported_rag_files_count := 1; Rag.skipped_rag_files_count := 0 |});
    first [ reflexivity | lia | discriminate ].
Defined.

(** X6. The choice of the file does not depend on the order in which the
    directory is listed: two listings with the same names give the same
    run.  In the sorted listing a name at an earlier position is never
    greater than one at a later position. *)
Theorem upload_file_by_index_listing_order
    env w (index : Z) (bucket corpus_name files_dir : string)
    (chunk_size chunk_overlap : Z) (l1 l2 : list string) :
  l1 ≡ₚ l2 ->
  upload_file_by_index env (with_listing w l1) index bucket corpus_name files_dir
                       chunk_size chunk_overlap
  = upload_file_by_index env (with_listing w l2) index bucket corpus_name files_dir
                         chunk_size chunk_overlap
  /\ forall i j a b,
       PyStr.sorted l1 !! i = Some a -> PyStr.sorted l1 !! j = Some b ->
       (i <= j)%nat -> String.leb a b = true.
Proof.
  intros Hp. split; [| apply sorted_ordered].
  unfold upload_file_by_index. cbn [os_listdir with_listing].
  rewrite !(call_returned _ (Returned _) _ eq_refl), !bind_returned.
  by rewrite (sorted_permutation_eq l1 l2 Hp).
Qed.

Lemma upload_file_by_index_listing_order_witness :
  upload_file_by_index Sample.env (with_listing Sample.world ["b.pdf"; "a.pdf"]) 0
    "bucket" "corpus" "files_to_upload" 1024 256
  = upload_file_by_index Sample.env (with_listing Sample.world ["a.pdf"; "b.pdf"]) 0
      "bucket" "corpus" "files_to_upload" 1024 256.
Proof.
  apply (upload_file_by_index_listing_order Sample.env Sample.world 0
           "bucket" "corpus" "files_to_upload" 1024 256
           ["b.pdf"; "a.pdf"] ["a.pdf"; "b.pdf"]).
  apply Permutation_swap.
Defined.



(** ** The language-model client, continued *)

(** X8. With no model, location or token setting in the environment, and
    a temperature setting that is unset or empty, the function raises
    nothing of its own: it calls the constructor of the client once, for
    gemini-2.5-flash in us-central1 with the default temperature and 8192
    output tokens, and with the project as the environment has it, also
    when it is unset.  The outcome is the constructor's: the client when
    it returns, its error when it raises. *)
Theorem get_lc_llm_defaults env w :
  PyStr.truthy (env !! "VERTEX_TEMPERATURE") = false ->
  env !! "VERTEX_MAX_TOKENS" = None ->
  env !! "VERTEX_MODEL" = None ->
  env !! "GCP_LOCATION" = None ->
  let cfg := {| model := "gemini-2.5-flash";
                project := env !! "GCP_PROJECT_ID";
                location := "us-central1";
                temperature := DefaultTemperature;
                max_output_tokens := 8192 |} in
  trace (get_lc_llm env w) = [CallChatModel cfg]
  /\ (chat_model w cfg = Returned tt -> result (get_lc_llm env w) = inr cfg)
  /\ (forall d, chat_model w cfg = Failed d ->
                result (get_lc_llm env w) = inl (ServiceError d)).
Proof.
  intros Ht Hk Hm Hl. cbn zeta. unfold get_lc_llm.
  rewrite Ht, Hk, Hm, Hl. cbn [default from_option]. unfold id.
  rewrite bind_ret, (int_of_Some w "8192" 8192 eq_refl), bind_ret.
  unfold call. destruct (chat_model w _) as [d | []];
    (split; [reflexivity |]); (split; [intros H | intros d' H]);
    first [ discriminate H | injection H as -> | idtac ]; reflexivity.
Qed.

Lemma get_lc_llm_defaults_witness :
  get_lc_llm Sample.env_project_only Sample.world
  = ([CallChatModel {| model := "gemini-2.5-flash"; project := Some "p";
                       location := "us-central1";
                       temperature := DefaultTemperature;
                       max_output_tokens := 8192 |}],
     inr {| model := "gemini-2.5-flash"; project := Some "p";
            location := "us-central1"; temperature := DefaultTemperature;
            max_output_tokens := 8192 |}).
Proof.
  destruct (get_lc_llm_defaults Sample.env_project_only Sample.world
              eq_refl eq_refl eq_refl eq_refl) as (Ht & Hr & _).
  specialize (Hr eq_refl).
  destruct (get_lc_llm Sample.env_project_only Sample.world) as [t r].
  cbn [trace result fst snd] in Ht, Hr. rewrite Ht, Hr. reflexivity.
Defined.

(** X9. A setting that does not convert makes the function raise before
    the client is built, the temperature first.  The token setting falls
    back to its default only when it is unset: a value that is set is what
    the conversion is applied to, so the empty string raises the
    conversion error. *)
Theorem get_lc_llm_conversion_errors env w :
  (forall lit,
     env !! "VERTEX_TEMPERATURE" = Some lit -> lit <> "" ->
     float_accepts w lit = false ->
     get_lc_llm env w = ([], inl (InvalidLiteral "float" lit)))
  /\ (forall lit,
        (PyStr.truthy (env !! "VERTEX_TEMPERATURE") = false
         \/ float_accepts w (default "" (env !! "VERTEX_TEMPERATURE")) = true) ->
        env !! "VERTEX_MAX_TOKENS" = Some lit ->
        int_value w lit = None ->
        get_lc_llm env w = ([], inl (InvalidLiteral "int" lit)))
  /\ ((PyStr.truthy (env !! "VERTEX_TEMPERATURE") = false
       \/ float_accepts w (default "" (env !! "VERTEX_TEMPERATURE")) = true) ->
      env !! "VERTEX_MAX_TOKENS" = Some "" ->
      get_lc_llm env w = ([], inl (InvalidLiteral "int" ""))).
Proof.
  assert (forall lit,
            (PyStr.truthy (env !! "VERTEX_TEMPERATURE") = false
             \/ float_accepts w (default "" (env !! "VERTEX_TEMPERATURE")) = true) ->
            env !! "VERTEX_MAX_TOKENS" = Some lit ->
            int_value w lit = None ->
            get_lc_llm env w = ([], inl (InvalidLiteral "int" lit))) as Hint.
  { intros lit Ht Hk Hint. unfold get_lc_llm, float_of, int_of. rewrite Hk.
    destruct (env !! "VERTEX_TEMPERATURE") as [[| c tl] |];
      cbn [PyStr.truthy default from_option id] in *;
      try (destruct Ht as [Ht | ->]; [discriminate Ht |]);
      rewrite bind_ret, Hint; reflexivity. }
  split; [| split].
  - intros lit Ht Hne Hf. unfold get_lc_llm, float_of.
    rewrite Ht, (proj2 (truthy_Some lit) Hne). cbn [default from_option]. unfold id.
    by rewrite Hf.
  - exact Hint.
  - intros Ht Hk. exact (Hint "" Ht Hk eq_refl).
Qed.

Lemma get_lc_llm_conversion_errors_witness :
  get_lc_llm (<["VERTEX_MAX_TOKENS" := ""]> Sample.env) Sample.world
  = ([], inl (InvalidLiteral "int" "")).
Proof.
  apply (get_lc_llm_conversion_errors (<["VERTEX_MAX_TOKENS" := ""]> Sample.env)
           Sample.world); [left |]; reflexivity.
Defined.

(** ** The synthesis step *)

Lemma summary_node_built env w s t llm :
  get_lc_llm env w = (t, inr llm) ->
  summary_node env w s
  = (t ++ [CallInvoke llm (SystemMessage summary_prompt :: messages s)],
     match llm_invoke w llm (SystemMessage summary_prompt :: messages s) with
     | Failed d => inl (ServiceError d)
     | Returned r => inr (only_messages [r])
     end).
Proof.
  intros Hllm. unfold summary_node. rewrite Hllm, bind_returned. unfold call.
  destruct (llm_invoke w llm _) as [d | r]; reflexivity.
Qed.

(** X10. Once the client is built the synthesis step makes one model call
    whose prompt is the fixed system message followed by all the messages
    of the state, in order; the reply is the only message of its delta and
    a failure of the call leaves the step as it is.  The step needs no
    message at all: on an empty sequence the prompt is the system message
    alone.  Neither [question_type] nor [corpus_data] has any part in
    it. *)
Theorem summary_node_prompt env w s t llm :
  get_lc_llm env w = (t, inr llm) ->
  let prompt := {| kind := system; content := Text summary_prompt; metadata := [] |}
                :: messages s in
  summary_node env w s
  = ([CallChatModel llm; CallInvoke llm prompt],
     match llm_invoke w llm prompt with
     | Failed d => inl (ServiceError d)
     | Returned r => inr {| d_messages := Some [r]; d_question_type := None;
                            d_corpus_data := None |}
     end)
  /\ (messages s = [] ->
      List.filter is_model_call (trace (summary_node env w s))
      = [CallInvoke llm [SystemMessage summary_prompt]])
  /\ forall qt cd,
       summary_node env w {| messages := messages s; question_type := qt;
                             corpus_data := cd |}
       = summary_node env w s.
Proof.
  intros Hllm. cbn zeta.
  pose proof (get_lc_llm_returned env w t llm Hllm) as ->.
  split; [| split].
  - rewrite (summary_node_built env w s _ llm Hllm).
    destruct (llm_invoke w llm _); reflexivity.
  - intros Hnil. rewrite (summary_node_built env w s _ llm Hllm), Hnil.
    reflexivity.
  - intros qt cd. reflexivity.
Qed.

Lemma summary_node_prompt_witness :
  List.filter is_model_call (trace (summary_node Sample.env Sample.world Sample.empty_state))
  = [CallInvoke {| model := "gemini-2.5-flash"; project := Some "p";
                   location := "us-central1"; temperature := DefaultTemperature;
                   max_output_tokens := 8192 |}
                [SystemMessage summary_prompt]].
Proof.
  refine (proj1 (proj2 (summary_node_prompt Sample.env Sample.world
                          Sample.empty_state _ _ eq_refl)) eq_refl).
Defined.

(** ** Failures of the retrieval service *)

(** X11. A failure of the retrieval service is logged once and raised
    again unchanged, and the step returns no message.  When the
    initialisation of the client fails, the query is not attempted. *)
Theorem retrieve_node_service_failure
    env w s (k : Z) (m : BaseMessage) (c p l d : string) :
  int_value w (default "5" (env !! "RAG_TOP_K")) = Some k ->
  last (messages s) = Some m ->
  env !! "RAG_CORPUS" = Some c -> c <> "" ->
  env !! "GCP_PROJECT_ID" = Some p -> p <> "" ->
  env !! "GCP_LOCATION" = Some l -> l <> "" ->
  (vertexai_init w p l = Failed d ->
   retrieve_node env w s
   = ([CallVertexInit p l;
       Print (PyStr.nl +:+ "[ERROR] RAG retrieval failed: " +:+ d)],
      inl (ServiceError d)))
  /\ (vertexai_init w p l = Returned tt ->
      rag_retrieval_query w c (content m) k = Failed d ->
      retrieve_node env w s
      = ([CallVertexInit p l; CallRetrievalQuery c (content m) k;
          Print (PyStr.nl +:+ "[ERROR] RAG retrieval failed: " +:+ d)],
         inl (ServiceError d))).
Proof.
  intros Hk Hm Hc Hc' Hp Hp' Hl Hl'.
  rewrite (retrieve_node_configured env w s k m c p l) by assumption.
  split; [intros -> | intros -> ->]; reflexivity.
Qed.

Lemma retrieve_node_service_failure_witness :
  let w := {| os_listdir := os_listdir Sample.world;
              storage_client := storage_client Sample.world;
              upload_from_filename := upload_from_filename Sample.world;
              vertexai_init := fun _ _ => Failed "permission denied";
              rag_import_files := rag_import_files Sample.world;
              rag_list_files := rag_list_files Sample.world;
              rag_retrieval_query := rag_retrieval_query Sample.world;
              float_accepts := float_accepts Sample.world;
              int_of_str := int_of_str Sample.world;
              chat_model := chat_model Sample.world;
              llm_invoke := llm_invoke Sample.world;
              llm_invoke_structured := llm_invoke_structured Sample.world |} in
  retrieve_node Sample.env w Sample.state
  = ([CallVertexInit "p" "us-central1";
      Print (PyStr.nl +:+ "[ERROR] RAG retrieval failed: permission denied")],
     inl (ServiceError "permission denied")).
Proof.
  intros w.
  apply (retrieve_node_service_failure Sample.env w Sample.state 5 Sample.question
           "projects/p/locations/us-central1/ragCorpora/1" "p" "us-central1"
           "permission denied");
    first [ reflexivity | discriminate ].
Defined.

(** ** Passages without text *)

Lemma omap_text_nil (ps : list Rag.Context) :
  omap Rag.text ps = [] <-> Forall (fun c => Rag.text c = None) ps.
Proof.
  induction ps as [| c ps IH]; simpl; [split; [constructor | done] |].
  destruct (Rag.text c) as [t |] eqn:E; split.
  - discriminate.
  - intros H. apply Forall_cons in H as [H _]. congruence.
  - intros H. constructor; [assumption | by apply IH].
  - intros H. apply Forall_cons in H as [_ H]. by apply IH.
Qed.

Lemma omap_text_all (ps : list Rag.Context) (ts : list string) :
  map Rag.text ps = map Some ts -> omap Rag.text ps = ts.
Proof.
  revert ts. induction ps as [| c ps IH]; intros [| t ts] H;
    try discriminate H; [reflexivity |].
  injection H as E H.
  change (omap Rag.text (c :: ps))
    with (match Rag.text c with
          | Some y => y :: omap Rag.text ps
          | None => omap Rag.text ps
          end).
  by rewrite E, (IH ts H).
Qed.

Lemma omap_text_length (ps : list Rag.Context) :
  (length (omap Rag.text ps) <= length ps)%nat.
Proof.
  induction ps as [| c ps IH]; [reflexivity |].
  change (omap Rag.text (c :: ps))
    with (match Rag.text c with
          | Some y => y :: omap Rag.text ps
          | None => omap Rag.text ps
          end).
  destruct (Rag.text c); cbn [length]; lia.
Qed.

(** X13. Passages that have no text are passed over.  The fixed sentence
    stands in for the context exactly when no passage of the container has
    a text, also when passages were returned; a passage whose text is empty
    counts as text, so a response of [n] passages that all have a text
    gives the join of the [n] texts, which may be empty, and not the fixed
    sentence unless the join happens to be it. *)
Theorem context_block_without_texts (ps other : list Rag.Context) :
  let flat := {| Rag.contexts := Some {| Rag.nested := None; Rag.elements := ps |} |} in
  let deep := {| Rag.contexts := Some {| Rag.nested := Some ps; Rag.elements := other |} |} in
  (context_texts_of flat = [] <-> Forall (fun c => Rag.text c = None) ps)
  /\ (context_texts_of deep = [] <-> Forall (fun c => Rag.text c = None) ps)
  /\ (Forall (fun c => Rag.text c = None) ps ->
      context_text_of (context_texts_of flat)
      = "No relevant context was found in the knowledge base.")
  /\ (forall ts,
        map Rag.text ps = map Some ts -> ts <> [] ->
        context_text_of (context_texts_of flat)
        = PyStr.join (PyStr.nl +:+ PyStr.nl) ts)
  /\ (length (context_texts_of flat) <= length ps)%nat.
Proof.
  cbn zeta. unfold context_texts_of; cbn [Rag.contexts Rag.nested Rag.elements].
  split; [apply omap_text_nil |]. split; [apply omap_text_nil |].
  split; [| split].
  - intros H. apply omap_text_nil in H. by rewrite H.
  - intros ts H Hne. rewrite (omap_text_all ps ts H). by destruct ts.
  - apply omap_text_length.
Qed.

Lemma context_block_without_texts_witness :
  context_text_of
    (context_texts_of
       {| Rag.contexts := Some {| Rag.nested := None;
                                  Rag.elements := [ {| Rag.text := Some "" |} ] |} |})
  = "".
Proof.
  apply (proj1 (proj2 (proj2 (proj2
           (context_block_without_texts [ {| Rag.text := Some "" |} ] []))))
           [""]); [reflexivity | discriminate].
Defined.

(** ** The classifier's prompt *)

(** X12. The classifier sends two messages to the model: its fixed system
    message and the last message of the state.  Earlier messages are not
    sent, so two states that end with the same message are classified by
    the same run.  A failure of the model call leaves the step as it is,
    without a log line. *)
Theorem determine_question_type_uses_last_message_only env w s t llm (m : BaseMessage) :
  get_lc_llm env w = (t, inr llm) ->
  last (messages s) = Some m ->
  let prompt := [ {| kind := system; content := Text classifier_prompt; metadata := [] |};
                  m ] in
  determine_question_type env w s
  = match llm_invoke_structured w llm prompt with
    | Failed d =>
        ([CallChatModel llm; CallInvokeStructured llm prompt], inl (ServiceError d))
    | Returned r =>
        ([CallChatModel llm; CallInvokeStructured llm prompt;
          Print (PyStr.nl +:+ "[INFO] Question type determined: "
                 +:+ PyStr.of_option (response_question_type r))],
         inr {| d_messages := None;
                d_question_type := Some (response_question_type r);
                d_corpus_data := None |})
    end
  /\ forall s',
       last (messages s') = Some m ->
       determine_question_type env w s' = determine_question_type env w s.
Proof.
  intros Hllm Hm. cbn zeta.
  pose proof (get_lc_llm_returned env w t llm Hllm) as ->.
  split.
  - unfold determine_question_type.
    rewrite Hllm, bind_returned, (last_message_Some _ _ Hm), bind_ret.
    unfold call.
    destruct (llm_invoke_structured w llm _) as [d | r]; [reflexivity |].
    rewrite bind_returned. reflexivity.
  - intros s' Hm'. unfold determine_question_type, last_message.
    by rewrite Hm, Hm'.
Qed.

Lemma determine_question_type_uses_last_message_only_witness :
  determine_question_type Sample.env Sample.world
    {| messages := [HumanMessage "List all files"; Sample.question];
       question_type := None; corpus_data := None |}
  = determine_question_type Sample.env Sample.world Sample.state.
Proof.
  apply (determine_question_type_uses_last_message_only Sample.env Sample.world
           Sample.state _ _ Sample.question eq_refl eq_refl).
  reflexivity.
Defined.

(** ** Runs of the graph of [main] *)

Lemma all_events_bind_result (P : Event -> bool) {A B} (m : Run A) (k : A -> Run B) :
  all_events P m ->
  (forall a, result m = inr a -> all_events P (k a)) ->
  all_events P (bind m k).
Proof.
  unfold all_events. intros Hm Hk. rewrite trace_bind, forallb_app, Hm.
  destruct (result m) as [e | a] eqn:E; [reflexivity | by apply Hk].
Qed.

Lemma get_lc_llm_no_ingestion env w : all_events not_ingestion (get_lc_llm env w).
Proof.
  unfold all_events.
  destruct (get_lc_llm_cases env w) as [[e ->] | [(cfg & d & ->) | [cfg ->]]];
    reflexivity.
Qed.

Ltac all_events_steps :=
  repeat first
    [ apply get_lc_llm_no_ingestion
    | apply all_events_required | apply all_events_int_of
    | apply all_events_last_message
    | apply all_events_call; reflexivity | apply all_events_print; reflexivity
    | apply all_events_ret
    | apply all_events_try_reraise; [| intros ?]
    | apply all_events_bind; [| intros ?] ].

Lemma node_no_ingestion (n : string) (f : Node) env w s :
  assoc n nodes = Some f -> n <> "upload_node" ->
  all_events not_ingestion (f env w s).
Proof.
  intros Hn Hne.
  destruct (nodes_cases n f Hn) as [[-> _] | [[_ ->] | [[_ ->] | [[_ ->] | [_ ->]]]]];
    [congruence | | | |].
  - unfold determine_question_type. all_events_steps.
  - unfold corpus_data_node, list_corpus_files. all_events_steps.
  - unfold retrieve_node. all_events_steps.
  - unfold summary_node. all_events_steps.
Qed.

Lemma successor_not_upload (n : string) (f : Node) (s : GraphState) (n' : string) :
  assoc n nodes = Some f -> successor n s = Some n' ->
  n' = END \/ (is_Some (assoc n' nodes) /\ n' <> "upload_node").
Proof.
  intros Hn Hs.
  destruct (successor_depth n f s Hn) as (n0 & Hs0 & [-> | [Hin Hlt]]);
    rewrite Hs in Hs0; injection Hs0 as <-; [by left |].
  right. split; [assumption |]. intros ->.
  destruct (nodes_cases n f Hn) as [[-> _] | [[-> _] | [[-> _] | [[-> _] | [-> _]]]]];
    unfold depth in Hlt; simpl in Hlt; lia.
Qed.

Lemma run_no_ingestion (fuel : nat) :
  forall env w (n : string) (s : GraphState),
    n = END \/ (is_Some (assoc n nodes) /\ n <> "upload_node") ->
    all_events not_ingestion (run fuel env w n s).
Proof.
  induction fuel as [| fuel IH]; intros env w n s Hn.
  - simpl. destruct (String.eqb n END); reflexivity.
  - destruct Hn as [-> | [[f Hf] Hne]]; [by rewrite run_END |].
    assert (n <> END) as Hend by (intros ->; discriminate Hf).
    apply String.eqb_neq in Hend. simpl. rewrite Hend.
    apply all_events_bind_result.
    + unfold step. rewrite Hf. apply all_events_bind; [| intros ?; reflexivity].
      by apply (node_no_ingestion n f).
    + intros [s' o] Hr. unfold step in Hr. rewrite Hf in Hr.
      apply result_bind_inr in Hr as (d & _ & Hr). injection Hr as <- <-.
      cbn [fst snd].
      destruct (successor n (merge s d)) as [n' |] eqn:Hs; [| reflexivity].
      apply IH. by apply (successor_not_upload n f (merge s d)).
Qed.

(** X14. The graph of [main] starts at the classifier, so an invocation
    never runs the ingestion step: whatever the environment, the services
    and the state, its run lists no directory, uploads nothing and imports
    nothing. *)
Theorem invoke_never_ingests env w s :
  forallb (fun ev => negb (is_ingestion ev)) (trace (invoke env w s)) = true
  /\ assoc START edges = Some "determine_question_type"
  /\ forall n (s' : GraphState), successor n s' <> Some "upload_node".
Proof.
  split; [| split; [reflexivity |]].
  - apply (run_no_ingestion 4 env w "determine_question_type" s).
    right. split; [by eexists | discriminate].
  - intros n s' H. unfold successor in H.
    destruct (assoc n conditional_edges) as [[router branches] |] eqn:Hc.
    + unfold conditional_edges, assoc in Hc.
      destruct (String.eqb n "determine_question_type"); [| discriminate Hc].
      injection Hc as <- <-. unfold route_by_question_type in H.
      case_bool_decide; discriminate H.
    + unfold edges, assoc in H.
      repeat match type of H with
             | (if ?b then _ else _) = _ => destruct b; [discriminate H |]
             end.
      discriminate H.
Qed.

(** One step of a run that ends with a state. *)
Lemma run_S_inr (fuel : nat) env w (n : string) (s : GraphState)
    (o : option GraphState) :
  n <> END ->
  result (run (S fuel) env w n s) = inr o ->
  exists f d,
    assoc n nodes = Some f
    /\ result (f env w s) = inr d
    /\ forall n', successor n (merge s d) = Some n' ->
                   result (run fuel env w n' (merge s d)) = inr o.
Proof.
  intros Hend%String.eqb_neq H. cbn [run] in H. rewrite Hend in H.
  apply result_bind_inr in H as ([s' o'] & Hstep & H).
  unfold step in Hstep.
  destruct (assoc n nodes) as [f |] eqn:Hf; [| discriminate Hstep].
  apply result_bind_inr in Hstep as (d & Hd & Hstep). injection Hstep as <- <-.
  exists f, d. split; [reflexivity |]. split; [exact Hd |].
  cbn [fst snd] in H. intros n' Hn'. by rewrite Hn' in H.
Qed.

(** X15. An invocation that returns a state has run the classifier, one of
    the two branches, and the synthesis step.  On the corpus branch the
    state ends with the label ["corpus_overview"], the entries of the
    listing and one message more than at the start; on the retrieval
    branch it ends with any other label, the [corpus_data] it started
    with, and two messages more: the retrieved context and the reply. *)
Theorem invoke_final_state env w s s' :
  result (invoke env w s) = inr (Some s') ->
  (question_type s' = Some "corpus_overview"
   /\ (exists files,
         result (list_corpus_files env w (env !! "RAG_CORPUS")) = inr files
         /\ corpus_data s' = Some (map corpus_entry files))
   /\ exists answer, messages s' = messages s ++ [answer])
  \/ (question_type s' <> Some "corpus_overview"
      /\ corpus_data s' = corpus_data s
      /\ exists txt answer,
           messages s'
           = messages s ++ [ {| kind := ai; content := Text txt;
                                metadata := [("type", "rag_context")] |};
                             answer ]).
Proof.
  unfold invoke, invoke_from; simpl assoc. intros H.
  apply run_S_inr in H as (f1 & d1 & Hf1 & Hd1 & H); [| discriminate].
  injection Hf1 as <-.
  apply determine_question_type_delta in Hd1 as [qt ->].
  set (s1 := merge s _) in H.
  specialize (H _ (successor_classifier s1)).
  assert (messages s1 = messages s) as Hm1 by apply app_nil_r.
  unfold route_by_question_type in H.
  case_bool_decide as Hqt; [left | right].
  - apply run_S_inr in H as (f2 & d2 & Hf2 & Hd2 & H); [| discriminate].
    injection Hf2 as <-.
    apply corpus_data_node_delta in Hd2 as (files & Hfiles & ->).
    specialize (H "summary_node" eq_refl).
    apply run_S_inr in H as (f3 & d3 & Hf3 & Hd3 & H); [| discriminate].
    injection Hf3 as <-.
    apply summary_node_delta in Hd3 as [answer ->].
    specialize (H END eq_refl). rewrite run_END in H. injection H as <-.
    split; [exact Hqt |]. split; [exists files; split; [exact Hfiles | reflexivity] |].
    exists answer. cbn [messages merge d_messages only_messages default from_option].
    unfold id. by rewrite Hm1, app_nil_r.
  - apply run_S_inr in H as (f2 & d2 & Hf2 & Hd2 & H); [| discriminate].
    injection Hf2 as <-.
    apply retrieve_node_delta in Hd2 as [txt ->].
    specialize (H "summary_node" eq_refl).
    apply run_S_inr in H as (f3 & d3 & Hf3 & Hd3 & H); [| discriminate].
    injection Hf3 as <-.
    apply summary_node_delta in Hd3 as [answer ->].
    specialize (H END eq_refl). rewrite run_END in H. injection H as <-.
    split; [exact Hqt |]. split; [reflexivity |].
    exists txt, answer.
    cbn [messages merge d_messages only_messages default from_option].
    unfold id. by rewrite Hm1, <- app_assoc.
Qed.

Lemma invoke_final_state_witness :
  exists txt answer,
    messages {| messages := [Sample.question;
                             AIMessage (context_text_of (context_texts_of Sample.response))
                                       [("type", "rag_context")];
                             AIMessage "The runway is 5000 ft long." []];
                question_type := Some "specific_query";
                corpus_data := None |}
    = messages Sample.state
      ++ [ {| kind := ai; content := Text txt;
              metadata := [("type", "rag_context")] |}; answer ].
Proof.
  destruct (invoke_final_state Sample.env Sample.world Sample.state _ eq_refl)
    as [(Hqt & _) | (_ & _ & H)]; [discriminate Hqt | exact H].
Defined.

(** X16. The listing gathered by the corpus metadata step is not shown to
    the model: the step adds no message, and the synthesis step that
    follows it runs exactly as it would have run before it. *)
Theorem corpus_data_not_in_prompt env w s d :
  result (corpus_data_node env w s) = inr d ->
  messages (merge s d) = messages s
  /\ summary_node env w (merge s d) = summary_node env w s
  /\ successor "corpus_data_node" (merge s d) = Some "summary_node".
Proof.
  intros Hd. apply corpus_data_node_delta in Hd as (files & _ & ->).
  assert (messages (merge s {| d_messages := None; d_question_type := None;
                               d_corpus_data := Some (map corpus_entry files) |})
          = messages s) as Hm by apply app_nil_r.
  split; [exact Hm |]. split; [| reflexivity].
  unfold summary_node. by rewrite Hm.
Qed.

Lemma corpus_data_not_in_prompt_witness :
  summary_node Sample.env Sample.world
    (merge Sample.state
       {| d_messages := None; d_question_type := None;
          d_corpus_data := Some (map corpus_entry [Sample.file_a; Sample.file_bare]) |})
  = summary_node Sample.env Sample.world Sample.state.
Proof.
  apply (corpus_data_not_in_prompt Sample.env Sample.world Sample.state).
  reflexivity.
Defined.

(** ** Laws of runs over further events *)

Section GRunLaws.
Context {E A B : Type}.
Implicit Types (m : GRun E A) (k : A -> GRun E B).

Lemma gbind_gret (a : A) k : gbind (gret a) k = k a.
Proof. unfold gbind, gret. destruct (k a) as [t r]. reflexivity. Qed.

Lemma gbind_returned t (a : A) k :
  gbind (t, inr a) k = (t ++ fst (k a), snd (k a)).
Proof. unfold gbind. destruct (k a); reflexivity. Qed.

Lemma gbind_raised t (e : Exn) k : gbind (t, inl e) k = (t, inl e).
Proof. reflexivity. Qed.

Lemma gbind_inr_inv m k t (b : B) :
  gbind m k = (t, inr b) ->
  exists t1 a t2, m = (t1, inr a) /\ k a = (t2, inr b) /\ t = t1 ++ t2.
Proof.
  destruct m as [t1 [e | a]]; simpl; [discriminate |].
  destruct (k a) as [t2 r] eqn:Hk. intros [= <- ->]. eauto 6.
Qed.

End GRunLaws.

Lemma lift_required_set {E} (inj : Event -> E) (var s : string) :
  s <> "" -> lift inj (required var (Some s)) = gret s.
Proof. intros H. by rewrite (required_set var s H). Qed.

Lemma lift_required_unset {E} (inj : Event -> E) (var : string) (v : option string) :
  PyStr.truthy v = false ->
  lift inj (required var v) = graise (config_error var).
Proof. intros H. by rewrite (required_unset var v H). Qed.

(** ** Base names *)

Lemma last_slash (p : string) :
  PyStr.has_char "/" p = true ->
  exists dir base, p = dir +:+ String "/" base /\ PyStr.has_char "/" base = false.
Proof.
  induction p as [| c p IH]; [discriminate |].
  cbn [PyStr.has_char]. intros H.
  destruct (PyStr.has_char "/" p) eqn:Hp.
  - destruct (IH eq_refl) as (dir & base & -> & Hbase).
    exists (String c dir), base. split; [reflexivity | exact Hbase].
  - rewrite orb_false_r in H. apply Ascii.eqb_eq in H as ->.
    exists "", p. split; [reflexivity | exact Hp].
Qed.

Lemma basename_after_slash (dir base : string) :
  PyStr.has_char "/" base = false -> basename (dir +:+ String "/" base) = base.
Proof.
  intros H. unfold basename.
  rewrite split_app_sep, last_of_app by apply split_nonempty.
  by rewrite (split_no_sep _ _ H).
Qed.

Lemma basename_plain (p : string) :
  PyStr.has_char "/" p = false -> basename p = p.
Proof. intros H. unfold basename. by rewrite (split_no_sep _ _ H). Qed.

Lemma basename_cases (p : string) :
  PyStr.has_char "/" (basename p) = false
  /\ (p = basename p \/ exists dir, p = dir +:+ "/" +:+ basename p).
Proof.
  destruct (PyStr.has_char "/" p) eqn:Hp.
  - destruct (last_slash p Hp) as (dir & base & -> & Hbase).
    rewrite (basename_after_slash dir base Hbase). split; [exact Hbase |].
    right. by exists dir.
  - rewrite (basename_plain p Hp). split; [exact Hp | by left].
Qed.

(** ** Upload with metadata *)

Section UploadWithMetadata.
Context {V : Type}.
Variables (env : gmap string string) (w : World) (u : Metadata.Services V).
Variables (corpus_name file_path display_name description : string).
Variables (p l : string).
Hypothesis Hp : env !! "GCP_PROJECT_ID" = Some p.
Hypothesis Hp' : p <> "".
Hypothesis Hl : env !! "GCP_LOCATION" = Some l.
Hypothesis Hl' : l <> "".
Hypothesis Hinit : vertexai_init w p l = Returned tt.

Let shown := Metadata.shown_name file_path display_name.

Let opening : list Metadata.MEvent :=
  [ Metadata.Core (CallVertexInit p l);
    Metadata.Core (Print ("Uploading file with metadata: " +:+ shown)) ].

Let finish (js : option string) : GRun Metadata.MEvent Metadata.UploadedFile :=
  match Metadata.rag_upload_file u corpus_name file_path shown description js with
  | Failed d =>
      ([Metadata.CallUploadFile corpus_name file_path shown description js],
       inl (ServiceError d))
  | Returned rag_file =>
      match Metadata.obj_display_name rag_file, Metadata.obj_description rag_file,
            Metadata.obj_user_metadata rag_file, Metadata.obj_name rag_file with
      | None, _, _, _ =>
          ([Metadata.CallUploadFile corpus_name file_path shown description js],
           inl (AttributeError "display_name"))
      | Some _, None, _, _ =>
          ([Metadata.CallUploadFile corpus_name file_path shown description js],
           inl (AttributeError "description"))
      | Some _, Some _, None, _ =>
          ([Metadata.CallUploadFile corpus_name file_path shown description js],
           inl (AttributeError "user_metadata"))
      | Some _, Some _, Some _, None =>
          ([Metadata.CallUploadFile corpus_name file_path shown description js],
           inl (AttributeError "name"))
      | Some nm, Some descr, Some um, Some resource =>
          let res :=
            {| Metadata.name := nm;
               Metadata.description := Metadata.or_empty descr;
               Metadata.user_metadata := Metadata.or_empty um;
               Metadata.file_resource := resource |} in
          ([Metadata.CallUploadFile corpus_name file_path shown description js;
            Metadata.PrintUploaded res],
           inr res)
      end
  end.

(** The run with the configuration in place, by the shape of the
    metadata. *)
Lemma upload_file_with_metadata_configured (md : option (list (string * V))) :
  Metadata.upload_file_with_metadata env w u corpus_name file_path display_name
                                     description md
  = match md with
    | Some (kv :: rest) =>
        match Metadata.json_dumps u (kv :: rest) with
        | Failed d => (opening ++ [Metadata.CallJsonDumps], inl (ServiceError d))
        | Returned js =>
            (opening
             ++ [Metadata.CallJsonDumps;
                 Metadata.Core (Print ("  Custom metadata: " +:+ js))]
             ++ fst (finish (Some js)),
             snd (finish (Some js)))
        end
    | _ => (opening ++ fst (finish None), snd (finish None))
    end.
Proof.
  unfold Metadata.upload_file_with_metadata, finish, opening, shown,
    Metadata.shown_name.
  rewrite Hp, Hl, !lift_required_set, !gbind_gret by assumption.
  unfold gcall. rewrite Hinit.
  destruct md as [[| kv rest] |];
    [ | destruct (Metadata.json_dumps u (kv :: rest)) as [d | js] | ];
    cbn [gbind gemit gret fst snd app]; try reflexivity;
    destruct (Metadata.rag_upload_file u _ _ _ _ _)
      as [d | [[nm |] [descr |] [um |] [resource |]]];
    reflexivity.
Qed.

End UploadWithMetadata.

Lemma gresult_bind_inr {E A B} (m : GRun E A) (k : A -> GRun E B) (b : B) :
  snd (gbind m k) = inr b -> exists a, snd m = inr a /\ snd (k a) = inr b.
Proof.
  destruct m as [t [e | a]]; simpl; [discriminate |].
  destruct (k a) as [t' r] eqn:Hk. simpl. intros ->. exists a. by rewrite Hk.
Qed.

Lemma gcall_inr {E A} (ev : E) (o : outcome A) (a : A) :
  snd (gcall ev o) = inr a -> o = Returned a.
Proof. unfold gcall; simpl. destruct o; [discriminate | by intros [= ->]]. Qed.

(** X17. The file is uploaded under the display name it is given; when
    that name is empty, under the base name of its path, which has no
    slash and is what follows the last slash of the path.  Every upload
    call of the run carries the corpus, the path and the description as
    they were passed. *)
Theorem upload_file_with_metadata_display_name {V : Type}
    env w (u : Metadata.Services V)
    (corpus_name file_path display_name description : string)
    (md : option (list (string * V))) (p l : string) :
  env !! "GCP_PROJECT_ID" = Some p -> p <> "" ->
  env !! "GCP_LOCATION" = Some l -> l <> "" ->
  vertexai_init w p l = Returned tt ->
  let r := Metadata.upload_file_with_metadata env w u corpus_name file_path
             display_name description md in
  let shown := Metadata.shown_name file_path display_name in
  (exists rest,
     fst r = Metadata.Core (CallVertexInit p l)
             :: Metadata.Core (Print ("Uploading file with metadata: " +:+ shown))
             :: rest)
  /\ (forall c' path' name' descr' js,
        In (Metadata.CallUploadFile c' path' name' descr' js) (fst r) ->
        c' = corpus_name /\ path' = file_path /\ name' = shown
        /\ descr' = description)
  /\ (display_name <> "" -> shown = display_name)
  /\ (display_name = "" ->
      shown = basename file_path
      /\ PyStr.has_char "/" shown = false
      /\ (file_path = shown \/ exists dir, file_path = dir +:+ "/" +:+ shown)).
Proof.
  intros Hp Hp' Hl Hl' Hinit r shown. subst r.
  pose proof (upload_file_with_metadata_configured env w u corpus_name file_path
                display_name description p l Hp Hp' Hl Hl' Hinit md) as Hrun.
  cbv zeta in Hrun. rewrite Hrun. fold shown. clear Hrun.
  split; [| split; [| split]].
  - destruct md as [[| kv rest] |];
      try destruct (Metadata.json_dumps u (kv :: rest));
      cbn [fst app]; eauto.
  - intros c' path' name' descr' js Hin.
    match type of Hin with
    | In _ (fst ?run) =>
        assert (Forall (fun ev =>
                  match ev with
                  | Metadata.CallUploadFile c0 path0 name0 descr0 _ =>
                      c0 = corpus_name /\ path0 = file_path /\ name0 = shown
                      /\ descr0 = description
                  | _ => True
                  end) (fst run)) as Hall
    end.
    { destruct md as [[| kv rest] |];
        try destruct (Metadata.json_dumps u (kv :: rest));
        try destruct (Metadata.rag_upload_file u _ _ _ _ _)
        as [d | [[nm |] [descr |] [um |] [rn |]]];
        cbn [fst app]; repeat constructor. }
    rewrite Forall_forall in Hall.
    apply list_elem_of_In in Hin. exact (Hall _ Hin).
  - intros Hne. unfold shown, Metadata.shown_name.
    destruct display_name; [congruence | reflexivity].
  - intros ->. unfold shown, Metadata.shown_name.
    split; [reflexivity |]. apply basename_cases.
Qed.

Lemma upload_file_with_metadata_display_name_witness :
  Metadata.shown_name "docs/reports/q4.pdf" "" = basename "docs/reports/q4.pdf"
  /\ PyStr.has_char "/" (Metadata.shown_name "docs/reports/q4.pdf" "") = false
  /\ ("docs/reports/q4.pdf" = Metadata.shown_name "docs/reports/q4.pdf" ""
      \/ exists dir,
           "docs/reports/q4.pdf"
           = dir +:+ "/" +:+ Metadata.shown_name "docs/reports/q4.pdf" "").
Proof.
  refine (proj2 (proj2 (proj2
            (upload_file_with_metadata_display_name Sample.env Sample.world
               Metadata.sample_services "corpus" "docs/reports/q4.pdf" "" "fourth quarter"
               None "p" "us-central1" eq_refl _ eq_refl _ eq_refl))) eq_refl);
    discriminate.
Defined.

Example shown_name_examples :
  [ Metadata.shown_name "docs/reports/q4.pdf" "";
    Metadata.shown_name "docs/reports/q4.pdf" "Q4 report";
    Metadata.shown_name "q4.pdf" "";
    Metadata.shown_name "docs/" "" ]
  = ["q4.pdf"; "Q4 report"; "q4.pdf"; ""].
Proof. reflexivity. Qed.

(** X18. Metadata that is absent or an empty dictionary is not encoded:
    the upload receives no metadata and nothing is logged about it.  A
    dictionary with entries is encoded once, logged, and its encoding is
    what the upload receives; when the encoding fails the file is not
    uploaded. *)
Theorem upload_file_with_metadata_encodes_metadata {V : Type}
    env w (u : Metadata.Services V)
    (corpus_name file_path display_name description : string)
    (md : option (list (string * V))) (p l : string) :
  env !! "GCP_PROJECT_ID" = Some p -> p <> "" ->
  env !! "GCP_LOCATION" = Some l -> l <> "" ->
  vertexai_init w p l = Returned tt ->
  let r := Metadata.upload_file_with_metadata env w u corpus_name file_path
             display_name description md in
  let shown := Metadata.shown_name file_path display_name in
  (md = None \/ md = Some [] ->
   List.filter Metadata.is_service_call (fst r)
   = [Metadata.CallUploadFile corpus_name file_path shown description None])
  /\ (forall kv rest js,
        md = Some (kv :: rest) ->
        Metadata.json_dumps u (kv :: rest) = Returned js ->
        List.filter Metadata.is_service_call (fst r)
        = [Metadata.CallJsonDumps;
           Metadata.CallUploadFile corpus_name file_path shown description (Some js)]
        /\ In (Metadata.Core (Print ("  Custom metadata: " +:+ js))) (fst r))
  /\ (forall kv rest d,
        md = Some (kv :: rest) ->
        Metadata.json_dumps u (kv :: rest) = Failed d ->
        r = ([Metadata.Core (CallVertexInit p l);
              Metadata.Core (Print ("Uploading file with metadata: " +:+ shown));
              Metadata.CallJsonDumps],
             inl (ServiceError d))).
Proof.
  intros Hp Hp' Hl Hl' Hinit r shown. subst r.
  pose proof (upload_file_with_metadata_configured env w u corpus_name file_path
                display_name description p l Hp Hp' Hl Hl' Hinit md) as Hrun.
  cbv zeta in Hrun. rewrite Hrun. fold shown. clear Hrun.
  split; [| split].
  - intros [-> | ->];
      destruct (Metadata.rag_upload_file u _ _ _ _ _)
        as [d | [[nm |] [descr |] [um |] [rn |]]];
      reflexivity.
  - intros kv rest js -> ->.
    destruct (Metadata.rag_upload_file u _ _ _ _ _)
        as [d | [[nm |] [descr |] [um |] [rn |]]];
      (split; [reflexivity | cbn [fst app In]; tauto]).
  - intros kv rest d -> ->. reflexivity.
Qed.

Lemma upload_file_with_metadata_encodes_metadata_witness :
  List.filter Metadata.is_service_call
    (fst (Metadata.upload_file_with_metadata Sample.env Sample.world
            Metadata.sample_services "corpus" "docs/q4.pdf" "" "fourth quarter"
            (Some [])))
  = [Metadata.CallUploadFile "corpus" "docs/q4.pdf" "q4.pdf" "fourth quarter" None].
Proof.
  refine (proj1 (upload_file_with_metadata_encodes_metadata Sample.env Sample.world
                   Metadata.sample_services "corpus" "docs/q4.pdf" "" "fourth quarter"
                   (Some []) "p" "us-central1" eq_refl _ eq_refl _ eq_refl) _);
    [discriminate | discriminate | right; reflexivity].
Defined.

(** X19. The function raises the project or the location error before any
    effect.  After the upload call has returned a file object it reads the
    attributes [display_name], [description], [user_metadata] and [name]
    of that object, in this order and without a guard.  When the object
    has all four, the function logs and returns the result: the display
    name and the rendering of the resource name as the object has them,
    and the description and the metadata with the empty string in place
    of a value that is [None] or empty.  When the object lacks one of
    them, the function raises the attribute error of the first one it
    lacks, right after the upload call and without logging a result.  So
    whenever the function returns, the object had all four attributes. *)
Theorem upload_file_with_metadata_result {V : Type}
    env w (u : Metadata.Services V)
    (corpus_name file_path display_name description : string)
    (md : option (list (string * V))) :
  let r := Metadata.upload_file_with_metadata env w u corpus_name file_path
             display_name description md in
  let shown := Metadata.shown_name file_path display_name in
  (PyStr.truthy (env !! "GCP_PROJECT_ID") = false ->
   r = ([], inl (ValueError "GCP_PROJECT_ID environment variable is required")))
  /\ (PyStr.truthy (env !! "GCP_PROJECT_ID") = true ->
      PyStr.truthy (env !! "GCP_LOCATION") = false ->
      r = ([], inl (ValueError "GCP_LOCATION environment variable is required")))
  /\ (forall res,
        snd r = inr res ->
        exists js rag_file descr um,
          Metadata.rag_upload_file u corpus_name file_path shown description js
          = Returned rag_file
          /\ Metadata.obj_display_name rag_file = Some (Metadata.name res)
          /\ Metadata.obj_description rag_file = Some descr
          /\ Metadata.obj_user_metadata rag_file = Some um
          /\ Metadata.obj_name rag_file = Some (Metadata.file_resource res)
          /\ Metadata.description res = Metadata.or_empty descr
          /\ Metadata.user_metadata res = Metadata.or_empty um)
  /\ (forall p l js rag_file,
        env !! "GCP_PROJECT_ID" = Some p -> p <> "" ->
        env !! "GCP_LOCATION" = Some l -> l <> "" ->
        vertexai_init w p l = Returned tt ->
        Metadata.metadata_json u md = Returned js ->
        Metadata.rag_upload_file u corpus_name file_path shown description js
        = Returned rag_file ->
        let uploaded :=
          Metadata.CallUploadFile corpus_name file_path shown description js in
        (forall nm descr um rn,
           Metadata.obj_display_name rag_file = Some nm ->
           Metadata.obj_description rag_file = Some descr ->
           Metadata.obj_user_metadata rag_file = Some um ->
           Metadata.obj_name rag_file = Some rn ->
           let res := {| Metadata.name := nm;
                         Metadata.description := Metadata.or_empty descr;
                         Metadata.user_metadata := Metadata.or_empty um;
                         Metadata.file_resource := rn |} in
           snd r = inr res
           /\ exists pre, fst r = pre ++ [uploaded; Metadata.PrintUploaded res])
        /\ (Metadata.obj_display_name rag_file = None ->
            snd r = inl (AttributeError "display_name")
            /\ exists pre, fst r = pre ++ [uploaded])
        /\ (forall nm,
              Metadata.obj_display_name rag_file = Some nm ->
              Metadata.obj_description rag_file = None ->
              snd r = inl (AttributeError "description")
              /\ exists pre, fst r = pre ++ [uploaded])
        /\ (forall nm descr,
              Metadata.obj_display_name rag_file = Some nm ->
              Metadata.obj_description rag_file = Some descr ->
              Metadata.obj_user_metadata rag_file = None ->
              snd r = inl (AttributeError "user_metadata")
              /\ exists pre, fst r = pre ++ [uploaded])
        /\ (forall nm descr um,
              Metadata.obj_display_name rag_file = Some nm ->
              Metadata.obj_description rag_file = Some descr ->
              Metadata.obj_user_metadata rag_file = Some um ->
              Metadata.obj_name rag_file = None ->
              snd r = inl (AttributeError "name")
              /\ exists pre, fst r = pre ++ [uploaded]))
  /\ Metadata.or_empty None = ""
  /\ (forall t, Metadata.or_empty (Some t) = t).
Proof.
  cbn zeta.
  split; [| split; [| split; [| split; [| split]]]].
  - intros Hp. unfold Metadata.upload_file_with_metadata.
    by rewrite (lift_required_unset _ _ _ Hp).
  - intros Hp Hl. unfold Metadata.upload_file_with_metadata.
    destruct (env !! "GCP_PROJECT_ID") as [[| ? ?] |]; try discriminate Hp.
    rewrite lift_required_set, gbind_gret by discriminate.
    by rewrite (lift_required_unset _ _ _ Hl).
  - intros res H. unfold Metadata.upload_file_with_metadata in H.
    apply gresult_bind_inr in H as (project_id & _ & H).
    apply gresult_bind_inr in H as (location & _ & H).
    apply gresult_bind_inr in H as (? & _ & H).
    apply gresult_bind_inr in H as (? & _ & H).
    apply gresult_bind_inr in H as (js & _ & H).
    apply gresult_bind_inr in H as (rag_file & Hup & H).
    apply gcall_inr in Hup.
    apply gresult_bind_inr in H as (nm & Hnm & H).
    apply gresult_bind_inr in H as (descr & Hdescr & H).
    apply gresult_bind_inr in H as (um & Hum & H).
    apply gresult_bind_inr in H as (rn & Hrn & H).
    apply gresult_bind_inr in H as (? & _ & H).
    cbn [fst snd gret] in H. injection H as <-.
    exists js, rag_file, descr, um.
    cbn [Metadata.file_resource Metadata.name Metadata.description
           Metadata.user_metadata].
    unfold Metadata.getattr in Hnm, Hdescr, Hum, Hrn.
    destruct (Metadata.obj_display_name rag_file); [| discriminate Hnm].
    destruct (Metadata.obj_description rag_file); [| discriminate Hdescr].
    destruct (Metadata.obj_user_metadata rag_file); [| discriminate Hum].
    destruct (Metadata.obj_name rag_file); [| discriminate Hrn].
    cbn [snd gret] in Hnm, Hdescr, Hum, Hrn.
    injection Hnm as ->. injection Hdescr as ->.
    injection Hum as ->. injection Hrn as ->.
    repeat split; first [ exact Hup | reflexivity ].
  - intros p l js rag_file Hp Hp' Hl Hl' Hinit Hjs Hup.
    pose proof (upload_file_with_metadata_configured env w u corpus_name file_path
                  display_name description p l Hp Hp' Hl Hl' Hinit md) as Hrun.
    cbv zeta in Hrun. rewrite Hrun. clear Hrun.
    unfold Metadata.metadata_json in Hjs.
    destruct md as [[| kv rest] |];
      [ | destruct (Metadata.json_dumps u (kv :: rest)) as [d | js'] | ];
      try discriminate Hjs; injection Hjs as <-; rewrite Hup;
      (split; [| split; [| split; [| split]]]); intros; subst;
      repeat match goal with
             | H : _ = Some _ |- _ => rewrite H; clear H
             | H : _ = None |- _ => rewrite H; clear H
             end;
      cbn [fst snd]; (split; [reflexivity |]);
      rewrite ?app_assoc; eexists; reflexivity.
  - reflexivity.
  - intros t. by destruct t.
Qed.

(** The upload of a file without metadata, by a service that stores it
    under the name it is given, and by one whose file objects lack the
    attribute [user_metadata]. *)
Lemma upload_file_with_metadata_result_witness :
  snd (Metadata.upload_file_with_metadata Sample.env Sample.world
         Metadata.sample_services "corpus" "docs/q4.pdf" "" "fourth quarter" None)
  = inr {| Metadata.name := "q4.pdf";
           Metadata.description := "fourth quarter";
           Metadata.user_metadata := "";
           Metadata.file_resource :=
             "projects/p/locations/us-central1/ragCorpora/1/ragFiles/7" |}
  /\ snd (Metadata.upload_file_with_metadata Sample.env Sample.world
            Metadata.bare_services "corpus" "docs/q4.pdf" "" "fourth quarter" None)
     = inl (AttributeError "user_metadata").
Proof.
  split.
  - refine (proj1 (proj1 (proj1 (proj2 (proj2 (proj2
              (upload_file_with_metadata_result Sample.env Sample.world
                 Metadata.sample_services "corpus" "docs/q4.pdf" ""
                 "fourth quarter" None))))
              "p" "us-central1" None _ eq_refl _ eq_refl _ eq_refl eq_refl eq_refl)
              "q4.pdf" (Some "fourth quarter") None
              "projects/p/locations/us-central1/ragCorpora/1/ragFiles/7"
              eq_refl eq_refl eq_refl eq_refl));
      discriminate.
  - refine (proj1 (proj1 (proj2 (proj2 (proj2 (proj1 (proj2 (proj2 (proj2
              (upload_file_with_metadata_result Sample.env Sample.world
                 Metadata.bare_services "corpus" "docs/q4.pdf" ""
                 "fourth quarter" None))))
              "p" "us-central1" None _ eq_refl _ eq_refl _ eq_refl eq_refl eq_refl))))
              "q4.pdf" (Some "fourth quarter") eq_refl eq_refl eq_refl));
      discriminate.
Defined.

Example upload_file_with_metadata_sample :
  Metadata.upload_file_with_metadata Sample.env Sample.world
    Metadata.bare_services "corpus" "docs/q4.pdf" "" "fourth quarter" None
  = ([ Metadata.Core (CallVertexInit "p" "us-central1");
       Metadata.Core (Print "Uploading file with metadata: q4.pdf");
       Metadata.CallUploadFile "corpus" "docs/q4.pdf" "q4.pdf" "fourth quarter" None ],
     inl (AttributeError "user_metadata")).
Proof. reflexivity. Qed.

(** ** Sending a PDF with the question *)

Lemma encode_length_lt (n : nat) :
  forall bs, (length bs < n)%nat ->
             length (Direct.encode bs) = (4 * ((length bs + 2) / 3))%nat.
Proof.
  induction n as [| n IH]; intros bs Hlt; [lia |].
  destruct bs as [| a [| b [| c rest]]]; try reflexivity.
  cbn [Direct.encode length]. rewrite IH by (simpl in Hlt; lia).
  replace (S (S (S (length rest))) + 2)%nat with (length rest + 2 + 1 * 3)%nat by lia.
  rewrite Nat.div_add by lia. lia.
Qed.

Lemma length_list_ascii_of_string (s : string) :
  length (list_ascii_of_string s) = String.length s.
Proof. induction s as [| c s IH]; simpl; congruence. Qed.

Lemma length_string_of_list_ascii (l : list ascii) :
  String.length (string_of_list_ascii l) = length l.
Proof. induction l as [| c l IH]; simpl; congruence. Qed.

(** The encoded text has four characters for every three bytes, the last
    group padded. *)
Lemma b64encode_length (data : string) :
  String.length (Direct.b64encode data)
  = (4 * ((String.length data + 2) / 3))%nat.
Proof.
  unfold Direct.b64encode.
  rewrite length_string_of_list_ascii,
    (encode_length_lt (S (length (map N_of_ascii (list_ascii_of_string data)))))
    by lia.
  by rewrite length_map, length_list_ascii_of_string.
Qed.

Example b64encode_examples :
  map Direct.b64encode ["Man"; "Ma"; "M"; ""; "hello"; "%PDF-1.4"]
  = ["TWFu"; "TWE="; "TQ=="; ""; "aGVsbG8="; "JVBERi0xLjQ="].
Proof. reflexivity. Qed.

Lemma load_pdf_node_no_path (fs : Direct.Services) (s : Direct.GraphState) :
  Direct.pdf_path s = "" ->
  Direct.load_pdf_node fs s
  = ([Direct.Core (Print "[ERROR] PDF file not found: ")], inr []).
Proof. intros Hp. unfold Direct.load_pdf_node. rewrite Hp. reflexivity. Qed.

Lemma load_pdf_node_not_found (fs : Direct.Services) (s : Direct.GraphState) :
  Direct.pdf_path s <> "" ->
  Direct.path_exists fs (Direct.pdf_path s) = false ->
  Direct.load_pdf_node fs s
  = ([Direct.CallExists (Direct.pdf_path s);
      Direct.Core (Print ("[ERROR] PDF file not found: " +:+ Direct.pdf_path s))],
     inr []).
Proof.
  intros Hne Hex. unfold Direct.load_pdf_node.
  destruct (Direct.pdf_path s) as [| c p] eqn:Hp; [congruence |].
  rewrite Hex. reflexivity.
Qed.

Lemma direct_merge_nil (s : Direct.GraphState) : Direct.merge s [] = s.
Proof. destruct s. unfold Direct.merge; simpl. by rewrite app_nil_r. Qed.

(** X20. The PDF step fails softly when the path is empty or names no
    file: it logs one line, returns an empty list of messages and never
    opens a file; with an empty path it does not even ask whether the
    file exists.  The state, messages included, is not looked at. *)
Theorem load_pdf_node_soft_fail (fs : Direct.Services) (s : Direct.GraphState) :
  let r := Direct.load_pdf_node fs s in
  (Direct.pdf_path s = "" ->
   r = ([Direct.Core (Print "[ERROR] PDF file not found: ")], inr []))
  /\ (Direct.pdf_path s <> "" ->
      Direct.path_exists fs (Direct.pdf_path s) = false ->
      r = ([Direct.CallExists (Direct.pdf_path s);
            Direct.Core (Print ("[ERROR] PDF file not found: " +:+ Direct.pdf_path s))],
           inr []))
  /\ (Direct.pdf_path s = ""
      \/ Direct.path_exists fs (Direct.pdf_path s) = false ->
      snd r = inr [] /\ Direct.merge s [] = s
      /\ forallb (fun ev => negb (match ev with Direct.CallRead _ => true | _ => false end))
                 (fst r) = true).
Proof.
  cbn zeta.
  pose proof (direct_merge_nil s) as Hmerge.
  pose proof (load_pdf_node_no_path fs s) as H1.
  pose proof (load_pdf_node_not_found fs s) as H2.
  split; [exact H1 |]. split; [exact H2 |].
  intros [Hp | Hex].
  - rewrite (H1 Hp). auto.
  - destruct (string_dec (Direct.pdf_path s) "") as [Hp | Hne].
    + rewrite (H1 Hp). auto.
    + rewrite (H2 Hne Hex). auto.
Qed.

Lemma load_pdf_node_soft_fail_witness :
  Direct.load_pdf_node Direct.sample_services
    {| Direct.messages := [Direct.question]; Direct.pdf_path := "" |}
  = ([Direct.Core (Print "[ERROR] PDF file not found: ")], inr []).
Proof.
  apply (load_pdf_node_soft_fail Direct.sample_services
           {| Direct.messages := [Direct.question]; Direct.pdf_path := "" |}).
  reflexivity.
Defined.

(** The step once the file is there and has been read. *)
Lemma load_pdf_node_found (fs : Direct.Services) (s : Direct.GraphState)
    (pdf_bytes : string) :
  Direct.pdf_path s <> "" ->
  Direct.path_exists fs (Direct.pdf_path s) = true ->
  Direct.read_bytes fs (Direct.pdf_path s) = Returned pdf_bytes ->
  Direct.load_pdf_node fs s
  = ([Direct.CallExists (Direct.pdf_path s);
      Direct.Core (Print ("[INFO] Loading and encoding PDF: " +:+ Direct.pdf_path s));
      Direct.CallRead (Direct.pdf_path s);
      Direct.Core (Print ("[INFO] PDF encoded, size: "
                          +:+ PyStr.of_Z (Z.of_nat (String.length
                                                      (Direct.b64encode pdf_bytes)))
                          +:+ " characters"))],
     match last (Direct.messages s) with
     | Some m => inr [Direct.pdf_message (Direct.content m) pdf_bytes]
     | None => inl (IndexError "list index out of range")
     end).
Proof.
  intros Hne Hex Hread. unfold Direct.load_pdf_node, Direct.last_message.
  destruct (Direct.pdf_path s) as [| c p] eqn:Hp; [congruence |].
  rewrite Hex, Hread. destruct (last (Direct.messages s)); reflexivity.
Qed.

(** X21. The PDF step reads and encodes the file before it looks at the
    messages: on an empty message sequence the file is read, both lines
    are logged, and only then the out-of-bounds error is raised.  A file
    that cannot be read makes the step raise after the first log line. *)
Theorem load_pdf_node_reads_before_messages
    (fs : Direct.Services) (s : Direct.GraphState) :
  Direct.pdf_path s <> "" ->
  Direct.path_exists fs (Direct.pdf_path s) = true ->
  (forall d,
     Direct.read_bytes fs (Direct.pdf_path s) = Failed d ->
     Direct.load_pdf_node fs s
     = ([Direct.CallExists (Direct.pdf_path s);
         Direct.Core (Print ("[INFO] Loading and encoding PDF: "
                             +:+ Direct.pdf_path s));
         Direct.CallRead (Direct.pdf_path s)],
        inl (ServiceError d)))
  /\ (forall pdf_bytes,
        Direct.read_bytes fs (Direct.pdf_path s) = Returned pdf_bytes ->
        Direct.messages s = [] ->
        snd (Direct.load_pdf_node fs s) = inl (IndexError "list index out of range")
        /\ List.filter Direct.is_file_access (fst (Direct.load_pdf_node fs s))
           = [Direct.CallExists (Direct.pdf_path s);
              Direct.CallRead (Direct.pdf_path s)]
        /\ length (fst (Direct.load_pdf_node fs s)) = 4%nat).
Proof.
  intros Hne Hex. split.
  - intros d Hread. unfold Direct.load_pdf_node.
    destruct (Direct.pdf_path s) as [| c p] eqn:Hp; [congruence |].
    rewrite Hex, Hread. reflexivity.
  - intros pdf_bytes Hread Hnil.
    rewrite (load_pdf_node_found fs s pdf_bytes Hne Hex Hread), Hnil.
    repeat split.
Qed.

Lemma load_pdf_node_reads_before_messages_witness :
  snd (Direct.load_pdf_node Direct.sample_services
         {| Direct.messages := [];
            Direct.pdf_path := "files_to_upload/20071229X02007.pdf" |})
  = inl (IndexError "list index out of range").
Proof.
  refine (proj1 (proj2 (load_pdf_node_reads_before_messages Direct.sample_services
                          {| Direct.messages := [];
                             Direct.pdf_path := "files_to_upload/20071229X02007.pdf" |}
                          _ eq_refl) "%PDF-1.4" eq_refl eq_refl)).
  discriminate.
Defined.

(** X22. When the file is read and there is a last message, the step
    returns one human message of two blocks: a text block that holds the
    content of the last message, and a media block of type
    application/pdf whose data is the base64 text of the bytes read.  The
    size it logs is four characters for every three bytes, rounded up. *)
Theorem load_pdf_node_message
    (fs : Direct.Services) (s : Direct.GraphState) (pdf_bytes : string)
    (m : Direct.Message) :
  Direct.pdf_path s <> "" ->
  Direct.path_exists fs (Direct.pdf_path s) = true ->
  Direct.read_bytes fs (Direct.pdf_path s) = Returned pdf_bytes ->
  last (Direct.messages s) = Some m ->
  snd (Direct.load_pdf_node fs s)
  = inr [ {| Direct.kind := human;
             Direct.content :=
               Direct.Blocks
                 [ [ ("type", Direct.FStr "text");
                     ("text", Direct.FContent (Direct.content m)) ];
                   [ ("type", Direct.FStr "media");
                     ("mime_type", Direct.FStr "application/pdf");
                     ("data", Direct.FStr (Direct.b64encode pdf_bytes)) ] ] |} ]
  /\ In (Direct.Core
           (Print ("[INFO] PDF encoded, size: "
                   +:+ PyStr.of_Z (4 * ((Z.of_nat (String.length pdf_bytes) + 2) / 3))
                   +:+ " characters")))
        (fst (Direct.load_pdf_node fs s))
  /\ String.length (Direct.b64encode pdf_bytes)
     = (4 * ((String.length pdf_bytes + 2) / 3))%nat.
Proof.
  intros Hne Hex Hread Hm.
  rewrite (load_pdf_node_found fs s pdf_bytes Hne Hex Hread), Hm.
  split; [reflexivity |]. split; [| apply b64encode_length].
  rewrite b64encode_length.
  replace (Z.of_nat (4 * ((String.length pdf_bytes + 2) / 3)))
    with (4 * ((Z.of_nat (String.length pdf_bytes) + 2) / 3)).
  - cbn [fst In]. tauto.
  - rewrite Nat2Z.inj_mul, Nat2Z.inj_div, Nat2Z.inj_add. reflexivity.
Qed.

Lemma load_pdf_node_message_witness :
  snd (Direct.load_pdf_node Direct.sample_services
         {| Direct.messages := [Direct.question];
            Direct.pdf_path := "files_to_upload/20071229X02007.pdf" |})
  = inr [ {| Direct.kind := human;
             Direct.content :=
               Direct.Blocks
                 [ [ ("type", Direct.FStr "text");
                     ("text", Direct.FContent (Direct.content Direct.question)) ];
                   [ ("type", Direct.FStr "media");
                     ("mime_type", Direct.FStr "application/pdf");
                     ("data", Direct.FStr (Direct.b64encode "%PDF-1.4")) ] ] |} ].
Proof.
  refine (proj1 (load_pdf_node_message Direct.sample_services
                   {| Direct.messages := [Direct.question];
                      Direct.pdf_path := "files_to_upload/20071229X02007.pdf" |}
                   "%PDF-1.4" Direct.question _ eq_refl eq_refl eq_refl)).
  discriminate.
Defined.

Lemma direct_llm_node_built env w (fs : Direct.Services) (s : Direct.GraphState) t llm :
  get_lc_llm env w = (t, inr llm) ->
  Direct.llm_node env w fs s
  = ([Direct.Core (CallChatModel llm); Direct.CallInvoke llm (Direct.messages s)],
     match Direct.llm_invoke fs llm (Direct.messages s) with
     | Failed d => inl (ServiceError d)
     | Returned r => inr [r]
     end).
Proof.
  intros Hllm. pose proof (get_lc_llm_returned env w t llm Hllm) as ->.
  unfold Direct.llm_node, lift. rewrite Hllm. cbn [fst snd map].
  unfold gcall. rewrite gbind_returned.
  destruct (Direct.llm_invoke fs llm (Direct.messages s)); reflexivity.
Qed.

(** X23. The model step of this graph sends the messages of the state as
    they are, with no system message in front, and returns the reply as
    its only message.  It does not read the last message: on an empty
    sequence the model is called with no message at all. *)
Theorem direct_llm_node_prompt env w (fs : Direct.Services) (s : Direct.GraphState)
    t llm :
  get_lc_llm env w = (t, inr llm) ->
  List.filter Direct.is_model_call (fst (Direct.llm_node env w fs s))
  = [Direct.CallInvoke llm (Direct.messages s)]
  /\ (forall r,
        Direct.llm_invoke fs llm (Direct.messages s) = Returned r ->
        snd (Direct.llm_node env w fs s) = inr [r])
  /\ (forall d,
        Direct.llm_invoke fs llm (Direct.messages s) = Failed d ->
        snd (Direct.llm_node env w fs s) = inl (ServiceError d))
  /\ (Direct.messages s = [] ->
      List.filter Direct.is_model_call (fst (Direct.llm_node env w fs s))
      = [Direct.CallInvoke llm []]).
Proof.
  intros Hllm. rewrite (direct_llm_node_built env w fs s t llm Hllm).
  split; [reflexivity |].
  split; [intros r ->; reflexivity |].
  split; [intros d ->; reflexivity |].
  intros ->. reflexivity.
Qed.

Lemma direct_llm_node_prompt_witness :
  snd (Direct.llm_node Sample.env Sample.world Direct.sample_services
         {| Direct.messages := []; Direct.pdf_path := "" |})
  = inr [ {| Direct.kind := ai; Direct.content := Direct.Str "5000 ft, on page 3." |} ].
Proof.
  refine (proj1 (proj2 (direct_llm_node_prompt Sample.env Sample.world
                          Direct.sample_services
                          {| Direct.messages := []; Direct.pdf_path := "" |}
                          _ _ eq_refl)) _ eq_refl).
Defined.

(** X24. In the graph of this file the model is asked also when the PDF
    step failed softly, then with the messages of the start alone.  When
    the PDF was attached, the model receives the messages of the start
    followed by the new message, so the content of the last message is
    sent twice: as that message and inside the text block of the new one;
    the state ends with the new message and the reply appended. *)
Theorem direct_invoke_prompt env w (fs : Direct.Services) (s : Direct.GraphState)
    t llm :
  get_lc_llm env w = (t, inr llm) ->
  (Direct.pdf_path s = ""
   \/ Direct.path_exists fs (Direct.pdf_path s) = false ->
   List.filter Direct.is_model_call (fst (Direct.invoke env w fs s))
   = [Direct.CallInvoke llm (Direct.messages s)]
   /\ forall r,
        Direct.llm_invoke fs llm (Direct.messages s) = Returned r ->
        snd (Direct.invoke env w fs s)
        = inr {| Direct.messages := Direct.messages s ++ [r];
                 Direct.pdf_path := Direct.pdf_path s |})
  /\ (forall pdf_bytes m,
        Direct.pdf_path s <> "" ->
        Direct.path_exists fs (Direct.pdf_path s) = true ->
        Direct.read_bytes fs (Direct.pdf_path s) = Returned pdf_bytes ->
        last (Direct.messages s) = Some m ->
        let sent := Direct.messages s
                    ++ [Direct.pdf_message (Direct.content m) pdf_bytes] in
        List.filter Direct.is_model_call (fst (Direct.invoke env w fs s))
        = [Direct.CallInvoke llm sent]
        /\ forall r,
             Direct.llm_invoke fs llm sent = Returned r ->
             snd (Direct.invoke env w fs s)
             = inr {| Direct.messages := sent ++ [r];
                      Direct.pdf_path := Direct.pdf_path s |}).
Proof.
  intros Hllm. split.
  - intros Hsoft.
    assert (exists t0, Direct.load_pdf_node fs s = (t0, inr [])
                       /\ List.filter Direct.is_model_call t0 = []) as (t0 & Hload & Ht0).
    { destruct (string_dec (Direct.pdf_path s) "") as [Hp | Hne].
      - rewrite (load_pdf_node_no_path fs s Hp). eauto.
      - destruct Hsoft as [Hp | Hex]; [contradiction |].
        rewrite (load_pdf_node_not_found fs s Hne Hex). eauto. }
    unfold Direct.invoke. rewrite Hload, gbind_returned, direct_merge_nil.
    rewrite (direct_llm_node_built env w fs s t llm Hllm).
    split.
    + destruct (Direct.llm_invoke fs llm (Direct.messages s));
        cbn [gbind gret fst snd]; rewrite ?app_nil_r, List.filter_app, Ht0;
        reflexivity.
    + intros r ->. reflexivity.
  - intros pdf_bytes m Hne Hex Hread Hm sent.
    unfold Direct.invoke.
    rewrite (load_pdf_node_found fs s pdf_bytes Hne Hex Hread), Hm, gbind_returned.
    rewrite (direct_llm_node_built env w fs _ t llm Hllm).
    cbn [Direct.messages Direct.merge]. fold sent.
    split.
    + destruct (Direct.llm_invoke fs llm sent); reflexivity.
    + intros r ->. reflexivity.
Qed.

Lemma direct_invoke_prompt_witness :
  List.filter Direct.is_model_call
    (fst (Direct.invoke Sample.env Sample.world Direct.sample_services
            {| Direct.messages := [Direct.question]; Direct.pdf_path := "missing.pdf" |}))
  = [Direct.CallInvoke {| model := "gemini-2.5-flash"; project := Some "p";
                          location := "us-central1";
                          temperature := DefaultTemperature;
                          max_output_tokens := 8192 |}
                       [Direct.question]].
Proof.
  refine (proj1 (proj1 (direct_invoke_prompt Sample.env Sample.world
                          Direct.sample_services
                          {| Direct.messages := [Direct.question];
                             Direct.pdf_path := "missing.pdf" |}
                          _ _ eq_refl) _)).
  right. reflexivity.
Defined.
